(** * Basana, Binance connector: normalized views and exchange facades

    A shallow embedding of [basana/external/binance/common.py] (payload
    wrappers: [Trade], [OrderWrapper], [OrderInfo], [CreatedOrder],
    [OCOOrderWrapper]) and of [basana/external/binance/exchange.py]
    ([SpotExchange], [FuturesExchange]), together with the properties the
    specification states about them.

    Python values are modelled as follows.
    - A decoded JSON payload is a [jval] tree; Python's [None] is [JNull].
    - A raised exception is a value of [exn]; a computation that may raise
      has type [result A].
    - [decimal.Decimal] is a coefficient and an exponent, with the
      arithmetic of the default context (28 significant digits, rounding
      half to even).
    - A facade method is a function from the facade's state to an outcome
      and the state it leaves behind. *)

From stdpp Require Import gmap strings list fin_maps pretty.
From Stdlib Require Import Ascii ZArith QArith Qpower Lia.

Set Warnings "-register-all".

Local Open Scope Z_scope.

(** ** Exceptions and results *)

Inductive exn : Type :=
  | AssertionError (msg : string)
  | KeyError (key : string)
  | IndexError (msg : string)
  | TypeError (msg : string)
  | AttributeError (msg : string)
  | ValueError (msg : string)
  | InvalidOperation (msg : string)
  | DivisionByZero
  | ExternalError (cls msg : string).

(** The name of the exception's class, as [type(e).__name__] gives it.
    [ExternalError] stands for what a collaborator (the REST client, the
    transport) raises, under the class name it carries. *)
Definition exn_class (e : exn) : string :=
  match e with
  | AssertionError _ => "AssertionError"
  | KeyError _ => "KeyError"
  | IndexError _ => "IndexError"
  | TypeError _ => "TypeError"
  | AttributeError _ => "AttributeError"
  | ValueError _ => "ValueError"
  | InvalidOperation _ => "InvalidOperation"
  | DivisionByZero => "DivisionByZero"
  | ExternalError cls _ => cls
  end.

Inductive result (A : Type) : Type :=
  | Ok (a : A)
  | Raise (e : exn).
Arguments Ok {A} a.
Arguments Raise {A} e.

#[global] Instance result_ret : MRet result := fun A a => Ok a.
#[global] Instance result_bind : MBind result := fun A B f m =>
  match m with
  | Ok a => f a
  | Raise e => Raise e
  end.

Definition is_ok {A} (r : result A) : bool :=
  match r with Ok _ => true | Raise _ => false end.

Definition fails {A} (r : result A) : Prop := exists e, r = Raise e.

(** [assert cond, msg] *)
Definition py_assert (cond : bool) (msg : string) : result unit :=
  if cond then Ok tt else Raise (AssertionError msg).

(** ** JSON payloads *)

Inductive jval : Type :=
  | JNull
  | JBool (b : bool)
  | JInt (z : Z)
  | JStr (s : string)
  | JList (l : list jval)
  | JDict (m : gmap string jval).

Module Json.

(** [j[k]] for a string key. *)
Definition getitem (j : jval) (k : string) : result jval :=
  match j with
  | JDict m =>
      match m !! k with
      | Some v => Ok v
      | None => Raise (KeyError k)
      end
  | JList _ => Raise (TypeError "list indices must be integers or slices, not str")
  | JStr _ => Raise (TypeError "string indices must be integers, not 'str'")
  | _ => Raise (TypeError "object is not subscriptable")
  end.

(** [j.get(k, dflt)]; [j.get(k)] is [get j k JNull]. *)
Definition get (j : jval) (k : string) (dflt : jval) : result jval :=
  match j with
  | JDict m => Ok (default dflt (m !! k))
  | _ => Raise (AttributeError "object has no attribute 'get'")
  end.

(** [j[0]] *)
Definition index0 (j : jval) : result jval :=
  match j with
  | JList (x :: _) => Ok x
  | JList [] => Raise (IndexError "list index out of range")
  | JStr (String c _) => Ok (JStr (String c EmptyString))
  | JStr EmptyString => Raise (IndexError "string index out of range")
  | JDict _ => Raise (KeyError "0")
  | _ => Raise (TypeError "object is not subscriptable")
  end.

(** [len(j)] *)
Definition len (j : jval) : result Z :=
  match j with
  | JList l => Ok (Z.of_nat (length l))
  | JDict m => Ok (Z.of_nat (size m))
  | JStr s => Ok (Z.of_nat (String.length s))
  | _ => Raise (TypeError "object has no len()")
  end.

(** The elements [for x in j] goes through: the items of a list, the
    characters of a string, the keys of a dict. *)
Definition iter (j : jval) : result (list jval) :=
  match j with
  | JList l => Ok l
  | JStr s => Ok ((fun c => JStr (String c EmptyString)) <$> String.list_ascii_of_string s)
  | JDict m => Ok (JStr <$> (map_to_list m).*1)
  | _ => Raise (TypeError "object is not iterable")
  end.

(** [j == s] for a string [s]: a value that is not a string is unequal. *)
Definition eq_str (j : jval) (s : string) : bool :=
  match j with
  | JStr s' => String.eqb s' s
  | _ => false
  end.

(** [bool(j)] *)
Definition truthy (j : jval) : bool :=
  match j with
  | JNull => false
  | JBool b => b
  | JInt z => negb (z =? 0)
  | JStr s => negb (String.eqb s EmptyString)
  | JList l => negb (Nat.eqb (length l) 0)
  | JDict m => negb (Nat.eqb (size m) 0)
  end.

Definition dict (kvs : list (string * jval)) : jval :=
  JDict (list_to_map kvs).

End Json.

(** ** decimal.Decimal *)

Module Decimal.

(** A finite decimal: the number [coef * 10 ^ exp]. The sign of a zero
    is not kept, and the special values (NaN, Infinity) and the limits
    on the exponent (Emin, Emax) are outside the model. *)
Record t : Type := mk { coef : Z; exp : Z }.

(** [getcontext().prec] *)
Definition prec : Z := 28.

Fixpoint ndigits_aux (fuel : nat) (n : Z) : Z :=
  match fuel with
  | O => 1
  | S fuel' => if n <? 10 then 1 else 1 + ndigits_aux fuel' (n / 10)
  end.

(** [len(str(n))] for [0 <= n]. *)
Definition ndigits (n : Z) : Z :=
  ndigits_aux (S (Z.to_nat (Z.log2 n))) n.

(** [n / 10 ^ k] rounded to the nearest integer, ties to even. *)
Definition round_half_even (n k : Z) : Z :=
  let p := 10 ^ k in
  let q := n / p in
  let r := n mod p in
  if 2 * r <? p then q
  else if 2 * r =? p then (if Z.even q then q else q + 1)
  else q + 1.

(** [Decimal._fix]: round to the precision of the context. *)
Definition fix_ (d : t) : t :=
  let n := Z.abs (coef d) in
  if ndigits n <=? prec then d
  else
    let k := ndigits n - prec in
    let q := round_half_even n k in
    if q =? 10 ^ prec
    then mk (Z.sgn (coef d) * 10 ^ (prec - 1)) (exp d + k + 1)
    else mk (Z.sgn (coef d) * q) (exp d + k).

(** The sum before rounding, at the smaller of the two exponents. *)
Definition add_exact (x y : t) : t :=
  let e := Z.min (exp x) (exp y) in
  mk (coef x * 10 ^ (exp x - e) + coef y * 10 ^ (exp y - e)) e.

(** [x + y] *)
Definition add (x y : t) : t := fix_ (add_exact x y).

(** [-x], without rounding ([copy_negate]). *)
Definition neg (x : t) : t := mk (- coef x) (exp x).

(** [x - y] *)
Definition sub (x y : t) : t := add x (neg y).

Fixpoint strip_zeros (fuel : nat) (c e : Z) : Z * Z :=
  match fuel with
  | O => (c, e)
  | S fuel' =>
      if c mod 10 =? 0 then strip_zeros fuel' (c / 10) (e + 1) else (c, e)
  end.

(** [x / y] *)
Definition div (x y : t) : result t :=
  if coef y =? 0 then
    if coef x =? 0 then Raise (InvalidOperation "0 / 0") else Raise DivisionByZero
  else if coef x =? 0 then Ok (fix_ (mk 0 (exp x - exp y)))
  else
    let a := Z.abs (coef x) in
    let b := Z.abs (coef y) in
    let sign := Z.sgn (coef x) * Z.sgn (coef y) in
    let shift := ndigits b - ndigits a + prec + 1 in
    let e := exp x - exp y - shift in
    let '(q, r) :=
      if 0 <=? shift then Z.div_eucl (a * 10 ^ shift) b
      else Z.div_eucl a (b * 10 ^ (- shift)) in
    let '(q', e') :=
      if r =? 0 then strip_zeros (Z.to_nat (exp x - exp y - e)) q e
      else ((if q mod 5 =? 0 then q + 1 else q), e) in
    Ok (fix_ (mk (sign * q') e')).

(** [bool(x)]: a decimal is true when it is not zero. *)
Definition truthy (x : t) : bool := negb (coef x =? 0).

(** [x == y]: comparison of the numbers, not of the representations. *)
Definition eqb (x y : t) : bool :=
  let e := Z.min (exp x) (exp y) in
  coef x * 10 ^ (exp x - e) =? coef y * 10 ^ (exp y - e).

(** [Decimal()] and [Decimal(n)] *)
Definition zero : t := mk 0 0.
Definition of_Z (n : Z) : t := mk n 0.

(** *** [Decimal(s)] for a string: sign, digits, fraction, exponent. *)

Definition digit_of (c : ascii) : option Z :=
  let n := Z.of_nat (nat_of_ascii c) in
  if (48 <=? n) && (n <=? 57) then Some (n - 48) else None.

Fixpoint take_digits (s : string) : list Z * string :=
  match s with
  | EmptyString => ([], EmptyString)
  | String c r =>
      match digit_of c with
      | Some d => let '(ds, rest) := take_digits r in (d :: ds, rest)
      | None => ([], s)
      end
  end.

Definition digits_value (ds : list Z) : Z :=
  fold_left (fun acc d => 10 * acc + d) ds 0.

Definition take_sign (s : string) : bool * string :=
  match s with
  | String "-" r => (true, r)
  | String "+" r => (false, r)
  | _ => (false, s)
  end.

Definition parse_exponent (s : string) : option Z :=
  match s with
  | EmptyString => Some 0
  | String c r =>
      if (Ascii.eqb c "e" || Ascii.eqb c "E")%bool then
        let '(negative, r1) := take_sign r in
        let '(ds, rest) := take_digits r1 in
        match ds, rest with
        | _ :: _, EmptyString =>
            Some (if negative then - digits_value ds else digits_value ds)
        | _, _ => None
        end
      else None
  end.

Definition of_string (s : string) : result t :=
  let '(negative, s1) := take_sign s in
  let '(ip, s2) := take_digits s1 in
  let '(fp, s3) :=
    match s2 with
    | String "." r => take_digits r
    | _ => ([], s2)
    end in
  match ip ++ fp, parse_exponent s3 with
  | _ :: _, Some e =>
      let c := digits_value (ip ++ fp) in
      Ok (mk (if negative then - c else c) (e - Z.of_nat (length fp)))
  | _, _ => Raise (InvalidOperation "ConversionSyntax")
  end.

(** [Decimal(j)] for a payload value: a string is parsed, an integer
    (or a boolean, which is an integer) is taken as it is. The strings
    taken are the plain numerals; blanks, underscores and the names of
    the special values are refused here, and so is a list, which the
    library would read as a (sign, digits, exponent) triple. *)
Definition of_json (j : jval) : result t :=
  match j with
  | JStr s => of_string s
  | JInt z => Ok (of_Z z)
  | JBool b => Ok (of_Z (if b then 1 else 0))
  | _ => Raise (TypeError "conversion to Decimal is not supported")
  end.

(** The rational number a decimal stands for. *)
Definition value (x : t) : Q := (inject_Z (coef x) * (10 # 1) ^ exp x)%Q.

(** A decimal that the context's precision holds without rounding. *)
Definition fits (x : t) : Prop := Z.abs (coef x) < 10 ^ prec.

End Decimal.

Abbreviation Decimal := Decimal.t.

(** ** Hashable payload values, as dictionary keys

    Python compares keys with [==] and [hash]: [True] and [1] are the same
    key, a list or a dict is not hashable. *)

Inductive pykey : Type :=
  | KNone
  | KInt (z : Z)
  | KStr (s : string).

#[global] Instance pykey_eq_dec : EqDecision pykey.
Proof. solve_decision. Defined.

#[global] Instance pykey_countable : Countable pykey.
Proof.
  refine (inj_countable'
    (fun k => match k with
              | KNone => inl tt
              | KInt z => inr (inl z)
              | KStr s => inr (inr s)
              end)
    (fun x => match x with
              | inl _ => KNone
              | inr (inl z) => KInt z
              | inr (inr s) => KStr s
              end) _).
  intros []; reflexivity.
Defined.

(** [hash(j)], kept as the key the value stands for. *)
Definition py_hashable (j : jval) : result pykey :=
  match j with
  | JNull => Ok KNone
  | JBool b => Ok (KInt (if b then 1 else 0))
  | JInt z => Ok (KInt z)
  | JStr s => Ok (KStr s)
  | JList _ => Raise (TypeError "unhashable type: 'list'")
  | JDict _ => Raise (TypeError "unhashable type: 'dict'")
  end.

(** [for x in l: acc = f(acc, x)], stopping at the first exception. *)
Fixpoint foldM {A B : Type} (f : B -> A -> result B) (acc : B) (l : list A)
  : result B :=
  match l with
  | [] => Ok acc
  | x :: l' => acc' ← f acc x; foldM f acc' l'
  end.

(** [filter(f, l)] consumed by [list()]: the predicate is evaluated on the
    elements in order and the first exception ends it. *)
Fixpoint filterM {A : Type} (f : A -> result bool) (l : list A)
  : result (list A) :=
  match l with
  | [] => Ok []
  | x :: l' =>
      b ← f x;
      rest ← filterM f l';
      Ok (if b : bool then x :: rest else rest)
  end.

(** [l[0]] *)
Definition py_index0 {A : Type} (l : list A) : result A :=
  match l with
  | x :: _ => Ok x
  | [] => Raise (IndexError "list index out of range")
  end.

(** * [basana/external/binance/common.py] *)

Module Trade.

Record t : Type := mk { json : jval }.

Definition commission (self : t) : result Decimal :=
  v ← Json.getitem (json self) "commission"; Decimal.of_json v.

Definition commission_asset (self : t) : result jval :=
  Json.getitem (json self) "commissionAsset".

End Trade.

Module OrderWrapper.

Definition amount (json : jval) : result Decimal :=
  v ← Json.getitem json "origQty"; Decimal.of_json v.

Definition amount_filled (json : jval) : result Decimal :=
  v ← Json.getitem json "executedQty"; Decimal.of_json v.

Definition quote_amount_filled (json : jval) : result Decimal :=
  v ← Json.getitem json "cummulativeQuoteQty"; Decimal.of_json v.

End OrderWrapper.

Module OrderInfo.

(** [OrderInfo(OrderWrapper)]: the payload, the trades and the fees
    dictionary, a [collections.defaultdict(Decimal)]. *)
Record t : Type := mk {
  json : jval;
  trades : list Trade.t;
  _fees : gmap pykey Decimal
}.

(** [d[k]] on a [defaultdict(Decimal)]: a missing key reads as
    [Decimal()] and is stored. *)
Definition defaultdict_getitem (d : gmap pykey Decimal) (k : pykey)
  : Decimal * gmap pykey Decimal :=
  match d !! k with
  | Some v => (v, d)
  | None => (Decimal.zero, <[k := Decimal.zero]> d)
  end.

(** One turn of the loop of [__init__]:
    [if trade.commission: self._fees[trade.commission_asset] += trade.commission] *)
Definition add_fee (fees : gmap pykey Decimal) (trade : Trade.t)
  : result (gmap pykey Decimal) :=
  c ← Trade.commission trade;
  if Decimal.truthy c then
    asset ← Trade.commission_asset trade;
    k ← py_hashable asset;
    let '(old, fees') := defaultdict_getitem fees k in
    c' ← Trade.commission trade;
    Ok (<[k := Decimal.add old c']> fees')
  else Ok fees.

Definition __init__ (json : jval) (trades : list Trade.t) : result t :=
  fees ← foldM add_fee ∅ trades;
  Ok (mk json trades fees).

Definition amount (self : t) : result Decimal := OrderWrapper.amount (json self).
Definition amount_filled (self : t) : result Decimal :=
  OrderWrapper.amount_filled (json self).
Definition quote_amount_filled (self : t) : result Decimal :=
  OrderWrapper.quote_amount_filled (json self).

Definition amount_remaining (self : t) : result Decimal :=
  a ← amount self;
  f ← amount_filled self;
  Ok (Decimal.sub a f).


Definition fees (self : t) : gmap pykey Decimal := _fees self.

(** [self.fees[asset]]: the value read, and the object after the read
    (the dictionary is a defaultdict). *)
Definition fees_getitem (self : t) (asset : pykey) : Decimal * t :=
  let '(v, d) := defaultdict_getitem (fees self) asset in
  (v, mk (json self) (trades self) d).

End OrderInfo.

Module CreatedOrder.

Record t : Type := mk { json : jval }.

Section WithHelpers.

(** [helpers.order_status_is_open], of a module outside this file. *)
Variable order_status_is_open : jval -> result bool.

Definition status (self : t) : result jval :=
  Json.get (json self) "status" JNull.

Definition is_open (self : t) : result bool :=
  s ← status self;
  _ ← py_assert (match s with JNull => false | _ => true end) "status not set";
  s' ← status self;
  order_status_is_open s'.

End WithHelpers.

End CreatedOrder.

(** [str(j)] of a payload value; the text of a list or of a dict is left
    to [repr_container]. *)
Definition py_str (repr_container : jval -> string) (j : jval) : string :=
  match j with
  | JNull => "None"
  | JBool b => if b then "True" else "False"
  | JInt z => pretty z
  | JStr s => s
  | _ => repr_container j
  end.

Module OCOOrderWrapper.

Record t : Type := mk { json : jval }.

Section WithRepr.

Variable repr_container : jval -> string.

(** [x in types], for a tuple of strings. *)
Definition type_in (x : jval) (types : list string) : bool :=
  existsb (Json.eq_str x) types.

(** [[str(order["orderId"]) for order in reports if order["type"] in types]] *)
Fixpoint order_ids (types : list string) (reports : list jval)
  : result (list string) :=
  match reports with
  | [] => Ok []
  | order :: rest =>
      ty ← Json.getitem order "type";
      if type_in ty types then
        oid ← Json.getitem order "orderId";
        ids ← order_ids types rest;
        Ok (py_str repr_container oid :: ids)
      else order_ids types rest
  end.

Definition leg_order_id (types : list string) (self : t) : result string :=
  reports ← Json.get (json self) "orderReports" (JList []);
  items ← Json.iter reports;
  ids ← order_ids types items;
  py_index0 ids.

Definition limit_order_id (self : t) : result string :=
  leg_order_id ["LIMIT"; "LIMIT_MAKER"] self.

Definition stop_loss_order_id (self : t) : result string :=
  leg_order_id ["STOP_LOSS"; "STOP_LOSS_LIMIT"] self.

End WithRepr.

End OCOOrderWrapper.

(** * [basana/external/binance/contract.py] and [basana/core/pair.py] *)

Module BinanceContractType.

Inductive t : Type :=
  | PERPETUAL
  | CURRENT_MONTH
  | NEXT_MONTH
  | CURRENT_QUARTER
  | NEXT_QUARTER
  | PERPETUAL_DELIVERING.

#[global] Instance eq_dec : EqDecision t.
Proof. solve_decision. Defined.

Definition members : list t :=
  [PERPETUAL; CURRENT_MONTH; NEXT_MONTH; CURRENT_QUARTER; NEXT_QUARTER;
   PERPETUAL_DELIVERING].

Definition value (c : t) : string :=
  match c with
  | PERPETUAL => "PERPETUAL"
  | CURRENT_MONTH => "CURRENT_MONTH"
  | NEXT_MONTH => "NEXT_MONTH"
  | CURRENT_QUARTER => "CURRENT_QUARTER"
  | NEXT_QUARTER => "NEXT_QUARTER"
  | PERPETUAL_DELIVERING => "PERPETUAL_DELIVERING"
  end.

(** [BinanceContractType(j)]: the member with that value. *)
Definition of_value (j : jval) : result t :=
  match List.find (fun c => Json.eq_str j (value c)) members with
  | Some c => Ok c
  | None => Raise (ValueError "is not a valid BinanceContractType")
  end.

#[global] Instance countable : Countable t.
Proof.
  refine (inj_countable'
    (fun c => match c with
              | PERPETUAL => 0%nat | CURRENT_MONTH => 1%nat
              | NEXT_MONTH => 2%nat | CURRENT_QUARTER => 3%nat
              | NEXT_QUARTER => 4%nat | PERPETUAL_DELIVERING => 5%nat
              end)
    (fun n => match n with
              | 0%nat => PERPETUAL | 1%nat => CURRENT_MONTH
              | 2%nat => NEXT_MONTH | 3%nat => CURRENT_QUARTER
              | 4%nat => NEXT_QUARTER | _ => PERPETUAL_DELIVERING
              end) _).
  intros []; reflexivity.
Defined.

End BinanceContractType.

Module Pair.

Record t : Type := mk { base_symbol : string; quote_symbol : string }.

#[global] Instance eq_dec : EqDecision t.
Proof. solve_decision. Defined.

#[global] Instance countable : Countable t.
Proof.
  refine (inj_countable' (fun p => (base_symbol p, quote_symbol p))
                         (fun x => mk x.1 x.2) _).
  intros []; reflexivity.
Defined.

Definition __str__ (self : t) : string :=
  base_symbol self +:+ "/" +:+ quote_symbol self.

End Pair.

Module FuturesPair.

(** The fields hold what [get_pair] reads from the catalog entry. *)
Record t : Type := mk {
  base_symbol : jval;
  quote_symbol : jval;
  symbol : jval;
  contract_type : BinanceContractType.t;
  delivery_date : jval
}.

(** The identity a frozen dataclass has as a dictionary key: its fields,
    compared and hashed in their order. *)
Definition key : Type :=
  pykey * pykey * pykey * BinanceContractType.t * pykey.

Definition __hash__ (self : t) : result key :=
  b ← py_hashable (base_symbol self);
  q ← py_hashable (quote_symbol self);
  s ← py_hashable (symbol self);
  d ← py_hashable (delivery_date self);
  Ok (b, q, s, contract_type self, d).

Definition __str__ (repr_container : jval -> string) (self : t) : string :=
  py_str repr_container (symbol self) +:+ " (BinanceContractType."
    +:+ BinanceContractType.value (contract_type self) +:+ ")".

End FuturesPair.

(** * [basana/external/binance/exchange.py] *)

Record PairInfoEx : Type := {
  base_precision : Z;
  quote_precision : Z;
  permissions : jval
}.

Record FuturesPairInfoEx : Type := {
  f_base_precision : Z;
  f_quote_precision : Z;
  f_contract_type : BinanceContractType.t;
  f_delivery_date : jval;
  f_permissions : jval
}.

(** ** The objects a facade creates and the collaborators it drives *)

Inductive source_class : Type :=
  | KlinesSource
  | OrderBookSource
  | TradesSource.

(** What an event source factory is closed over and is given. *)
Record EventSourceInit : Type := {
  src_class : source_class;
  src_pair : Pair.t;
  src_ws : nat
}.

(** A channel event source: an object, known by its identity. *)
Record EventSource : Type := {
  es_id : nat;
  es_init : EventSourceInit
}.

(** Modelled from the spec: the streaming transport
    ([binance_ws.WebSocketClient], outside this file) keeps one event
    source per channel name; [get_channel_event_source] reads the entry of
    a channel ([None] when there is none) and [set_channel_event_source]
    stores it. *)
Record WebSocketClient : Type := {
  ws_id : nat;
  ws_channels : gmap string EventSource
}.

Definition get_channel_event_source (ws : WebSocketClient) (channel : string)
  : option EventSource :=
  ws_channels ws !! channel.

Definition set_channel_event_source (ws : WebSocketClient) (channel : string)
  (es : EventSource) : WebSocketClient :=
  {| ws_id := ws_id ws; ws_channels := <[channel := es]> (ws_channels ws) |}.

(** An event handler: a callable, known by its identity. *)
Definition EventHandler : Type := nat.

(** What a facade does to the world around it, in the order it does it. *)
Inductive effect : Type :=
  | NewWebSocketClient (ws : nat)
  | NewEventSource (es : EventSource)
  | SetChannelEventSource (ws : nat) (channel : string) (es : EventSource)
  | DispatcherSubscribe (es : EventSource) (handler : EventHandler)
  | GetExchangeInfo (symbol : option string).

(** The state of a facade instance: the three fields [__init__] sets that
    change later, the counter that names the next object constructed, and
    the trace of effects so far. [Cache] is the type of the pair-info
    dictionary. *)
Record facade (Cache : Type) : Type := mk_facade {
  _websocket : option WebSocketClient;
  _channel_to_event_source : gmap string EventSource;
  _pair_info_cache : Cache;
  next_id : nat;
  trace : list effect
}.
Arguments mk_facade {Cache}.
Arguments _websocket {Cache}.
Arguments _channel_to_event_source {Cache}.
Arguments _pair_info_cache {Cache}.
Arguments next_id {Cache}.
Arguments trace {Cache}.

(** A method: from the state before to the outcome and the state after
    (an exception keeps the changes made before it was raised). *)
Definition M (S A : Type) : Type := S -> result A * S.

#[global] Instance M_ret {S} : MRet (M S) := fun A a s => (Ok a, s).
#[global] Instance M_bind {S} : MBind (M S) := fun A B f m s =>
  match m s with
  | (Ok a, s') => f a s'
  | (Raise e, s') => (Raise e, s')
  end.

Definition lift {S A} (r : result A) : M S A := fun s => (r, s).

Definition emit {Cache} (e : effect) : M (facade Cache) unit := fun s =>
  (Ok tt, mk_facade (_websocket s) (_channel_to_event_source s)
            (_pair_info_cache s) (next_id s) (trace s ++ [e])).

Definition fresh_id {Cache} : M (facade Cache) nat := fun s =>
  (Ok (next_id s), mk_facade (_websocket s) (_channel_to_event_source s)
                     (_pair_info_cache s) (S (next_id s)) (trace s)).

Definition set_websocket {Cache} (ws : WebSocketClient) : M (facade Cache) unit :=
  fun s =>
  (Ok tt, mk_facade (Some ws) (_channel_to_event_source s)
            (_pair_info_cache s) (next_id s) (trace s)).

(** [self._pair_info_cache.get(k)] *)
Definition pair_info_cache_get {K V} `{Countable K} (k : K)
  : M (facade (gmap K V)) (option V) :=
  fun s => (Ok (_pair_info_cache s !! k), s).

(** [self._pair_info_cache[k] = v] *)
Definition pair_info_cache_set {K V} `{Countable K} (k : K) (v : V)
  : M (facade (gmap K V)) unit :=
  fun s =>
  (Ok tt, mk_facade (_websocket s) (_channel_to_event_source s)
            (<[k := v]> (_pair_info_cache s)) (next_id s) (trace s)).

Definition is_request (e : effect) : bool :=
  match e with GetExchangeInfo _ => true | _ => false end.

(** The metadata requests issued so far. *)
Definition requests {Cache} (s : facade Cache) : list effect :=
  List.filter is_request (trace s).

(** The handlers the dispatcher holds, with the source of each, in the
    order they were subscribed. *)
Definition subscriptions {Cache} (s : facade Cache)
  : list (EventSource * EventHandler) :=
  omap (fun e => match e with
                 | DispatcherSubscribe es h => Some (es, h)
                 | _ => None
                 end) (trace s).

(** The event sources constructed so far. *)
Definition event_sources {Cache} (s : facade Cache) : list EventSource :=
  omap (fun e => match e with NewEventSource es => Some es | _ => None end)
       (trace s).

(** The event sources registered for a channel so far. *)
Definition sources_of_channel {Cache} (channel : string) (s : facade Cache)
  : list EventSource :=
  omap (fun e => match e with
                 | SetChannelEventSource _ c es =>
                     if decide (c = channel) then Some es else None
                 | _ => None
                 end) (trace s).

(** The websocket clients constructed so far. *)
Definition websocket_clients {Cache} (s : facade Cache) : list nat :=
  omap (fun e => match e with NewWebSocketClient w => Some w | _ => None end)
       (trace s).

(** The facade as [__init__] leaves it. *)
Definition new_facade {K V} `{Countable K} : facade (gmap K V) :=
  mk_facade None ∅ ∅ 0%nat [].

(** ** Channel subscriptions

    [_get_ws_client] and [_subscribe_to_ws_channel_events] have the same
    body in [SpotExchange] and in [FuturesExchange]. *)

Section Channels.

Context {Cache : Type}.

Definition _get_ws_client : M (facade Cache) WebSocketClient := fun s =>
  match _websocket s with
  | None =>
      (i ← fresh_id;
       let ws := {| ws_id := i; ws_channels := ∅ |} in
       _ ← emit (NewWebSocketClient i);
       _ ← set_websocket ws;
       mret ws) s
  | Some ws => (Ok ws, s)
  end.

(** Modelled from the spec: [dispatcher.subscribe(event_source, handler)]
    (the dispatcher is outside this file) registers the handler with the
    dispatcher against the event source. *)
Definition dispatcher_subscribe (es : EventSource) (h : EventHandler)
  : M (facade Cache) unit :=
  emit (DispatcherSubscribe es h).

Definition _subscribe_to_ws_channel_events (channel : string)
  (event_src_factory : nat -> EventSourceInit) (event_handler : EventHandler)
  : M (facade Cache) unit :=
  ws_cli ← _get_ws_client;
  event_source ←
    match get_channel_event_source ws_cli channel with
    | None =>
        i ← fresh_id;
        let event_source :=
          {| es_id := i; es_init := event_src_factory (ws_id ws_cli) |} in
        _ ← emit (NewEventSource event_source);
        _ ← emit (SetChannelEventSource (ws_id ws_cli) channel event_source);
        _ ← set_websocket (set_channel_event_source ws_cli channel event_source);
        mret event_source
    | Some event_source => mret event_source
    end;
  dispatcher_subscribe event_source event_handler.

(** The channel names, of modules outside this file. *)
Variable klines_get_channel : Pair.t -> string -> result string.
Variable order_book_get_channel : Pair.t -> Z -> result string.
Variable trades_get_channel : Pair.t -> result string.

(** The dictionary of [subscribe_to_bar_events]. *)
Definition intervals : gmap pykey string :=
  list_to_map [
    (KInt 1, "1s");
    (KInt 60, "1m");
    (KInt (3 * 60), "3m");
    (KInt (5 * 60), "5m");
    (KInt (15 * 60), "15m");
    (KInt (30 * 60), "30m");
    (KInt 3600, "1h");
    (KInt (2 * 3600), "2h");
    (KInt (4 * 3600), "4h");
    (KInt (6 * 3600), "6h");
    (KInt (8 * 3600), "8h");
    (KInt (12 * 3600), "12h");
    (KInt 86400, "1d");
    (KInt (3 * 86400), "3d");
    (KInt (7 * 86400), "1w");
    (KInt (31 * 86400), "1M");
    (KStr "1s", "1s");
    (KStr "1m", "1m");
    (KStr "3m", "3m");
    (KStr "5m", "5m");
    (KStr "15m", "15m");
    (KStr "30m", "30m");
    (KStr "1h", "1h");
    (KStr "2h", "2h");
    (KStr "4h", "4h");
    (KStr "6h", "6h");
    (KStr "8h", "8h");
    (KStr "12h", "12h");
    (KStr "1d", "1d");
    (KStr "3d", "3d");
    (KStr "1w", "1w");
    (KStr "1M", "1M")
  ].

Definition subscribe_to_bar_events (pair : Pair.t) (bar_duration : pykey)
  (event_handler : EventHandler) : M (facade Cache) unit :=
  let interval := intervals !! bar_duration in
  _ ← lift (py_assert
             (match interval with
              | Some i => negb (String.eqb i EmptyString)
              | None => false
              end) "Invalid bar_duration");
  channel ← lift (klines_get_channel pair (default EmptyString interval));
  _subscribe_to_ws_channel_events channel
    (fun ws_cli => {| src_class := KlinesSource; src_pair := pair; src_ws := ws_cli |})
    event_handler.

Definition subscribe_to_order_book_events (pair : Pair.t)
  (event_handler : EventHandler) (depth : Z) : M (facade Cache) unit :=
  channel ← lift (order_book_get_channel pair depth);
  _subscribe_to_ws_channel_events channel
    (fun ws_cli => {| src_class := OrderBookSource; src_pair := pair; src_ws := ws_cli |})
    event_handler.

Definition subscribe_to_trade_events (pair : Pair.t)
  (event_handler : EventHandler) : M (facade Cache) unit :=
  channel ← lift (trades_get_channel pair);
  _subscribe_to_ws_channel_events channel
    (fun ws_cli => {| src_class := TradesSource; src_pair := pair; src_ws := ws_cli |})
    event_handler.

End Channels.

(** ** Metadata requests *)

(** The venue, seen through [self._cli.get_exchange_info]: the answer to
    the request number [n] (counted from 0 over the facade's life) for the
    given symbol, a decoded payload or an exception. The answer may change
    from one request to the next. *)
Definition venue_t : Type := nat -> option string -> result jval.

Definition get_exchange_info {Cache} (venue : venue_t) (symbol : option string)
  : M (facade Cache) jval := fun s =>
  let n := length (requests s) in
  (_ ← emit (GetExchangeInfo symbol); lift (venue n symbol)) s.

(** [[f for f in filters if f["filterType"] == filter_type]] *)
Definition filters_of_type (filter_type : string) (filters : list jval)
  : result (list jval) :=
  filterM (fun f => t ← Json.getitem f "filterType";
                    Ok (Json.eq_str t filter_type)) filters.

Definition get_filter_from_symbol_info (symbol_info : jval)
  (filter_type : string) : result jval :=
  filters ← Json.getitem symbol_info "filters";
  items ← Json.iter filters;
  price_filters ← filters_of_type filter_type items;
  Ok (match price_filters with
      | [] => JNull
      | f :: _ => f
      end).

(** [int(d)]: the integer part, towards zero. *)
Definition decimal_to_int (d : Decimal) : Z :=
  if 0 <=? Decimal.exp d then Decimal.coef d * 10 ^ Decimal.exp d
  else Z.quot (Decimal.coef d) (10 ^ (- Decimal.exp d)).

(** [decimal_log10] is [Decimal.log10], of the decimal library. *)
Definition get_precision_from_step_size
  (decimal_log10 : Decimal -> result Decimal) (step_size : jval) : result Z :=
  d ← Decimal.of_json step_size;
  l ← decimal_log10 d;
  l10 ← decimal_log10 (Decimal.of_Z 10);
  q ← Decimal.div (Decimal.fix_ (Decimal.neg l)) l10;
  Ok (decimal_to_int q).

Module SpotExchange.

Abbreviation state := (facade (gmap Pair.t PairInfoEx)).

Definition __init__ : state := new_facade.

Definition _get_ws_client : M state WebSocketClient := _get_ws_client.

Definition _subscribe_to_ws_channel_events
  : string -> (nat -> EventSourceInit) -> EventHandler -> M state unit :=
  _subscribe_to_ws_channel_events.

Section WithCollaborators.

Variable venue : venue_t.
Variable decimal_log10 : Decimal -> result Decimal.
(** [helpers.pair_to_order_book_symbol], of a module outside this file. *)
Variable pair_to_order_book_symbol : Pair.t -> string.
(** The channel names, of modules outside this file. *)
Variable klines_get_channel : Pair.t -> string -> result string.
Variable order_book_get_channel : Pair.t -> Z -> result string.
Variable trades_get_channel : Pair.t -> result string.

(** The part of [get_pair_info] between the request and the store:
    what is read from the answer. *)
Definition pair_info_of (pair : Pair.t) (exchange_info : jval)
  : result PairInfoEx :=
  symbols ← Json.getitem exchange_info "symbols";
  n ← Json.len symbols;
  _ ← py_assert (n =? 1) "More than 1 symbol found";
  symbol_info ← Json.index0 symbols;
  price_filter ← get_filter_from_symbol_info symbol_info "PRICE_FILTER";
  _ ← py_assert (Json.truthy price_filter)
        ("PRICE_FILTER not found for " +:+ Pair.__str__ pair);
  lot_size ← get_filter_from_symbol_info symbol_info "LOT_SIZE";
  _ ← py_assert (Json.truthy lot_size)
        ("LOT_SIZE not found for " +:+ Pair.__str__ pair);
  step_size ← Json.getitem lot_size "stepSize";
  base ← get_precision_from_step_size decimal_log10 step_size;
  tick_size ← Json.getitem price_filter "tickSize";
  quote ← get_precision_from_step_size decimal_log10 tick_size;
  perms ← Json.get symbol_info "permissions" JNull;
  Ok {| base_precision := base; quote_precision := quote;
        permissions := perms |}.

Definition get_pair_info (pair : Pair.t) : M state PairInfoEx :=
  cached ← pair_info_cache_get pair;
  match cached with
  | Some ret => mret ret
  | None =>
      exchange_info ←
        get_exchange_info venue (Some (pair_to_order_book_symbol pair));
      ret ← lift (pair_info_of pair exchange_info);
      _ ← pair_info_cache_set pair ret;
      mret ret
  end.

(** A call of a method of the facade, and a facade's life: the calls
    made on it, one after the other, each from the state the one
    before left. *)
Inductive call : Type :=
  | Call_subscribe_to_bar_events (pair : Pair.t) (bar_duration : pykey)
      (event_handler : EventHandler)
  | Call_subscribe_to_order_book_events (pair : Pair.t)
      (event_handler : EventHandler) (depth : Z)
  | Call_subscribe_to_trade_events (pair : Pair.t)
      (event_handler : EventHandler)
  | Call_get_pair_info (pair : Pair.t).

Definition run_call (c : call) (s : state) : state :=
  match c with
  | Call_subscribe_to_bar_events p d h =>
      (subscribe_to_bar_events klines_get_channel p d h s).2
  | Call_subscribe_to_order_book_events p h depth =>
      (subscribe_to_order_book_events order_book_get_channel p h depth s).2
  | Call_subscribe_to_trade_events p h =>
      (subscribe_to_trade_events trades_get_channel p h s).2
  | Call_get_pair_info p => (get_pair_info p s).2
  end.

Definition run_calls (cs : list call) (s : state) : state :=
  fold_left (fun s c => run_call c s) cs s.

End WithCollaborators.

End SpotExchange.

Module FuturesExchange.

Abbreviation state := (facade (gmap FuturesPair.key FuturesPairInfoEx)).

Definition __init__ : state := new_facade.

Definition _get_ws_client : M state WebSocketClient := _get_ws_client.

Definition _subscribe_to_ws_channel_events
  : string -> (nat -> EventSourceInit) -> EventHandler -> M state unit :=
  _subscribe_to_ws_channel_events.

Section WithCollaborators.

Variable venue : venue_t.
Variable decimal_log10 : Decimal -> result Decimal.
(** [helpers.pair_to_order_book_symbol], of a module outside this file. *)
Variable pair_to_order_book_symbol : FuturesPair.t -> result string.
(** The text of a list or of a dict. *)
Variable repr_container : jval -> string.
(** The channel names, of modules outside this file. *)
Variable klines_get_channel : Pair.t -> string -> result string.
Variable order_book_get_channel : Pair.t -> Z -> result string.
Variable trades_get_channel : Pair.t -> result string.

(** The three filters of [get_pair], applied to one catalog entry in
    the order they are chained. *)
Definition get_pair_matches (symbol pair : option string)
  (contract_type : option BinanceContractType.t) (x : jval) : result bool :=
  b1 ← match pair with
       | Some p => v ← Json.getitem x "pair"; Ok (Json.eq_str v p)
       | None => Ok true
       end;
  if b1 : bool then
    b2 ← match contract_type with
         | Some c =>
             v ← Json.getitem x "contractType";
             Ok (Json.eq_str v (BinanceContractType.value c))
         | None => Ok true
         end;
    if b2 : bool then
      match symbol with
      | Some sy => v ← Json.getitem x "symbol"; Ok (Json.eq_str v sy)
      | None => Ok true
      end
    else Ok false
  else Ok false.

(** What [get_pair] builds from the one entry left. *)
Definition futures_pair_of (symbol_info : jval) : result FuturesPair.t :=
  sy ← Json.getitem symbol_info "symbol";
  b ← Json.getitem symbol_info "baseAsset";
  q ← Json.getitem symbol_info "quoteAsset";
  ct ← Json.getitem symbol_info "contractType";
  c ← BinanceContractType.of_value ct;
  d ← Json.get symbol_info "deliveryDate" JNull;
  Ok (FuturesPair.mk b q sy c d).

(** The part of [get_pair] after the request: the entry selected from
    the catalog. *)
Definition select_pair (symbol pair : option string)
  (contract_type : option BinanceContractType.t) (exchange_info : jval)
  : result FuturesPair.t :=
  symbols ← Json.getitem exchange_info "symbols";
  items ← Json.iter symbols;
  symbols ← filterM (get_pair_matches symbol pair contract_type) items;
  _ ← py_assert (0 <? Z.of_nat (length symbols)) "Symbol not found";
  _ ← py_assert (Z.of_nat (length symbols) =? 1) "More than 1 symbol found";
  symbol_info ← py_index0 symbols;
  futures_pair_of symbol_info.

Definition get_pair (symbol pair : option string)
  (contract_type : option BinanceContractType.t) : M state FuturesPair.t :=
  exchange_info ← get_exchange_info venue None;
  lift (select_pair symbol pair contract_type exchange_info).

(** The two filters of [get_pair_info], applied to one catalog entry. *)
Definition get_pair_info_matches (futures_pair : FuturesPair.t) (x : jval)
  : result bool :=
  v ← Json.getitem x "symbol";
  sy ← pair_to_order_book_symbol futures_pair;
  if Json.eq_str v sy then
    ct ← Json.getitem x "contractType";
    Ok (Json.eq_str ct
          (BinanceContractType.value (FuturesPair.contract_type futures_pair)))
  else Ok false.

(** The part of [get_pair_info] between the request and the store:
    what is read from the answer. *)
Definition pair_info_of (futures_pair : FuturesPair.t) (exchange_info : jval)
  : result FuturesPairInfoEx :=
  symbols ← Json.getitem exchange_info "symbols";
  items ← Json.iter symbols;
  symbols ← filterM (get_pair_info_matches futures_pair) items;
  _ ← py_assert (0 <? Z.of_nat (length symbols)) "Symbol not found";
  _ ← py_assert (Z.of_nat (length symbols) =? 1) "More than 1 symbol found";
  symbol_info ← py_index0 symbols;
  price_filter ← get_filter_from_symbol_info symbol_info "PRICE_FILTER";
  _ ← py_assert (Json.truthy price_filter)
        ("PRICE_FILTER not found for "
           +:+ FuturesPair.__str__ repr_container futures_pair);
  lot_size ← get_filter_from_symbol_info symbol_info "LOT_SIZE";
  _ ← py_assert (Json.truthy lot_size)
        ("LOT_SIZE not found for "
           +:+ FuturesPair.__str__ repr_container futures_pair);
  step_size ← Json.getitem lot_size "stepSize";
  base ← get_precision_from_step_size decimal_log10 step_size;
  tick_size ← Json.getitem price_filter "tickSize";
  quote ← get_precision_from_step_size decimal_log10 tick_size;
  ct ← Json.getitem symbol_info "contractType";
  c ← BinanceContractType.of_value ct;
  d ← Json.get symbol_info "deliveryDate" JNull;
  perms ← Json.get symbol_info "permissions" JNull;
  Ok {| f_base_precision := base; f_quote_precision := quote;
        f_contract_type := c; f_delivery_date := d;
        f_permissions := perms |}.

Definition get_pair_info (futures_pair : FuturesPair.t)
  : M state FuturesPairInfoEx :=
  k ← lift (FuturesPair.__hash__ futures_pair);
  cached ← pair_info_cache_get k;
  match cached with
  | Some ret => mret ret
  | None =>
      exchange_info ← get_exchange_info venue None;
      ret ← lift (pair_info_of futures_pair exchange_info);
      _ ← pair_info_cache_set k ret;
      mret ret
  end.

(** A call of a method of the facade, and a facade's life. *)
Inductive call : Type :=
  | Call_subscribe_to_bar_events (pair : Pair.t) (bar_duration : pykey)
      (event_handler : EventHandler)
  | Call_subscribe_to_order_book_events (pair : Pair.t)
      (event_handler : EventHandler) (depth : Z)
  | Call_subscribe_to_trade_events (pair : Pair.t)
      (event_handler : EventHandler)
  | Call_get_pair (symbol pair : option string)
      (contract_type : option BinanceContractType.t)
  | Call_get_pair_info (futures_pair : FuturesPair.t).

Definition run_call (c : call) (s : state) : state :=
  match c with
  | Call_subscribe_to_bar_events p d h =>
      (subscribe_to_bar_events klines_get_channel p d h s).2
  | Call_subscribe_to_order_book_events p h depth =>
      (subscribe_to_order_book_events order_book_get_channel p h depth s).2
  | Call_subscribe_to_trade_events p h =>
      (subscribe_to_trade_events trades_get_channel p h s).2
  | Call_get_pair symbol p contract_type =>
      (get_pair symbol p contract_type s).2
  | Call_get_pair_info futures_pair => (get_pair_info futures_pair s).2
  end.

Definition run_calls (cs : list call) (s : state) : state :=
  fold_left (fun s c => run_call c s) cs s.

End WithCollaborators.

End FuturesExchange.

(** * Notions the properties are stated with *)

(** The key a trade's commission asset is in the fees dictionary. *)
Definition trade_asset_key (trade : Trade.t) : result pykey :=
  asset ← Trade.commission_asset trade; py_hashable asset.

(** The commissions of the trades whose commission asset is [a], in the
    order of the trades. *)
Definition commissions_of (a : pykey) (trades : list Trade.t) : list Decimal :=
  omap (fun trade =>
          match Trade.commission trade, trade_asset_key trade with
          | Ok c, Ok k => if decide (k = a) then Some c else None
          | _, _ => None
          end) trades.

(** [sum(l)] on decimals: the additions of the decimal context, from left
    to right. *)
Definition decimal_sum (l : list Decimal) : Decimal :=
  fold_left Decimal.add l Decimal.zero.


(** The sum of the sizes of the decimals of [l], counted in units of
    [10 ^ E]. *)
Definition scaled_size (E : Z) (l : list Decimal) : Z :=
  fold_right (fun c acc => Z.abs (Decimal.coef c) * 10 ^ (Decimal.exp c - E) + acc) 0 l.

(** The decimals of [l] are multiples of [10 ^ E], with [E <= 0], and
    their sizes add up to less than [10 ^ prec] such units: no sum of some
    of them needs more digits than the context has. *)
Definition within_precision (E : Z) (l : list Decimal) : Prop :=
  E <= 0 /\ Forall (fun c => E <= Decimal.exp c) l
  /\ scaled_size E l < 10 ^ Decimal.prec.

(** * Sample payloads *)

Definition sample_trade (commission asset : string) : Trade.t :=
  Trade.mk (Json.dict [("commission", JStr commission);
                       ("commissionAsset", JStr asset)]).

Definition sample_trades : list Trade.t :=
  [sample_trade "0.10" "BNB"; sample_trade "0" "USDT"; sample_trade "0.025" "BNB"].

Definition sample_order_json : jval :=
  Json.dict [("orderId", JInt 7); ("status", JStr "FILLED");
             ("origQty", JStr "2"); ("executedQty", JStr "2");
             ("cummulativeQuoteQty", JStr "9")].

Definition sample_order : OrderInfo.t :=
  OrderInfo.mk sample_order_json sample_trades
    {[ KStr "BNB" := Decimal.mk 125 (-3) ]}.

(** An order-creation answer of the ACK kind: no status. *)
Definition sample_ack_order : CreatedOrder.t :=
  CreatedOrder.mk (Json.dict [("orderId", JInt 7); ("clientOrderId", JStr "x1");
                              ("transactTime", JInt 1700000000000)]).

(** An order-creation answer of the RESULT kind. *)
Definition sample_result_order : CreatedOrder.t :=
  CreatedOrder.mk (Json.dict [("orderId", JInt 7); ("clientOrderId", JStr "x1");
                              ("transactTime", JInt 1700000000000);
                              ("status", JStr "PARTIALLY_FILLED")]).

(** A status table with the entries the specification gives as examples,
    to run [CreatedOrder.is_open] with. *)
Definition sample_order_status_is_open (status : jval) : result bool :=
  match status with
  | JStr s =>
      if bool_decide (s ∈ ["NEW"; "PARTIALLY_FILLED"; "PENDING_CANCEL"]) then Ok true
      else if bool_decide (s ∈ ["FILLED"; "CANCELED"; "REJECTED"; "EXPIRED"])
      then Ok false
      else Raise (AssertionError "No mapping for order status")
  | _ => Raise (AssertionError "No mapping for order status")
  end.

(** A text for lists and dicts, to run the samples with. *)
Definition sample_repr_container (j : jval) : string := "<container>".

Definition sample_limit_leg : jval :=
  Json.dict [("orderId", JInt 5); ("type", JStr "LIMIT_MAKER")].

Definition sample_stop_leg : jval :=
  Json.dict [("orderId", JInt 4); ("type", JStr "STOP_LOSS_LIMIT")].

Definition sample_oco_order : OCOOrderWrapper.t :=
  OCOOrderWrapper.mk
    (Json.dict [("orderListId", JInt 1);
                ("orderReports", JList [sample_stop_leg; sample_limit_leg])]).

(** A group whose answer carries no leg reports. *)
Definition sample_oco_order_without_reports : OCOOrderWrapper.t :=
  OCOOrderWrapper.mk (Json.dict [("orderListId", JInt 1)]).

(** An order is of one of the [types]: its ["type"] field is one of them. *)
Definition has_type (types : list string) (order : jval) : bool :=
  match Json.getitem order "type" with
  | Ok ty => OCOOrderWrapper.type_in ty types
  | Raise _ => false
  end.

(** The leg reports of a group, as the lookups go through them. *)
Definition leg_reports (o : OCOOrderWrapper.t) : result (list jval) :=
  reports ← Json.get (OCOOrderWrapper.json o) "orderReports" (JList []);
  Json.iter reports.

Definition limit_types : list string := ["LIMIT"; "LIMIT_MAKER"].
Definition stop_types : list string := ["STOP_LOSS"; "STOP_LOSS_LIMIT"].

(** ** Notions about the facades *)

(** The event sources registered with a websocket client so far, and the
    clients they were registered with. *)
Definition registered_sources {Cache} (s : facade Cache) : list EventSource :=
  omap (fun e => match e with
                 | SetChannelEventSource _ _ es => Some es
                 | _ => None
                 end) (trace s).

Definition channel_clients {Cache} (s : facade Cache) : list nat :=
  omap (fun e => match e with
                 | SetChannelEventSource w _ _ => Some w
                 | _ => None
                 end) (trace s).

(** The source registered for a channel in the facade's websocket client. *)
Definition channel_source {Cache} (s : facade Cache) (channel : string)
  : option EventSource :=
  _websocket s ≫= fun ws => ws_channels ws !! channel.

(** The trace and the fields of a facade agree: the one client constructed
    is the one the facade holds, the one source registered for a channel is
    the one the client holds for it, every source constructed was
    registered, and with the facade's client. *)
Definition channels_inv {Cache} (s : facade Cache) : Prop :=
  websocket_clients s = option_list (ws_id <$> _websocket s)
  /\ (forall k, sources_of_channel k s = option_list (channel_source s k))
  /\ event_sources s = registered_sources s
  /\ Forall (fun w => websocket_clients s = [w]) (channel_clients s).

(** A step that touches the metadata only: the websocket client stays and
    the trace grows by requests. *)
Definition meta_step {Cache} (s s' : facade Cache) : Prop :=
  _websocket s' = _websocket s
  /\ exists evs, trace s' = trace s ++ evs
                 /\ Forall (fun e => is_request e = true) evs.

(** Handlers subscribed to a channel one after the other, each with the
    factory its call passes. *)
Definition subscribe_all {Cache} (channel : string)
  (H : list ((nat -> EventSourceInit) * EventHandler)) (s : facade Cache)
  : facade Cache :=
  fold_left (fun s fh => (_subscribe_to_ws_channel_events channel fh.1 fh.2 s).2) H s.

(** The outcome [r] of a subscription call made at [s] is that of
    subscribing the handler [h] to the channel [channel] names, when there
    is one; when there is none, the call fails as [channel] does and the
    facade is as it was. *)
Definition is_subscription_to {Cache} (s : facade Cache)
  (r : result unit * facade Cache) (channel : result string) (h : EventHandler)
  : Prop :=
  match channel with
  | Ok k => exists f, r = (Ok tt, subscribe_all k [(f, h)] s)
  | Raise e => r = (Raise e, s)
  end.

(** The property of channel sharing, at a state [s] of a facade: however
    many handlers are then subscribed to a channel [k], there is one event
    source for [k] (constructed by the first subscription to [k] of the
    facade's life, found again by the later ones), each of the handlers is
    registered with the dispatcher against it, in order, and there is one
    websocket client, with which every channel was registered. *)
Definition shares_channel_sources {Cache} (s : facade Cache) : Prop :=
  forall (k : string) (H : list ((nat -> EventSourceInit) * EventHandler)),
    H <> [] ->
    let s' := subscribe_all k H s in
    exists es ws,
      sources_of_channel k s' = [es]
      /\ sources_of_channel k s = option_list (channel_source s k)
      /\ (forall es0, channel_source s k = Some es0 ->
          es = es0 /\ event_sources s' = event_sources s)
      /\ (channel_source s k = None ->
          event_sources s' = event_sources s ++ [es])
      /\ subscriptions s' = subscriptions s ++ ((fun fh => (es, fh.2)) <$> H)
      /\ _websocket s' = Some ws
      /\ ws_channels ws !! k = Some es
      /\ websocket_clients s' = [ws_id ws]
      /\ websocket_clients s = option_list (ws_id <$> _websocket s)
      /\ (forall ws0, _websocket s = Some ws0 -> ws_id ws = ws_id ws0)
      /\ Forall (fun w => w = ws_id ws) (channel_clients s').


(** ** Sample collaborators and answers *)

Definition sample_pair : Pair.t := Pair.mk "BTC" "USDT".

Definition sample_pair_to_order_book_symbol (p : Pair.t) : string :=
  Pair.base_symbol p +:+ Pair.quote_symbol p.

Definition sample_klines_get_channel (p : Pair.t) (interval : string)
  : result string :=
  Ok (sample_pair_to_order_book_symbol p +:+ "@kline_" +:+ interval).

Definition sample_order_book_get_channel (p : Pair.t) (depth : Z)
  : result string :=
  Ok (sample_pair_to_order_book_symbol p +:+ "@depth" +:+ pretty depth).

Definition sample_trades_get_channel (p : Pair.t) : result string :=
  Ok (sample_pair_to_order_book_symbol p +:+ "@trade").

(** [Decimal.log10] on the powers of ten, where it is an integer; enough
    to run the samples. *)
Definition sample_log10 (d : Decimal) : result Decimal :=
  let n := Decimal.ndigits (Z.abs (Decimal.coef d)) in
  if Decimal.coef d =? 10 ^ (n - 1)
  then Ok (Decimal.of_Z (n - 1 + Decimal.exp d))
  else Raise (InvalidOperation "not a power of ten").

Definition sample_filters : jval :=
  JList [Json.dict [("filterType", JStr "PRICE_FILTER"); ("tickSize", JStr "0.01")];
         Json.dict [("filterType", JStr "LOT_SIZE"); ("stepSize", JStr "0.00001")]].

Definition sample_symbol_info : jval :=
  Json.dict [("symbol", JStr "BTCUSDT"); ("filters", sample_filters);
             ("permissions", JList [JStr "SPOT"])].

Definition sample_futures_entry (symbol pair contract_type : string) : jval :=
  Json.dict [("symbol", JStr symbol); ("pair", JStr pair);
             ("contractType", JStr contract_type);
             ("baseAsset", JStr "ABC"); ("quoteAsset", JStr "USDT");
             ("deliveryDate", JInt 4133404800000);
             ("filters", sample_filters)].

Definition sample_catalog : list jval :=
  [sample_futures_entry "ABCUSDT" "ABCUSDT" "PERPETUAL";
   sample_futures_entry "ABCUSDT_240628" "ABCUSDT" "CURRENT_QUARTER";
   sample_futures_entry "ABCUSDT_240927" "ABCUSDT" "NEXT_QUARTER"].

(** A venue that answers a request for a symbol with that symbol's entry
    and a request for no symbol with the futures catalog. *)
Definition sample_venue : venue_t := fun _ symbol =>
  match symbol with
  | Some _ => Ok (Json.dict [("symbols", JList [sample_symbol_info])])
  | None => Ok (Json.dict [("symbols", JList sample_catalog)])
  end.

Definition sample_futures_pair : FuturesPair.t :=
  FuturesPair.mk (JStr "ABC") (JStr "USDT") (JStr "ABCUSDT")
    BinanceContractType.PERPETUAL (JInt 4133404800000).

Definition sample_futures_pair_to_order_book_symbol (p : FuturesPair.t)
  : result string :=
  match FuturesPair.symbol p with
  | JStr s => Ok s
  | _ => Raise (AttributeError "symbol is not a string")
  end.

(** The durations of [subscribe_to_bar_events] in their two forms: the
    seconds of the legacy form and the token. *)
Definition legacy_durations : list (Z * string) :=
  [(1, "1s"); (60, "1m"); (180, "3m"); (300, "5m"); (900, "15m");
   (1800, "30m"); (3600, "1h"); (7200, "2h"); (14400, "4h"); (21600, "6h");
   (28800, "8h"); (43200, "12h"); (86400, "1d"); (259200, "3d");
   (604800, "1w"); (2678400, "1M")].

(** * More of the connector *)

(** ** [BinanceAccountType] ([common.py]) and the construction of a facade *)

Module BinanceAccountType.

Inductive t : Type :=
  | SPOT
  | MARGIN
  | ISOLATED_MARGIN
  | USDT_FUTURE
  | COIN_FUTURE.

#[global] Instance eq_dec : EqDecision t.
Proof. solve_decision. Defined.

Definition is_spot (self : t) : bool := bool_decide (self = SPOT).

Definition is_margin (self : t) : bool :=
  bool_decide (self ∈ [MARGIN; ISOLATED_MARGIN]).

Definition is_spot_or_margin (self : t) : bool :=
  bool_decide (self ∈ [SPOT; MARGIN; ISOLATED_MARGIN]).

Definition is_futures (self : t) : bool :=
  bool_decide (self ∈ [USDT_FUTURE; COIN_FUTURE]).

End BinanceAccountType.

(** The REST client a facade builds for itself: its class and the
    [api_type] it is given. *)
Record RestClient : Type := {
  cli_class : string;
  cli_api_type : string
}.

(** [SpotExchange(dispatcher, ..., account_type, testnet)]: the client
    built and the state [__init__] leaves, or the [ValueError] it raises. *)
Definition SpotExchange_construct (account_type : BinanceAccountType.t)
  (testnet : bool) : result (RestClient * SpotExchange.state) :=
  if BinanceAccountType.is_spot_or_margin account_type then
    Ok ({| cli_class := "APIClient";
           cli_api_type := if testnet then "api_testnet" else "api" |},
        SpotExchange.__init__)
  else Raise (ValueError "Invalid account_type").

(** [FuturesExchange(dispatcher, ..., account_type, testnet)] *)
Definition FuturesExchange_construct (account_type : BinanceAccountType.t)
  (testnet : bool) : result (RestClient * FuturesExchange.state) :=
  if bool_decide (account_type = BinanceAccountType.USDT_FUTURE) then
    Ok ({| cli_class := "FAPIClient";
           cli_api_type := if testnet then "fapi_testnet" else "fapi" |},
        FuturesExchange.__init__)
  else Raise (ValueError "Invalid account_type").

Inductive exchange : Type :=
  | ASpotExchange (cli : RestClient) (s : SpotExchange.state)
  | AFuturesExchange (cli : RestClient) (s : FuturesExchange.state).

(** [Exchange.create] *)
Definition Exchange_create (account_type : BinanceAccountType.t)
  (testnet : bool) : result exchange :=
  if BinanceAccountType.is_spot_or_margin account_type then
    x ← SpotExchange_construct account_type testnet;
    Ok (ASpotExchange x.1 x.2)
  else if BinanceAccountType.is_futures account_type then
    x ← FuturesExchange_construct account_type testnet;
    Ok (AFuturesExchange x.1 x.2)
  else Raise (ValueError "Invalid account_type").

(** ** The predicates of [BinanceContractType] ([contract.py]) *)

Definition BinanceContractType_is_perpetual (self : BinanceContractType.t) : bool :=
  bool_decide (self = BinanceContractType.PERPETUAL).

Definition BinanceContractType_is_delivery (self : BinanceContractType.t) : bool :=
  bool_decide (self ∈ [BinanceContractType.CURRENT_MONTH;
                       BinanceContractType.NEXT_MONTH;
                       BinanceContractType.CURRENT_QUARTER;
                       BinanceContractType.NEXT_QUARTER;
                       BinanceContractType.PERPETUAL_DELIVERING]).

(** ** The order list id ([common.py], [futures.py]) *)

Section OrderListId.

Variable repr_container : jval -> string.

(** [OrderWrapper.order_list_id]; [futures.Trade.order_list_id] and
    [futures.OpenOrder.order_list_id] have the same body:
    [ret = self.json.get("orderListId");
     ret = None if ret in [None, -1] else str(ret)] *)
Definition OrderWrapper_order_list_id (json : jval) : result (option string) :=
  ret ← Json.get json "orderListId" JNull;
  Ok (match ret with
      | JNull => None
      | JInt (-1) => None
      | _ => Some (py_str repr_container ret)
      end).

(** [futures.CreatedOrder.order_list_id]:
    [ret = self.json["orderListId"]; ret = None if ret == -1 else str(ret)] *)
Definition futures_CreatedOrder_order_list_id (json : jval)
  : result (option string) :=
  ret ← Json.getitem json "orderListId";
  Ok (match ret with
      | JInt (-1) => None
      | _ => Some (py_str repr_container ret)
      end).

End OrderListId.

(** ** [FuturesBalance]: the assets and the positions by name ([common.py]) *)

Module FuturesBalance.

Record t : Type := mk { json : jval }.

(** [{data[field]: Wrapper(data) for data in items}]: the entries are
    stored one after the other, a later one over an earlier one of the
    same key. The wrapper of an entry is the entry. *)
Definition dict_by (field : string) (items : list jval)
  : result (gmap pykey jval) :=
  foldM (fun acc data =>
           v ← Json.getitem data field;
           k ← py_hashable v;
           Ok (<[k := data]> acc)) ∅ items.

Definition assets (self : t) : result (gmap pykey jval) :=
  l ← Json.getitem (json self) "assets";
  items ← Json.iter l;
  dict_by "asset" items.

Definition positions (self : t) : result (gmap pykey jval) :=
  l ← Json.getitem (json self) "positions";
  items ← Json.iter l;
  dict_by "symbol" items.

End FuturesBalance.

(** The key an entry has under [field], when it has one. *)
Definition entry_key (field : string) (data : jval) : result pykey :=
  v ← Json.getitem data field; py_hashable v.

Definition has_key (field : string) (k : pykey) (data : jval) : bool :=
  match entry_key field data with
  | Ok k' => bool_decide (k' = k)
  | Raise _ => false
  end.

(** ** Order requests ([futures_requests.py]) and the futures account
    ([futures.py]) *)

Module OrderOperation.

(** [basana.core.enums.OrderOperation] *)
Inductive t : Type :=
  | BUY
  | SELL.

End OrderOperation.

(** A value passed to the account client. *)
Inductive arg : Type :=
  | ArgNone
  | ArgDecimal (d : Decimal)
  | ArgStr (s : string)
  | ArgJson (j : jval).

Definition arg_of_option_str (o : option string) : arg :=
  match o with
  | Some s => ArgStr s
  | None => ArgNone
  end.

(** A call made on the account client ([futures_client.FuturesAccount],
    outside this file), with the arguments it is given. *)
Inductive account_request : Type :=
  | ReqCreateOrder (symbol side type : string) (kwargs : gmap string arg)
  | ReqQueryOrder (symbol : string) (order_id : option Z)
      (orig_client_order_id : option string)
  | ReqGetTrades (symbol : string) (order_id : jval)
  | ReqGetOpenOrders (symbol : option string)
  | ReqCancelOrder (symbol : string) (order_id : option Z)
      (orig_client_order_id : option string)
  | ReqGetAccountInformation.

(** The account client: its answer to a call, given the calls before. *)
Definition account_cli : Type :=
  list account_request -> account_request -> result jval.

(** [await self._cli.<call>]: the call is recorded and answered. *)
Definition account_call (cli : account_cli) (r : account_request)
  : M (list account_request) jval :=
  fun log => (cli log r, log ++ [r]).

(** [f(..., k1=v1, ..., **kwargs)]: the keywords of the call, or the
    [TypeError] of a keyword given twice. *)
Definition call_keywords (explicit : list (string * arg))
  (kwargs : gmap string arg) : result (gmap string arg) :=
  if forallb (fun kv => bool_decide (kwargs !! kv.1 = None)) explicit
  then Ok (list_to_map explicit ∪ kwargs)
  else Raise (TypeError "got multiple values for keyword argument").

Module ExchangeOrder.

(** The three order requests; the fields are those [__init__] sets. *)
Inductive t : Type :=
  | MarketOrder (operation : OrderOperation.t) (pair : FuturesPair.t)
      (amount : Decimal) (client_order_id : option string)
      (kwargs : gmap string arg)
  | LimitOrder (operation : OrderOperation.t) (pair : FuturesPair.t)
      (amount limit_price : Decimal) (time_in_force : string)
      (client_order_id : option string) (kwargs : gmap string arg)
  | StopLimitOrder (operation : OrderOperation.t) (pair : FuturesPair.t)
      (amount stop_price limit_price : Decimal) (time_in_force : string)
      (client_order_id : option string) (kwargs : gmap string arg).

Definition _operation (o : t) : OrderOperation.t :=
  match o with
  | MarketOrder op _ _ _ _ => op
  | LimitOrder op _ _ _ _ _ _ => op
  | StopLimitOrder op _ _ _ _ _ _ _ => op
  end.

Definition _pair (o : t) : FuturesPair.t :=
  match o with
  | MarketOrder _ p _ _ _ => p
  | LimitOrder _ p _ _ _ _ _ => p
  | StopLimitOrder _ p _ _ _ _ _ _ => p
  end.

Definition _kwargs (o : t) : gmap string arg :=
  match o with
  | MarketOrder _ _ _ _ kw => kw
  | LimitOrder _ _ _ _ _ _ kw => kw
  | StopLimitOrder _ _ _ _ _ _ _ kw => kw
  end.

(** The order type each class passes. *)
Definition order_type (o : t) : string :=
  match o with
  | MarketOrder _ _ _ _ _ => "MARKET"
  | LimitOrder _ _ _ _ _ _ _ => "LIMIT"
  | StopLimitOrder _ _ _ _ _ _ _ _ => "STOP"
  end.

(** The keywords each class passes itself, in the order it writes
    them. *)
Definition own_keywords (o : t) : list (string * arg) :=
  match o with
  | MarketOrder _ _ amount client_order_id _ =>
      [("quantity", ArgDecimal amount);
       ("new_client_order_id", arg_of_option_str client_order_id)]
  | LimitOrder _ _ amount limit_price time_in_force client_order_id _ =>
      [("quantity", ArgDecimal amount);
       ("price", ArgDecimal limit_price);
       ("time_in_force", ArgStr time_in_force);
       ("new_client_order_id", arg_of_option_str client_order_id)]
  | StopLimitOrder _ _ amount stop_price limit_price time_in_force
      client_order_id _ =>
      [("quantity", ArgDecimal amount);
       ("stop_price", ArgDecimal stop_price);
       ("price", ArgDecimal limit_price);
       ("time_in_force", ArgStr time_in_force);
       ("new_client_order_id", arg_of_option_str client_order_id)]
  end.

Section WithHelpers.

(** [helpers.pair_to_order_book_symbol] and
    [helpers.order_operation_to_side], of a module outside this file. *)
Variable pair_to_order_book_symbol : FuturesPair.t -> result string.
Variable order_operation_to_side : OrderOperation.t -> result string.

(** [create_order(self, futures_account_cli)], of the three classes. *)
Definition create_order (o : t) (cli : account_cli)
  : M (list account_request) jval :=
  symbol ← lift (pair_to_order_book_symbol (_pair o));
  side ← lift (order_operation_to_side (_operation o));
  keywords ← lift (call_keywords (own_keywords o) (_kwargs o));
  account_call cli (ReqCreateOrder symbol side (order_type o) keywords).

End WithHelpers.

End ExchangeOrder.

Module Account.

Section WithCollaborators.

Variable cli : account_cli.
Variable pair_to_order_book_symbol : FuturesPair.t -> result string.
Variable order_operation_to_side : OrderOperation.t -> result string.
(** [int(s)] for a string, of the language. *)
Variable int_of_str : string -> result Z.

Definition get_balances : M (list account_request) FuturesBalance.t :=
  account_info ← account_call cli ReqGetAccountInformation;
  mret (FuturesBalance.mk account_info).

Definition create_order (order_request : ExchangeOrder.t)
  : M (list account_request) CreatedOrder.t :=
  created_order ←
    ExchangeOrder.create_order pair_to_order_book_symbol
      order_operation_to_side order_request cli;
  mret (CreatedOrder.mk created_order).

Definition create_market_order (operation : OrderOperation.t)
  (pair : FuturesPair.t) (amount : Decimal)
  (client_order_id : option string) (kwargs : gmap string arg)
  : M (list account_request) CreatedOrder.t :=
  create_order
    (ExchangeOrder.MarketOrder operation pair amount client_order_id kwargs).

(** [time_in_force] is [None] when the caller leaves it to its
    default, "GTC". *)
Definition create_limit_order (operation : OrderOperation.t)
  (pair : FuturesPair.t) (amount limit_price : Decimal)
  (time_in_force : option string) (client_order_id : option string)
  (kwargs : gmap string arg) : M (list account_request) CreatedOrder.t :=
  create_order
    (ExchangeOrder.LimitOrder operation pair amount limit_price
       (default "GTC" time_in_force) client_order_id kwargs).

Definition create_stop_limit_order (operation : OrderOperation.t)
  (pair : FuturesPair.t) (amount stop_price limit_price : Decimal)
  (time_in_force : option string) (client_order_id : option string)
  (kwargs : gmap string arg) : M (list account_request) CreatedOrder.t :=
  create_order
    (ExchangeOrder.StopLimitOrder operation pair amount stop_price
       limit_price (default "GTC" time_in_force) client_order_id kwargs).

(** [None if order_id is None else int(order_id)] *)
Definition order_id_arg (order_id : option string) : result (option Z) :=
  match order_id with
  | None => Ok None
  | Some s => n ← int_of_str s; Ok (Some n)
  end.

Definition get_order_info (pair : FuturesPair.t) (order_id : option string)
  (client_order_id : option string) (include_trades : bool)
  : M (list account_request) OrderInfo.t :=
  order_book_symbol ← lift (pair_to_order_book_symbol pair);
  oid ← lift (order_id_arg order_id);
  order_info ←
    account_call cli (ReqQueryOrder order_book_symbol oid client_order_id);
  trades ←
    (if include_trades then
       id ← lift (Json.getitem order_info "orderId");
       answer ← account_call cli (ReqGetTrades order_book_symbol id);
       items ← lift (Json.iter answer);
       mret (Trade.mk <$> items)
     else mret []);
  lift (OrderInfo.__init__ order_info trades).

(** [pair] is [None] when the caller asks for all the open orders. The
    open orders are the entries of the answer, each in its wrapper. *)
Definition get_open_orders (pair : option FuturesPair.t)
  : M (list account_request) (list jval) :=
  order_book_symbol ←
    match pair with
    | Some p => s ← lift (pair_to_order_book_symbol p); mret (Some s)
    | None => mret None
    end;
  answer ← account_call cli (ReqGetOpenOrders order_book_symbol);
  lift (Json.iter answer).

(** The canceled order is the answer, in its wrapper. *)
Definition cancel_order (pair : FuturesPair.t) (order_id : option string)
  (client_order_id : option string) : M (list account_request) jval :=
  order_book_symbol ← lift (pair_to_order_book_symbol pair);
  oid ← lift (order_id_arg order_id);
  account_call cli (ReqCancelOrder order_book_symbol oid client_order_id).

End WithCollaborators.

End Account.

(** * Notions and samples of the further properties *)

(** A venue whose catalog is empty. *)
Definition sample_empty_venue : venue_t := fun _ _ =>
  Ok (Json.dict [("symbols", JList [])]).

(** The calls of a facade that read metadata. *)
Definition spot_is_metadata_call (c : SpotExchange.call) : bool :=
  match c with
  | SpotExchange.Call_get_pair_info _ => true
  | _ => false
  end.

Definition futures_is_metadata_call (c : FuturesExchange.call) : bool :=
  match c with
  | FuturesExchange.Call_get_pair _ _ _ => true
  | FuturesExchange.Call_get_pair_info _ => true
  | _ => false
  end.

(** An entry of the spot cache is backed by the venue: it is what
    [get_pair_info] reads from the venue's answer to a request, among
    those made so far, for the pair's symbol. *)
Definition spot_entry_backed (venue : venue_t)
  (decimal_log10 : Decimal -> result Decimal)
  (pair_to_order_book_symbol : Pair.t -> string)
  (s : SpotExchange.state) (p : Pair.t) (r : PairInfoEx) : Prop :=
  exists n info,
    requests s !! n = Some (GetExchangeInfo (Some (pair_to_order_book_symbol p)))
    /\ venue n (Some (pair_to_order_book_symbol p)) = Ok info
    /\ SpotExchange.pair_info_of decimal_log10 p info = Ok r.

(** An entry of the futures cache is backed by the venue: it is what
    [get_pair_info] reads for a pair of that key from the venue's answer to
    a request, among those made so far, for the catalog. *)
Definition futures_entry_backed (venue : venue_t)
  (decimal_log10 : Decimal -> result Decimal)
  (pair_to_order_book_symbol : FuturesPair.t -> result string)
  (repr_container : jval -> string)
  (s : FuturesExchange.state) (k : FuturesPair.key) (r : FuturesPairInfoEx)
  : Prop :=
  exists fp n info,
    FuturesPair.__hash__ fp = Ok k
    /\ requests s !! n = Some (GetExchangeInfo None)
    /\ venue n None = Ok info
    /\ FuturesExchange.pair_info_of decimal_log10 pair_to_order_book_symbol
         repr_container fp info = Ok r.

(** A filter of a catalog entry carries a type, which is ([b] true) or is
    not ([b] false) the one looked for. *)
Definition filter_typed (filter_type : string) (b : bool) (x : jval) : Prop :=
  exists t, Json.getitem x "filterType" = Ok t /\ Json.eq_str t filter_type = b.

(** ** The best bid and ask ([exchange.py]) *)

(** What [get_bid_ask] reads from the order book the client answers with:
    [Decimal(order_book["bids"][0][0]), Decimal(order_book["asks"][0][0])] *)
Definition bid_ask_of (order_book : jval) : result (Decimal * Decimal) :=
  bids ← Json.getitem order_book "bids";
  level ← Json.index0 bids;
  price ← Json.index0 level;
  bid ← Decimal.of_json price;
  asks ← Json.getitem order_book "asks";
  level ← Json.index0 asks;
  price ← Json.index0 level;
  ask ← Decimal.of_json price;
  Ok (bid, ask).

(** [SpotExchange.get_bid_ask] and [FuturesExchange.get_bid_ask], which
    have the same body. [get_order_book] is the client's call, with the
    symbol and the limit; the symbol is what
    [helpers.pair_to_order_book_symbol] gives for the pair. *)
Definition get_bid_ask (get_order_book : string -> Z -> result jval)
  (order_book_symbol : result string) : result (Decimal * Decimal) :=
  symbol ← order_book_symbol;
  order_book ← get_order_book symbol 1;
  bid_ask_of order_book.

(** ** The status of an order wrapper ([common.py]) *)

Section OrderWrapperStatus.

(** [helpers.order_status_is_open], of a module outside this file. *)
Variable order_status_is_open : jval -> result bool.

(** [OrderWrapper.status]: [self.json["status"]] *)
Definition OrderWrapper_status (json : jval) : result jval :=
  Json.getitem json "status".

(** [OrderWrapper.is_open], which [OrderInfo], [OpenOrder] and
    [CanceledOrder] inherit. *)
Definition OrderWrapper_is_open (json : jval) : result bool :=
  s ← OrderWrapper_status json;
  order_status_is_open s.

End OrderWrapperStatus.

(** ** [Balance] ([common.py]) *)

Module Balance.

Record t : Type := mk { json : jval }.




End Balance.


(** ** Sample collaborators of the futures account *)

Definition sample_order_operation_to_side (op : OrderOperation.t)
  : result string :=
  Ok (match op with
      | OrderOperation.BUY => "BUY"
      | OrderOperation.SELL => "SELL"
      end).

(** [int(s)] on the plain numerals, enough to run the samples. *)
Definition sample_int_of_str (s : string) : result Z :=
  match Decimal.take_digits s with
  | (d :: ds, EmptyString) => Ok (Decimal.digits_value (d :: ds))
  | _ => Raise (ValueError ("invalid literal for int() with base 10: '" +:+ s +:+ "'"))
  end.

(** An account client that answers an order query with the sample order
    and a trades query with the sample trades. *)
Definition sample_account_cli : account_cli := fun log r =>
  match r with
  | ReqCreateOrder symbol side type _ =>
      Ok (Json.dict [("orderId", JInt (Z.of_nat (length log)));
                     ("symbol", JStr symbol); ("side", JStr side);
                     ("type", JStr type); ("status", JStr "NEW")])
  | ReqQueryOrder _ _ _ => Ok sample_order_json
  | ReqGetTrades _ _ => Ok (JList (Trade.json <$> sample_trades))
  | ReqGetOpenOrders _ => Ok (JList [])
  | ReqCancelOrder symbol _ _ =>
      Ok (Json.dict [("symbol", JStr symbol); ("status", JStr "CANCELED")])
  | ReqGetAccountInformation =>
      Ok (Json.dict [("assets", JList []); ("positions", JList [])])
  end.

(** The keywords an order request passes itself. *)
Definition own_keys (o : ExchangeOrder.t) : list string :=
  (ExchangeOrder.own_keywords o).*1.

(** The calls of a method on the account, with what it returns left out:
    the log after the call. *)
Definition log_after {A} (m : M (list account_request) A)
  (log : list account_request) : list account_request :=
  (m log).2.

(** * Properties *)

(** Examples of the decimal arithmetic. *)

Example Decimal_of_string_ex1 :
  Decimal.of_string "0.00100" = Ok (Decimal.mk 100 (-5)).
Proof. reflexivity. Qed.

Example Decimal_of_string_ex2 :
  Decimal.of_string "-12.5E+3" = Ok (Decimal.mk (-125) 2).
Proof. reflexivity. Qed.

Example Decimal_of_string_ex3 :
  Decimal.of_string "2m" = Raise (InvalidOperation "ConversionSyntax").
Proof. reflexivity. Qed.

Example Decimal_div_ex1 :
  Decimal.div (Decimal.of_Z 1) (Decimal.of_Z 3)
  = Ok (Decimal.mk 3333333333333333333333333333 (-28)).
Proof. vm_compute. reflexivity. Qed.

Example Decimal_div_ex2 :
  Decimal.div (Decimal.of_Z 2) (Decimal.of_Z 3)
  = Ok (Decimal.mk 6666666666666666666666666667 (-28)).
Proof. vm_compute. reflexivity. Qed.

Example Decimal_div_ex3 :
  Decimal.div (Decimal.of_Z 100) (Decimal.of_Z 10) = Ok (Decimal.mk 10 0).
Proof. vm_compute. reflexivity. Qed.

Example Decimal_add_ex1 :
  Decimal.add (Decimal.mk 1 0) (Decimal.mk 0 (-2)) = Decimal.mk 100 (-2).
Proof. vm_compute. reflexivity. Qed.

Example Decimal_add_ex2 :
  Decimal.add (Decimal.mk (10 ^ 28) 0) (Decimal.mk 1 0)
  = Decimal.mk (10 ^ 27) 1.
Proof. vm_compute. reflexivity. Qed.

(** * Facts about the decimal arithmetic *)

Module DecimalFacts.

Import Decimal.

Lemma pow10_pos (k : Z) : 0 <= k -> 0 < 10 ^ k.
Proof. intros. apply Z.pow_pos_nonneg; lia. Qed.

Lemma pow10_succ (k : Z) : 0 <= k -> 10 ^ (k + 1) = 10 * 10 ^ k.
Proof. intros. rewrite Z.pow_add_r by lia. lia. Qed.

Lemma ndigits_aux_pos (fuel : nat) (n : Z) : 1 <= ndigits_aux fuel n.
Proof.
  revert n. induction fuel as [|fuel IH]; intros n; simpl; [lia|].
  destruct (n <? 10); [lia|]. specialize (IH (n / 10)). lia.
Qed.

Lemma ndigits_aux_spec (fuel : nat) (n : Z) :
  0 < n -> n < 10 ^ Z.of_nat fuel ->
  10 ^ (ndigits_aux fuel n - 1) <= n < 10 ^ ndigits_aux fuel n.
Proof.
  revert n. induction fuel as [|fuel IH]; intros n Hpos Hlt.
  - simpl in Hlt. lia.
  - cbn [ndigits_aux]. destruct (Z.ltb_spec n 10) as [Hs|Hs].
    + simpl. lia.
    + assert (Hq : 0 < n / 10) by (apply Z.div_str_pos; lia).
      assert (Hq' : n / 10 < 10 ^ Z.of_nat fuel).
      { apply Z.div_lt_upper_bound; [lia|].
        rewrite <- pow10_succ by lia.
        replace (Z.of_nat fuel + 1) with (Z.of_nat (S fuel)) by lia. exact Hlt. }
      specialize (IH _ Hq Hq').
      pose proof (ndigits_aux_pos fuel (n / 10)) as Hd.
      set (d := ndigits_aux fuel (n / 10)) in *.
      replace (1 + d - 1) with ((d - 1) + 1) by lia.
      replace (1 + d) with (d + 1) by lia.
      rewrite !pow10_succ by lia.
      pose proof (Z.div_mod n 10 ltac:(lia)) as Hdm.
      pose proof (Z.mod_pos_bound n 10 ltac:(lia)) as Hmb.
      lia.
Qed.

Lemma ndigits_pos (n : Z) : 1 <= ndigits n.
Proof. apply ndigits_aux_pos. Qed.

Lemma ndigits_spec (n : Z) :
  0 < n -> 10 ^ (ndigits n - 1) <= n < 10 ^ ndigits n.
Proof.
  intros Hpos. apply ndigits_aux_spec; [exact Hpos|].
  pose proof (Z.log2_spec n Hpos) as [_ Hl].
  pose proof (Z.log2_nonneg n) as Hnn.
  rewrite Nat2Z.inj_succ, Z2Nat.id by lia.
  eapply Z.lt_le_trans; [exact Hl|].
  apply Z.pow_le_mono_l. lia.
Qed.

Lemma ndigits_0 : ndigits 0 = 1.
Proof. reflexivity. Qed.

Lemma ndigits_unique (n d : Z) :
  0 < n -> 10 ^ (d - 1) <= n < 10 ^ d -> ndigits n = d.
Proof.
  intros Hpos [Hlo Hhi].
  pose proof (ndigits_spec n Hpos) as [Hlo' Hhi'].
  pose proof (ndigits_pos n) as Hd.
  assert (Hd1 : 1 <= d).
  { destruct (Z.le_gt_cases 1 d) as [|Hc]; [assumption|].
    destruct (Z.eq_dec d 0) as [->|Hd0]; [simpl in Hhi; lia|].
    rewrite (Z.pow_neg_r 10 d) in Hhi by lia. lia. }
  destruct (Z.lt_trichotomy (ndigits n) d) as [Hc|[Hc|Hc]]; [|exact Hc|].
  - assert (10 ^ ndigits n <= 10 ^ (d - 1)) by (apply Z.pow_le_mono_r; lia). lia.
  - assert (10 ^ d <= 10 ^ (ndigits n - 1)) by (apply Z.pow_le_mono_r; lia). lia.
Qed.

Lemma ndigits_mul_pow (n j : Z) :
  0 < n -> 0 <= j -> ndigits (n * 10 ^ j) = ndigits n + j.
Proof.
  intros Hpos Hj.
  pose proof (ndigits_spec n Hpos) as [Hlo Hhi].
  pose proof (ndigits_pos n) as Hd.
  pose proof (pow10_pos j Hj) as Hp.
  apply ndigits_unique; [nia|].
  replace (ndigits n + j - 1) with ((ndigits n - 1) + j) by lia.
  rewrite !Z.pow_add_r by lia. split; nia.
Qed.

Lemma ndigits_le_prec (n : Z) : 0 <= n -> (ndigits n <= prec <-> n < 10 ^ prec).
Proof.
  intros Hn. destruct (Z.eq_dec n 0) as [->|Hne].
  - rewrite ndigits_0. unfold prec. split; intros; lia.
  - pose proof (ndigits_spec n ltac:(lia)) as [Hlo Hhi]. split; intros H.
    + eapply Z.lt_le_trans; [exact Hhi|]. apply Z.pow_le_mono_r; lia.
    + destruct (Z.le_gt_cases (ndigits n) prec) as [|Hc]; [assumption|].
      assert (10 ^ prec <= 10 ^ (ndigits n - 1))
        by (apply Z.pow_le_mono_r; unfold prec in *; lia). lia.
Qed.

Lemma fits_zero (e : Z) : fits (mk 0 e).
Proof. unfold fits. cbn [coef]. apply pow10_pos. unfold prec. lia. Qed.

(** A decimal that fits the precision is left as it is. *)
Lemma fix_fits (d : t) : fits d -> fix_ d = d.
Proof.
  unfold fits, fix_. intros H.
  apply ndigits_le_prec in H; [|lia].
  apply Z.leb_le in H. rewrite H. reflexivity.
Qed.

(** *** The number a decimal stands for *)

Lemma Qten_nonzero : ~ ((10 # 1) == 0)%Q.
Proof. discriminate. Qed.

Lemma Qpow10_add (a b : Z) :
  ((10 # 1) ^ (a + b) == (10 # 1) ^ a * (10 # 1) ^ b)%Q.
Proof. apply Qpower_plus. exact Qten_nonzero. Qed.

Lemma Qpow10_pos (a : Z) : (0 < (10 # 1) ^ a)%Q.
Proof. apply Qpower_0_lt. reflexivity. Qed.

Lemma inject_pow10 (n : Z) : 0 <= n -> (inject_Z (10 ^ n) == (10 # 1) ^ n)%Q.
Proof. intros H. exact (Zpower_Qpower 10 n H). Qed.

Lemma value_scale (c e j : Z) :
  0 <= j -> (value (mk (c * 10 ^ j) (e - j)) == value (mk c e))%Q.
Proof.
  intros Hj. unfold value. cbn [coef exp].
  rewrite inject_Z_mult, (inject_pow10 j Hj).
  replace e with ((e - j) + j) at 2 by lia.
  rewrite Qpow10_add. ring.
Qed.

Lemma value_zero (e : Z) : (value (mk 0 e) == 0)%Q.
Proof. unfold value. cbn [coef exp]. ring. Qed.

Lemma value_coef_zero (x : t) : coef x = 0 -> (value x == 0)%Q.
Proof. destruct x as [c e]. cbn. intros ->. apply value_zero. Qed.


Lemma value_add_exact (x y : t) :
  (value (add_exact x y) == value x + value y)%Q.
Proof.
  destruct x as [cx ex], y as [cy ey]. unfold add_exact. cbn [coef exp].
  set (m := Z.min ex ey).
  assert (Hx : 0 <= ex - m) by lia. assert (Hy : 0 <= ey - m) by lia.
  unfold value at 1. cbn [coef exp].
  rewrite inject_Z_plus, !inject_Z_mult, (inject_pow10 _ Hx), (inject_pow10 _ Hy).
  unfold value. cbn [coef exp].
  replace ex with ((ex - m) + m) at 2 by lia.
  replace ey with ((ey - m) + m) at 2 by lia.
  rewrite !Qpow10_add. ring.
Qed.

(** Two decimals stand for the same number exactly when one is the other
    with zeros appended to the coefficient. *)
Lemma value_eq_scale (x y : t) :
  exp x <= exp y -> (value x == value y)%Q ->
  x = mk (coef y * 10 ^ (exp y - exp x)) (exp y - (exp y - exp x)).
Proof.
  destruct x as [cx ex], y as [cy ey]. cbn [coef exp]. intros Hle Hv.
  replace (ey - (ey - ex)) with ex by lia. f_equal.
  pose proof (value_scale cy ey (ey - ex) ltac:(lia)) as Hs.
  rewrite <- Hv in Hs. unfold value in Hs. cbn [coef exp] in Hs.
  replace (ey - (ey - ex)) with ex in Hs by lia.
  apply Qmult_inj_r in Hs.
  - unfold Qeq in Hs. cbn [inject_Z Qnum Qden] in Hs. lia.
  - intros H0. pose proof (Qpow10_pos ex) as Hp. rewrite H0 in Hp.
    discriminate.
Qed.

(** *** Rounding depends on the number only *)

Lemma round_half_even_scale (n k d : Z) :
  0 <= k -> 0 <= d ->
  round_half_even (n * 10 ^ d) (k + d) = round_half_even n k.
Proof.
  intros Hk Hd. unfold round_half_even.
  pose proof (pow10_pos k Hk) as Hpk. pose proof (pow10_pos d Hd) as Hpd.
  rewrite Z.pow_add_r by lia.
  rewrite Z.div_mul_cancel_r by lia.
  rewrite Z.mul_mod_distr_r by lia.
  set (q := n / 10 ^ k). set (r := n mod 10 ^ k).
  destruct (Z.ltb_spec (2 * r) (10 ^ k)), (Z.ltb_spec (2 * (r * 10 ^ d)) (10 ^ k * 10 ^ d));
    try reflexivity; try nia.
  destruct (Z.eqb_spec (2 * r) (10 ^ k)), (Z.eqb_spec (2 * (r * 10 ^ d)) (10 ^ k * 10 ^ d));
    try reflexivity; nia.
Qed.

Lemma round_half_even_exact (n k : Z) :
  0 <= k -> round_half_even (n * 10 ^ k) k = n.
Proof.
  intros Hk. unfold round_half_even.
  pose proof (pow10_pos k Hk) as Hpk.
  rewrite Z.mod_mul, Z.div_mul by lia.
  destruct (Z.ltb_spec (2 * 0) (10 ^ k)); [reflexivity|lia].
Qed.


Lemma fix_scale (c e d : Z) :
  0 <= d ->
  (value (fix_ (mk (c * 10 ^ d) (e - d))) == value (fix_ (mk c e)))%Q.
Proof.
  intros Hd. pose proof (pow10_pos d Hd) as Hpd.
  destruct (Z.eq_dec c 0) as [->|Hc].
  { rewrite Z.mul_0_l. rewrite !fix_fits by apply fits_zero.
    rewrite !value_zero. reflexivity. }
  assert (Hn : 0 < Z.abs c) by lia.
  assert (Habs : Z.abs (c * 10 ^ d) = Z.abs c * 10 ^ d)
    by (rewrite Z.abs_mul, (Z.abs_eq (10 ^ d)) by lia; reflexivity).
  assert (Hsgn : Z.sgn (c * 10 ^ d) = Z.sgn c)
    by (rewrite Z.sgn_mul, (Z.sgn_pos (10 ^ d)) by lia; lia).
  pose proof (ndigits_mul_pow (Z.abs c) d Hn Hd) as Hnd.
  pose proof (ndigits_pos (Z.abs c)) as Hnd1.
  unfold fix_. cbn [coef exp]. rewrite Habs, Hsgn, Hnd.
  set (nd := ndigits (Z.abs c)) in *.
  destruct (Z.leb_spec (nd + d) prec) as [HL|HL];
    destruct (Z.leb_spec nd prec) as [HR|HR]; try lia.
  - apply value_scale. exact Hd.
  - (* the scaled coefficient alone is rounded, and exactly *)
    set (k := nd + d - prec).
    assert (Hk : 0 < k <= d) by (unfold k; lia).
    assert (Hsplit : Z.abs c * 10 ^ d = (Z.abs c * 10 ^ (d - k)) * 10 ^ k).
    { rewrite <- Z.mul_assoc, <- Z.pow_add_r by lia. f_equal. f_equal. lia. }
    rewrite Hsplit, round_half_even_exact by lia.
    assert (Hq : Z.abs c * 10 ^ (d - k) < 10 ^ prec).
    { pose proof (ndigits_mul_pow (Z.abs c) (d - k) Hn ltac:(lia)) as Hnq.
      apply ndigits_le_prec; [pose proof (pow10_pos (d - k)); nia|].
      rewrite Hnq. fold nd. unfold k. lia. }
    destruct (Z.eqb_spec (Z.abs c * 10 ^ (d - k)) (10 ^ prec)) as [Heq|_]; [lia|].
    replace (Z.sgn c * (Z.abs c * 10 ^ (d - k))) with (c * 10 ^ (d - k))
      by (rewrite Z.mul_assoc, (Z.mul_comm (Z.sgn c)), Z.abs_sgn; reflexivity).
    replace (e - d + k) with (e - (d - k)) by lia.
    apply value_scale. lia.
  - (* both are rounded, at the same place *)
    replace (nd + d - prec) with ((nd - prec) + d) by lia.
    rewrite round_half_even_scale by lia.
    replace (e - d + (nd - prec + d) + 1) with (e + (nd - prec) + 1) by lia.
    replace (e - d + (nd - prec + d)) with (e + (nd - prec)) by lia.
    reflexivity.
Qed.

Lemma fix_congr (x y : t) :
  (value x == value y)%Q -> (value (fix_ x) == value (fix_ y))%Q.
Proof.
  intros Hv. destruct (Z.le_gt_cases (exp x) (exp y)) as [Hle|Hgt].
  - rewrite (value_eq_scale x y Hle Hv).
    destruct y as [cy ey]. cbn [coef exp] in *. apply fix_scale. lia.
  - symmetry in Hv. rewrite (value_eq_scale y x ltac:(lia) Hv).
    destruct x as [cx ex]. cbn [coef exp] in *. symmetry. apply fix_scale. lia.
Qed.


(** *** Addition *)



Lemma add_congr (x x' y y' : t) :
  (value x == value x')%Q -> (value y == value y')%Q ->
  (value (add x y) == value (add x' y'))%Q.
Proof.
  intros Hx Hy. unfold add. apply fix_congr.
  rewrite !value_add_exact, Hx, Hy. reflexivity.
Qed.




(** *** Comparison *)


Lemma truthy_false (x : t) : truthy x = false <-> coef x = 0.
Proof. unfold truthy. rewrite negb_false_iff. apply Z.eqb_eq. Qed.

Lemma truthy_value (x : t) : truthy x = false <-> (value x == 0)%Q.
Proof.
  rewrite truthy_false. split; [apply value_coef_zero|].
  unfold value. intros H. apply Qmult_integral in H. destruct H as [H|H].
  - unfold Qeq in H. cbn [inject_Z Qnum Qden] in H. lia.
  - pose proof (Qpow10_pos (exp x)) as Hp. rewrite H in Hp. discriminate.
Qed.

End DecimalFacts.

(** * Facts about results *)

Lemma bind_Ok {A B} (m : result A) (f : A -> result B) (b : B) :
  (m ≫= f) = Ok b -> exists a, m = Ok a /\ f a = Ok b.
Proof. destruct m as [a|e]; cbn; [eauto|discriminate]. Qed.

Lemma bind_Ok_l {A B} (a : A) (f : A -> result B) : (Ok a ≫= f) = f a.
Proof. reflexivity. Qed.

Lemma bind_Raise_l {A B} (e : exn) (f : A -> result B) : (Raise e ≫= f) = Raise e.
Proof. reflexivity. Qed.

(** Split a hypothesis [x ← m; k = Ok b] into its steps. *)
Ltac inv_bind H :=
  let a := fresh "a" in
  let Ha := fresh "Ha" in
  apply bind_Ok in H; destruct H as (a & Ha & H).

(** * [OrderInfo]: the fees *)

Module OrderInfoFacts.

Import OrderInfo.

(** What one turn of the loop does to the dictionary. *)
Lemma add_fee_Ok (fees fees1 : gmap pykey Decimal) (trade : Trade.t) :
  add_fee fees trade = Ok fees1 ->
  exists c, Trade.commission trade = Ok c /\
    ((Decimal.truthy c = false /\ fees1 = fees) \/
     (Decimal.truthy c = true /\
      exists k, trade_asset_key trade = Ok k /\
        forall a, fees1 !! a =
          if decide (k = a)
          then Some (Decimal.add (default Decimal.zero (fees !! k)) c)
          else fees !! a)).
Proof.
  unfold add_fee. intros H. inv_bind H. exists a. split; [exact Ha|].
  destruct (Decimal.truthy a) eqn:Ht.
  - right. split; [reflexivity|]. inv_bind H. rename a0 into asset.
    inv_bind H. rename a0 into k. exists k. split.
    { unfold trade_asset_key. rewrite Ha0. exact Ha1. }
    unfold defaultdict_getitem in H.
    destruct (fees !! k) as [old|] eqn:Hk; rewrite Ha in H; cbn in H;
      injection H as <-; intros a'; cbn [default].
    + rewrite lookup_insert. reflexivity.
    + rewrite lookup_insert. case_decide; [reflexivity|].
      rewrite lookup_insert_ne by assumption. reflexivity.
  - left. split; [reflexivity|]. congruence.
Qed.



(** The keys after the loop: those before, and the assets of the trades
    with a nonzero commission. *)
Lemma foldM_add_fee_dom (T : list Trade.t) (fees fees' : gmap pykey Decimal)
  (a : pykey) :
  foldM add_fee fees T = Ok fees' ->
  (a ∈ dom fees' <->
   a ∈ dom fees \/
   exists trade c, trade ∈ T /\ Trade.commission trade = Ok c
     /\ Decimal.truthy c = true /\ trade_asset_key trade = Ok a).
Proof.
  revert fees. induction T as [|trade T IH]; intros fees H.
  - cbn in H. injection H as <-. split; [auto|].
    intros [?|(trade & c & Hin & _)]; [assumption|]. inversion Hin.
  - cbn [foldM] in H. inv_bind H. rename a0 into fees1.
    rewrite (IH _ H). clear IH H.
    apply add_fee_Ok in Ha as (c & Hc & [[Hz ->]|[Hnz (k & Hk & Hl)]]).
    + split.
      * intros [?|(tr & c' & Hin & ?)]; [auto|].
        right. exists tr, c'. split; [right; exact Hin|assumption].
      * intros [?|(tr & c' & Hin & Hc' & Ht & Hk')]; [auto|].
        apply elem_of_cons in Hin as [->|Hin]; [congruence|].
        right. exists tr, c'. auto.
    + rewrite !elem_of_dom, Hl. split.
      * intros [Hd|(tr & c' & Hin & ?)].
        -- case_decide as Hka; [|auto]. subst k.
           right. exists trade, c. split; [left|auto].
        -- right. exists tr, c'. split; [right; exact Hin|assumption].
      * intros [?|(tr & c' & Hin & Hc' & Ht & Hk')].
        -- case_decide; [left; eauto|auto].
        -- apply elem_of_cons in Hin as [->|Hin].
           ++ left. rewrite Hk in Hk'. injection Hk' as ->.
              rewrite decide_True by reflexivity. eauto.
           ++ right. exists tr, c'. auto.
Qed.

End OrderInfoFacts.

(** * Sums of decimals *)

Module SumFacts.

Import Decimal DecimalFacts.






End SumFacts.

(** * Division of decimals *)

Module DivFacts.

Import Decimal DecimalFacts.

Lemma div_eucl_exact (q b : Z) : 0 < b -> Z.div_eucl (q * b) b = (q, 0).
Proof.
  intros Hb. pose proof (Z.div_mul q b ltac:(lia)) as Hd.
  pose proof (Z.mod_mul q b ltac:(lia)) as Hm.
  unfold Z.div, Z.modulo in Hd, Hm.
  destruct (Z.div_eucl (q * b) b) as [q' r']. cbn in *. congruence.
Qed.

(** Taking zeros off the end of a coefficient keeps the number. *)
Lemma strip_zeros_scale (fuel : nat) (c e c' e' : Z) :
  strip_zeros fuel c e = (c', e') -> e <= e' /\ c = c' * 10 ^ (e' - e).
Proof.
  revert c e. induction fuel as [|fuel IH]; intros c e H.
  - cbn in H. injection H as <- <-. rewrite Z.sub_diag. split; lia.
  - cbn [strip_zeros] in H. destruct (Z.eqb_spec (c mod 10) 0) as [Hm|Hm].
    + apply IH in H as [Hle Hc]. split; [lia|].
      pose proof (Z.div_mod c 10 ltac:(lia)) as Hdm.
      rewrite Hm, Z.add_0_r in Hdm. rewrite Hdm at 1. rewrite Hc.
      replace (e' - e) with (1 + (e' - (e + 1))) by lia.
      rewrite Z.pow_add_r by lia. change (10 ^ 1) with 10. ring.
    + injection H as <- <-. rewrite Z.sub_diag. split; lia.
Qed.

Lemma strip_zeros_value (fuel : nat) (s c e c' e' : Z) :
  strip_zeros fuel c e = (c', e') ->
  (value (mk (s * c') e') == value (mk (s * c) e))%Q.
Proof.
  intros H. apply strip_zeros_scale in H as [Hle ->].
  pose proof (value_scale (s * c') e' (e' - e) ltac:(lia)) as Hs.
  replace (e' - (e' - e)) with e in Hs by lia.
  rewrite Z.mul_assoc. symmetry. exact Hs.
Qed.

(** The product of two decimals, without rounding. *)
Lemma value_mul (c1 e1 c2 e2 : Z) :
  (value (mk (c1 * c2) (e1 + e2)) == value (mk c1 e1) * value (mk c2 e2))%Q.
Proof.
  unfold value. cbn [coef exp]. rewrite inject_Z_mult, Qpow10_add. ring.
Qed.

(** The coefficients of a decimal [d] with [d * y = x], as integers. *)
Lemma quotient_coefs (cd ed cy ey cx ex : Z) :
  (value (mk cd ed) * value (mk cy ey) == value (mk cx ex))%Q ->
  let u := ed + ey - ex in
  (0 <= u -> cx = cd * cy * 10 ^ u)
  /\ (u < 0 -> cx * 10 ^ (- u) = cd * cy).
Proof.
  intros H. rewrite <- value_mul in H. cbv zeta. split; intros Hu.
  - symmetry in H.
    pose proof (value_eq_scale (mk cx ex) (mk (cd * cy) (ed + ey))
                  ltac:(cbn; lia) H) as Heq.
    cbn [coef exp] in Heq. injection Heq as ->. reflexivity.
  - pose proof (value_eq_scale (mk (cd * cy) (ed + ey)) (mk cx ex)
                  ltac:(cbn; lia) H) as Heq.
    cbn [coef exp] in Heq. injection Heq as Hc _. rewrite Hc.
    f_equal. f_equal. lia.
Qed.

(** The exponent at which the quotient is computed is low enough for a
    quotient that fits the precision. *)
Lemma quotient_shift (D a b u : Z) :
  0 < D < 10 ^ prec -> 0 < a -> 0 < b ->
  (0 <= u -> a = D * b * 10 ^ u) ->
  (u < 0 -> a * 10 ^ (- u) = D * b) ->
  1 <= u + (ndigits b - ndigits a + prec + 1).
Proof.
  intros HD Ha Hb Hpos Hneg.
  pose proof (ndigits_spec a Ha) as [Hal Hah].
  pose proof (ndigits_spec b Hb) as [Hbl Hbh].
  pose proof (ndigits_pos a) as Hna. pose proof (ndigits_pos b) as Hnb.
  set (na := ndigits a) in *. set (nb := ndigits b) in *.
  destruct (Z.le_gt_cases 1 (u + (nb - na + prec + 1))) as [|Hc]; [assumption|].
  exfalso. assert (Hprec : 0 <= prec) by (unfold prec; lia).
  pose proof (pow10_pos nb ltac:(lia)) as Hpnb.
  assert (HDb : D * b < 10 ^ (prec + nb)).
  { rewrite Z.pow_add_r by lia. nia. }
  destruct (Z.le_gt_cases 0 u) as [Hu|Hu].
  - specialize (Hpos Hu). pose proof (pow10_pos u Hu) as Hpu.
    assert (a < 10 ^ (prec + nb + u)).
    { rewrite Hpos, (Z.pow_add_r 10 (prec + nb) u) by lia. nia. }
    assert (10 ^ (prec + nb + u) <= 10 ^ (na - 1))
      by (apply Z.pow_le_mono_r; lia).
    lia.
  - specialize (Hneg Hu). pose proof (pow10_pos (- u) ltac:(lia)) as Hpu.
    assert (10 ^ (na - 1 - u) <= a * 10 ^ (- u)).
    { replace (na - 1 - u) with ((na - 1) + (- u)) by lia.
      rewrite Z.pow_add_r by lia. nia. }
    assert (10 ^ (prec + nb) <= 10 ^ (na - 1 - u))
      by (apply Z.pow_le_mono_r; lia).
    lia.
Qed.

Lemma value_nonzero (x : t) : coef x <> 0 -> ~ (value x == 0)%Q.
Proof.
  intros Hc Hv. apply truthy_value in Hv. apply truthy_false in Hv. contradiction.
Qed.

(** A quotient that is a decimal within the precision is what the
    division returns. *)
Lemma div_exact (x y d : t) :
  coef y <> 0 -> fits d -> (value d * value y == value x)%Q ->
  exists p, div x y = Ok p /\ (value p == value d)%Q.
Proof.
  destruct x as [cx ex], y as [cy ey], d as [cd ed]. cbn [coef].
  intros Hy Hfit Hv. unfold div. cbn [coef exp].
  rewrite (proj2 (Z.eqb_neq cy 0) Hy).
  destruct (Z.eqb_spec cx 0) as [->|Hx].
  - eexists. split; [reflexivity|].
    rewrite fix_fits by apply fits_zero. rewrite value_zero.
    rewrite value_zero in Hv. apply Qmult_integral in Hv as [Hv|Hv].
    + symmetry. exact Hv.
    + exfalso. exact (value_nonzero (mk cy ey) Hy Hv).
  - pose proof (quotient_coefs cd ed cy ey cx ex Hv) as [Hpos Hneg].
    cbv zeta in Hpos, Hneg.
    set (u := ed + ey - ex) in *.
    assert (Hd : cd <> 0).
    { intros ->. destruct (Z.le_gt_cases 0 u) as [Hu|Hu].
      - specialize (Hpos Hu). lia.
      - specialize (Hneg Hu). pose proof (pow10_pos (- u) ltac:(lia)). nia. }
    set (a := Z.abs cx). set (b := Z.abs cy). set (D := Z.abs cd).
    assert (Ha : 0 < a) by (unfold a; lia).
    assert (Hb : 0 < b) by (unfold b; lia).
    assert (HD : 0 < D < 10 ^ prec) by (unfold fits in Hfit; cbn in Hfit; unfold D; lia).
    assert (Hapos : 0 <= u -> a = D * b * 10 ^ u).
    { intros Hu. unfold a, b, D. rewrite (Hpos Hu), !Z.abs_mul.
      rewrite (Z.abs_eq (10 ^ u)) by (pose proof (pow10_pos u Hu); lia).
      reflexivity. }
    assert (Haneg : u < 0 -> a * 10 ^ (- u) = D * b).
    { intros Hu. unfold a, b, D. rewrite <- Z.abs_mul, <- (Hneg Hu), Z.abs_mul.
      rewrite (Z.abs_eq (10 ^ (- u))) by (pose proof (pow10_pos (- u)); lia).
      reflexivity. }
    assert (Hsgn : Z.sgn cx * Z.sgn cy = Z.sgn cd).
    { destruct (Z.le_gt_cases 0 u) as [Hu|Hu].
      - rewrite (Hpos Hu), !Z.sgn_mul.
        rewrite (Z.sgn_pos (10 ^ u)) by (apply pow10_pos; lia).
        assert (Z.sgn cy * Z.sgn cy = 1) by lia. nia.
      - assert (Hs : Z.sgn (cx * 10 ^ (- u)) = Z.sgn (cd * cy))
          by (rewrite (Hneg Hu); reflexivity).
        rewrite !Z.sgn_mul, (Z.sgn_pos (10 ^ (- u))) in Hs
          by (apply pow10_pos; lia).
        assert (Z.sgn cy * Z.sgn cy = 1) by lia. nia. }
    pose proof (quotient_shift D a b u HD Ha Hb Hapos Haneg) as Ht.
    set (shift := ndigits b - ndigits a + prec + 1) in *.
    set (tt := u + shift) in *.
    assert (Hqr : (if 0 <=? shift then Z.div_eucl (a * 10 ^ shift) b
                   else Z.div_eucl a (b * 10 ^ (- shift)))
                  = (D * 10 ^ tt, 0)).
    { destruct (Z.leb_spec 0 shift) as [Hs|Hs].
      - replace (a * 10 ^ shift) with (D * 10 ^ tt * b);
          [apply div_eucl_exact; exact Hb|].
        destruct (Z.le_gt_cases 0 u) as [Hu|Hu].
        + rewrite (Hapos Hu). unfold tt. rewrite Z.pow_add_r by lia. ring.
        + replace shift with (tt + (- u)) by (unfold tt; lia).
          rewrite Z.pow_add_r by lia.
          replace (a * (10 ^ tt * 10 ^ (- u))) with (a * 10 ^ (- u) * 10 ^ tt) by ring.
          rewrite (Haneg Hu). ring.
      - replace a with (D * 10 ^ tt * (b * 10 ^ (- shift))) at 1.
        + apply div_eucl_exact. pose proof (pow10_pos (- shift) ltac:(lia)). nia.
        + assert (Hu : 0 <= u) by (unfold tt in Ht; lia).
          rewrite (Hapos Hu). replace u with (tt + (- shift)) by (unfold tt; lia).
          rewrite Z.pow_add_r by lia. ring. }
    rewrite Hqr. cbn [Z.eqb].
    destruct (strip_zeros _ _ _) as [q' e'] eqn:Hstrip.
    eexists. split; [reflexivity|].
    rewrite <- (fix_fits (mk cd ed) Hfit). apply fix_congr.
    rewrite (strip_zeros_value _ _ _ _ _ _ Hstrip), Hsgn.
    replace (Z.sgn cd * (D * 10 ^ tt)) with (cd * 10 ^ tt)
      by (unfold D; rewrite Z.mul_assoc, (Z.mul_comm (Z.sgn cd)), Z.abs_sgn;
          reflexivity).
    replace (ex - ey - shift) with (ed - tt) by (unfold tt, u; lia).
    apply value_scale. lia.
Qed.


End DivFacts.

Lemma sample_order_init :
  OrderInfo.__init__ sample_order_json sample_trades = Ok sample_order.
Proof. vm_compute. reflexivity. Qed.

Lemma OrderInfo_init_Ok (json : jval) (T : list Trade.t) (o : OrderInfo.t) :
  OrderInfo.__init__ json T = Ok o ->
  OrderInfo.json o = json /\ OrderInfo.trades o = T
  /\ foldM OrderInfo.add_fee ∅ T = Ok (OrderInfo.fees o).
Proof.
  unfold OrderInfo.__init__. intros H. inv_bind H. injection H as <-.
  cbn. auto.
Qed.



(** C9. For every [OrderInfo] built from a trade list [T], an asset [a] is
    a key of the fees dictionary exactly when some trade of [T] has the
    asset [a] and a nonzero commission; an asset all of whose trades have
    a zero commission is not a key. *)
Theorem OrderInfo_fees_keys (json : jval) (T : list Trade.t) (o : OrderInfo.t)
  (a : pykey) :
  OrderInfo.__init__ json T = Ok o ->
  (a ∈ dom (OrderInfo.fees o) <->
   exists trade c, trade ∈ T /\ Trade.commission trade = Ok c
     /\ Decimal.truthy c = true /\ trade_asset_key trade = Ok a)
  /\ ((forall trade c, trade ∈ T -> trade_asset_key trade = Ok a ->
         Trade.commission trade = Ok c -> Decimal.truthy c = false) ->
      a ∉ dom (OrderInfo.fees o)).
Proof.
  intros H. apply OrderInfo_init_Ok in H as (_ & _ & H).
  pose proof (OrderInfoFacts.foldM_add_fee_dom T _ _ a H) as Hd.
  rewrite dom_empty_L in Hd.
  assert (Hiff : a ∈ dom (OrderInfo.fees o) <->
    exists trade c, trade ∈ T /\ Trade.commission trade = Ok c
      /\ Decimal.truthy c = true /\ trade_asset_key trade = Ok a).
  { rewrite Hd. split; [|auto]. intros [Hin|?]; [|assumption].
    apply not_elem_of_empty in Hin. destruct Hin. }
  split; [exact Hiff|].
  intros Hz Hin. apply Hiff in Hin as (trade & c & Hin & Hc & Ht & Hk).
  rewrite (Hz trade c Hin Hk Hc) in Ht. discriminate.
Qed.

Lemma OrderInfo_fees_keys_witness :
  (KStr "USDT" ∈ dom (OrderInfo.fees sample_order) <->
   exists trade c, trade ∈ sample_trades /\ Trade.commission trade = Ok c
     /\ Decimal.truthy c = true /\ trade_asset_key trade = Ok (KStr "USDT"))
  /\ ((forall trade c, trade ∈ sample_trades ->
         trade_asset_key trade = Ok (KStr "USDT") ->
         Trade.commission trade = Ok c -> Decimal.truthy c = false) ->
      KStr "USDT" ∉ dom (OrderInfo.fees sample_order)).
Proof.
  apply (OrderInfo_fees_keys sample_order_json sample_trades sample_order (KStr "USDT")).
  vm_compute. reflexivity.
Defined.





(** C10. For every [CreatedOrder] whose payload has no ["status"] field,
    reading [is_open] fails with an assertion error; [is_open] gives a
    boolean only when the status is there, and then it is what
    [order_status_is_open] gives for that status. *)
Theorem CreatedOrder_is_open (order_status_is_open : jval -> result bool)
  (o : CreatedOrder.t) (m : gmap string jval) :
  CreatedOrder.json o = JDict m ->
  (m !! "status" = None ->
   CreatedOrder.is_open order_status_is_open o
   = Raise (AssertionError "status not set"))
  /\ (forall b, CreatedOrder.is_open order_status_is_open o = Ok b ->
      exists s, m !! "status" = Some s /\ s <> JNull
                /\ order_status_is_open s = Ok b).
Proof.
  intros Hj. unfold CreatedOrder.is_open, CreatedOrder.status. rewrite Hj.
  cbn [Json.get mbind result_bind]. split.
  - intros ->. reflexivity.
  - intros b H. destruct (m !! "status") as [s|] eqn:Hs; cbn [default] in H.
    + exists s. destruct s; cbn in H; try discriminate; auto.
    + cbn in H. discriminate.
Qed.

Lemma CreatedOrder_is_open_witness :
  CreatedOrder.is_open sample_order_status_is_open sample_ack_order
  = Raise (AssertionError "status not set").
Proof.
  refine (proj1 (CreatedOrder_is_open sample_order_status_is_open sample_ack_order
                   _ _) _); vm_compute; reflexivity.
Defined.

Example CreatedOrder_is_open_result :
  CreatedOrder.is_open sample_order_status_is_open sample_result_order = Ok true.
Proof. vm_compute. reflexivity. Qed.

(** * [OCOOrderWrapper]: the ids of the legs *)

Module OCOFacts.

Import OCOOrderWrapper.

Section WithRepr.

Variable repr_container : jval -> string.

(** With no leg of the types, the list of ids is empty, unless reading
    a report fails. *)
Lemma order_ids_none (types : list string) (reports : list jval) :
  List.filter (has_type types) reports = [] ->
  order_ids repr_container types reports = Ok []
  \/ fails (order_ids repr_container types reports).
Proof.
  induction reports as [|order rest IH]; intros H; [left; reflexivity|].
  cbn [order_ids]. cbn [List.filter] in H. unfold has_type in H.
  destruct (Json.getitem order "type") as [ty|e]; cbn [mbind result_bind].
  - destruct (type_in ty types); [discriminate|]. apply IH. exact H.
  - right. eexists. reflexivity.
Qed.

Lemma order_ids_none_typed (types : list string) (reports : list jval) :
  Forall (fun r => is_ok (Json.getitem r "type") = true) reports ->
  List.filter (has_type types) reports = [] ->
  order_ids repr_container types reports = Ok [].
Proof.
  induction 1 as [|order rest Ht _ IH]; intros H; [reflexivity|].
  cbn [order_ids]. cbn [List.filter] in H. unfold has_type in H.
  destruct (Json.getitem order "type") as [ty|e]; [|discriminate Ht].
  cbn [mbind result_bind].
  destruct (type_in ty types); [discriminate|]. apply IH. exact H.
Qed.

(** With one leg of the types, the list of ids is the id of that leg. *)
Lemma order_ids_one (types : list string) (reports : list jval)
  (leg id : jval) :
  Forall (fun r => is_ok (Json.getitem r "type") = true) reports ->
  List.filter (has_type types) reports = [leg] ->
  Json.getitem leg "orderId" = Ok id ->
  order_ids repr_container types reports = Ok [py_str repr_container id].
Proof.
  intros Hall Hf Hid. induction Hall as [|order rest Ht Hrest IH];
    [discriminate|].
  cbn [order_ids]. cbn [List.filter] in Hf. unfold has_type in Hf at 1.
  destruct (Json.getitem order "type") as [ty|e]; [|discriminate Ht].
  cbn [mbind result_bind].
  destruct (type_in ty types).
  - injection Hf as -> Hf. rewrite Hid. cbn [mbind result_bind].
    rewrite (order_ids_none_typed types rest Hrest Hf). reflexivity.
  - apply IH. exact Hf.
Qed.

Lemma leg_order_id_unfold (types : list string) (o : t) (reports : list jval) :
  leg_reports o = Ok reports ->
  leg_order_id repr_container types o
  = (ids ← order_ids repr_container types reports; py_index0 ids).
Proof.
  unfold leg_reports, leg_order_id. intros H.
  destruct (Json.get (json o) "orderReports" (JList [])) as [r|e];
    cbn [mbind result_bind] in *; [|discriminate].
  rewrite H. reflexivity.
Qed.

Lemma leg_order_id_one (types : list string) (o : t) (reports : list jval)
  (leg id : jval) :
  leg_reports o = Ok reports ->
  Forall (fun r => is_ok (Json.getitem r "type") = true) reports ->
  List.filter (has_type types) reports = [leg] ->
  Json.getitem leg "orderId" = Ok id ->
  leg_order_id repr_container types o = Ok (py_str repr_container id).
Proof.
  intros Hr Hall Hf Hid. rewrite (leg_order_id_unfold _ _ _ Hr).
  rewrite (order_ids_one types reports leg id Hall Hf Hid). reflexivity.
Qed.

Lemma leg_order_id_none (types : list string) (o : t) (reports : list jval) :
  leg_reports o = Ok reports ->
  List.filter (has_type types) reports = [] ->
  fails (leg_order_id repr_container types o).
Proof.
  intros Hr Hf. rewrite (leg_order_id_unfold _ _ _ Hr).
  destruct (order_ids_none types reports Hf) as [->|[e ->]];
    eexists; reflexivity.
Qed.

End WithRepr.

End OCOFacts.

(** C7. For every OCO order group whose leg reports have one leg of a
    limit type ("LIMIT" or "LIMIT_MAKER") and one leg of a stop type
    ("STOP_LOSS" or "STOP_LOSS_LIMIT"), [limit_order_id] and
    [stop_loss_order_id] are the order ids of those legs; when the leg
    reports have no leg of the type looked for, the lookup fails. *)
Theorem OCO_leg_lookup (repr_container : jval -> string)
  (o : OCOOrderWrapper.t) (reports : list jval) :
  leg_reports o = Ok reports ->
  (forall limit stop limit_id stop_id,
     Forall (fun r => is_ok (Json.getitem r "type") = true) reports ->
     List.filter (has_type limit_types) reports = [limit] ->
     List.filter (has_type stop_types) reports = [stop] ->
     Json.getitem limit "orderId" = Ok limit_id ->
     Json.getitem stop "orderId" = Ok stop_id ->
     OCOOrderWrapper.limit_order_id repr_container o
     = Ok (py_str repr_container limit_id)
     /\ OCOOrderWrapper.stop_loss_order_id repr_container o
        = Ok (py_str repr_container stop_id))
  /\ (List.filter (has_type limit_types) reports = [] ->
      fails (OCOOrderWrapper.limit_order_id repr_container o))
  /\ (List.filter (has_type stop_types) reports = [] ->
      fails (OCOOrderWrapper.stop_loss_order_id repr_container o)).
Proof.
  intros Hr. split; [|split].
  - intros limit stop lid sid Hall Hl Hs Hlid Hsid. split.
    + exact (OCOFacts.leg_order_id_one _ _ o reports limit lid Hr Hall Hl Hlid).
    + exact (OCOFacts.leg_order_id_one _ _ o reports stop sid Hr Hall Hs Hsid).
  - exact (OCOFacts.leg_order_id_none _ _ o reports Hr).
  - exact (OCOFacts.leg_order_id_none _ _ o reports Hr).
Qed.

Lemma OCO_leg_lookup_witness :
  OCOOrderWrapper.limit_order_id sample_repr_container sample_oco_order = Ok "5"
  /\ OCOOrderWrapper.stop_loss_order_id sample_repr_container sample_oco_order = Ok "4".
Proof.
  refine (proj1 (OCO_leg_lookup sample_repr_container sample_oco_order
                   [sample_stop_leg; sample_limit_leg] _)
            sample_limit_leg sample_stop_leg (JInt 5) (JInt 4) _ _ _ _ _).
  - vm_compute. reflexivity.
  - repeat constructor.
  - vm_compute. reflexivity.
  - vm_compute. reflexivity.
  - vm_compute. reflexivity.
  - vm_compute. reflexivity.
Defined.

Example OCO_leg_lookup_no_reports :
  OCOOrderWrapper.limit_order_id sample_repr_container sample_oco_order_without_reports
  = Raise (IndexError "list index out of range").
Proof. vm_compute. reflexivity. Qed.

(** * Facts about the facades *)

(** Run the steps of a method on a state that is given by its fields. *)
Ltac run_facade :=
  cbv [_subscribe_to_ws_channel_events _get_ws_client dispatcher_subscribe
       get_channel_event_source set_channel_event_source
       subscribe_to_bar_events subscribe_to_order_book_events
       subscribe_to_trade_events get_exchange_info
       pair_info_cache_get pair_info_cache_set
       mbind M_bind mret M_ret lift emit fresh_id set_websocket
       _websocket _channel_to_event_source _pair_info_cache next_id trace
       ws_id ws_channels es_id es_init requests].

(** Bring the views of a trace that grew by some events to the views of
    the trace before. *)
Ltac simp_trace :=
  rewrite ?omap_app; cbn [omap list_omap]; rewrite ?app_nil_r.

Module FacadeFacts.

Section Generic.

Context {Cache : Type}.
Implicit Types s : facade Cache.

Lemma meta_step_refl s : meta_step s s.
Proof. split; [reflexivity|]. exists []. rewrite app_nil_r. auto. Qed.

(** What [_subscribe_to_ws_channel_events] does, by the state it
    starts from. *)
Lemma subscribe_spec (channel : string) (f : nat -> EventSourceInit)
  (h : EventHandler) s :
  _subscribe_to_ws_channel_events channel f h s =
  match _websocket s with
  | Some ws =>
      match ws_channels ws !! channel with
      | Some es =>
          (Ok tt, mk_facade (Some ws) (_channel_to_event_source s)
                    (_pair_info_cache s) (next_id s)
                    (trace s ++ [DispatcherSubscribe es h]))
      | None =>
          let es := {| es_id := next_id s; es_init := f (ws_id ws) |} in
          (Ok tt, mk_facade (Some (set_channel_event_source ws channel es))
                    (_channel_to_event_source s) (_pair_info_cache s)
                    (S (next_id s))
                    (((trace s ++ [NewEventSource es])
                        ++ [SetChannelEventSource (ws_id ws) channel es])
                       ++ [DispatcherSubscribe es h]))
      end
  | None =>
      let ws := {| ws_id := next_id s; ws_channels := ∅ |} in
      let es := {| es_id := S (next_id s); es_init := f (next_id s) |} in
      (Ok tt, mk_facade (Some (set_channel_event_source ws channel es))
                (_channel_to_event_source s) (_pair_info_cache s)
                (S (S (next_id s)))
                ((((trace s ++ [NewWebSocketClient (next_id s)])
                     ++ [NewEventSource es])
                    ++ [SetChannelEventSource (next_id s) channel es])
                   ++ [DispatcherSubscribe es h]))
  end.
Proof.
  destruct s as [w c p n t]. destruct w as [[wid chs]|]; run_facade.
  - destruct (chs !! channel); reflexivity.
  - rewrite lookup_empty. reflexivity.
Qed.

Lemma omap_requests {B} (g : effect -> option B) (evs : list effect) :
  (forall e, is_request e = true -> g e = None) ->
  Forall (fun e => is_request e = true) evs -> omap g evs = [].
Proof.
  intros Hg. induction 1 as [|e evs He _ IH]; [reflexivity|].
  cbn [omap list_omap]. rewrite (Hg e He). exact IH.
Qed.

(** A metadata step keeps what the trace says of the channels. *)
Lemma meta_step_views s s' :
  meta_step s s' ->
  websocket_clients s' = websocket_clients s
  /\ (forall k, sources_of_channel k s' = sources_of_channel k s)
  /\ event_sources s' = event_sources s
  /\ registered_sources s' = registered_sources s
  /\ channel_clients s' = channel_clients s
  /\ subscriptions s' = subscriptions s
  /\ (forall k, channel_source s' k = channel_source s k).
Proof.
  intros (Hw & evs & Ht & Hev).
  unfold websocket_clients, sources_of_channel, event_sources,
    registered_sources, channel_clients, subscriptions, channel_source.
  rewrite Ht, Hw.
  repeat split; intros; rewrite ?omap_app;
    try (rewrite (omap_requests _ evs); [apply app_nil_r| |exact Hev];
         intros []; cbn; congruence).
Qed.

Lemma channels_inv_meta s s' :
  channels_inv s -> meta_step s s' -> channels_inv s'.
Proof.
  intros (H1 & H2 & H3 & H4) Hm.
  pose proof Hm as (Hw & _).
  apply meta_step_views in Hm as (V1 & V2 & V3 & V4 & V5 & V6 & V7).
  unfold channels_inv. rewrite V1, V3, V4, V5, Hw.
  repeat split; [exact H1| |exact H3|exact H4].
  intros k. rewrite V2, V7. apply H2.
Qed.

Lemma channels_inv_init (c : Cache) :
  channels_inv (mk_facade None ∅ c 0%nat []).
Proof. repeat split; constructor. Qed.

(** One subscription, from a state where trace and fields agree. *)
Lemma subscribe_step (k : string) (f : nat -> EventSourceInit)
  (h : EventHandler) s :
  channels_inv s ->
  let s' := (_subscribe_to_ws_channel_events k f h s).2 in
  channels_inv s'
  /\ exists es ws,
       _websocket s' = Some ws
       /\ ws_channels ws !! k = Some es
       /\ subscriptions s' = subscriptions s ++ [(es, h)]
       /\ (forall es0, channel_source s k = Some es0 ->
           es = es0 /\ event_sources s' = event_sources s)
       /\ (channel_source s k = None ->
           event_sources s' = event_sources s ++ [es])
       /\ (forall ws0, _websocket s = Some ws0 -> ws_id ws = ws_id ws0).
Proof.
  intros (H1 & H2 & H3 & H4). rewrite subscribe_spec.
  destruct s as [w c p n t].
  unfold channels_inv, websocket_clients, sources_of_channel, event_sources,
    registered_sources, channel_clients, subscriptions, channel_source in *.
  cbn [_websocket trace] in *.
  destruct w as [ws|]; cbn [mbind option_bind fmap option_fmap option_map] in *.
  - destruct (ws_channels ws !! k) as [es|] eqn:Hk; cbn [snd _websocket trace].
    + split.
      * split; [|split; [intros k'|split]]; simp_trace; auto.
      * exists es, ws.
        repeat split; simp_trace; try assumption; try reflexivity.
        -- congruence.
        -- congruence.
        -- intros ws0 [= <-]. reflexivity.
    + set (es := {| es_id := n; es_init := f (ws_id ws) |}). split.
      * split; [|split; [intros k'|split]]; simp_trace;
          cbn [ws_id ws_channels set_channel_event_source
               mbind option_bind fmap option_fmap option_map].
        -- exact H1.
        -- rewrite H2. destruct (decide (k = k')) as [<-|Hne].
           ++ rewrite Hk, lookup_insert_eq. reflexivity.
           ++ rewrite lookup_insert_ne by assumption. apply app_nil_r.
        -- rewrite H3. reflexivity.
        -- apply Forall_app. split; [exact H4|]. constructor; [exact H1|constructor].
      * exists es, (set_channel_event_source ws k es).
        repeat split; simp_trace;
          cbn [ws_channels ws_id set_channel_event_source]; try reflexivity.
        -- apply lookup_insert_eq.
        -- congruence.
        -- congruence.
        -- intros ws0 [= <-]. reflexivity.
  - assert (Hcc : omap (fun e => match e with
                                 | SetChannelEventSource w _ _ => Some w
                                 | _ => None
                                 end) t = []).
    { revert H4. generalize (omap (fun e => match e with
                                              | SetChannelEventSource w _ _ => Some w
                                              | _ => None
                                              end) t).
      intros [|w l] H4; [reflexivity|].
      inversion H4 as [|? ? Hw _]. rewrite H1 in Hw. discriminate. }
    set (ws := {| ws_id := n; ws_channels := ∅ |}).
    set (es := {| es_id := S n; es_init := f n |}).
    cbn [snd _websocket trace]. split.
    + split; [|split; [intros k'|split]]; simp_trace;
        cbn [ws_id ws_channels set_channel_event_source
             mbind option_bind fmap option_fmap option_map].
      * rewrite H1. reflexivity.
      * rewrite H2. destruct (decide (k = k')) as [<-|Hne].
        -- rewrite lookup_insert_eq. reflexivity.
        -- rewrite lookup_insert_ne, lookup_empty by assumption. reflexivity.
      * rewrite H3. reflexivity.
      * rewrite Hcc, H1. repeat constructor.
    + exists es, (set_channel_event_source ws k es).
      repeat split; simp_trace;
        cbn [ws_channels ws_id set_channel_event_source]; try reflexivity.
      all: try apply lookup_insert_eq; try discriminate.
Qed.

(** A subscription does not fail. *)
Lemma subscribe_outcome (k : string) (f : nat -> EventSourceInit)
  (h : EventHandler) s :
  _subscribe_to_ws_channel_events k f h s
  = (Ok tt, subscribe_all k [(f, h)] s).
Proof.
  unfold subscribe_all. cbn [fold_left fst snd]. rewrite subscribe_spec.
  destruct (_websocket s) as [ws|]; [destruct (ws_channels ws !! k)|];
    reflexivity.
Qed.

Lemma channel_source_websocket s (ws : WebSocketClient) (k : string) :
  _websocket s = Some ws -> channel_source s k = ws_channels ws !! k.
Proof. unfold channel_source. intros ->. reflexivity. Qed.

(** Several subscriptions to one channel, from a state where trace
    and fields agree. *)
Lemma subscribe_all_step (k : string)
  (H : list ((nat -> EventSourceInit) * EventHandler)) s :
  channels_inv s -> H <> [] ->
  let s' := subscribe_all k H s in
  channels_inv s'
  /\ exists es ws,
       _websocket s' = Some ws
       /\ ws_channels ws !! k = Some es
       /\ subscriptions s' = subscriptions s ++ ((fun fh => (es, fh.2)) <$> H)
       /\ (forall es0, channel_source s k = Some es0 ->
           es = es0 /\ event_sources s' = event_sources s)
       /\ (channel_source s k = None ->
           event_sources s' = event_sources s ++ [es])
       /\ (forall ws0, _websocket s = Some ws0 -> ws_id ws = ws_id ws0).
Proof.
  destruct H as [|fh rest]; [congruence|]. intros Hinv _.
  revert s fh Hinv. induction rest as [|fh' rest IH]; intros s fh Hinv.
  - cbn [subscribe_all fold_left fmap list_fmap].
    destruct fh as [f h]. apply subscribe_step. exact Hinv.
  - cbn [subscribe_all fold_left]. destruct fh as [f h]. cbn [fst snd].
    destruct (subscribe_step k f h s Hinv)
      as (Hinv1 & es1 & ws1 & Hw1 & Hk1 & Hs1 & Hold1 & Hnew1 & Hid1).
    set (s1 := (_subscribe_to_ws_channel_events k f h s).2) in *.
    destruct (IH s1 fh' Hinv1)
      as (Hinv' & es & ws & Hw & Hk & Hs & Hold & Hnew & Hid).
    cbn [subscribe_all fold_left] in *.
    assert (Hc1 : channel_source s1 k = Some es1)
      by (rewrite (channel_source_websocket s1 ws1 k Hw1); exact Hk1).
    destruct (Hold es1 Hc1) as [-> Hev].
    split; [exact Hinv'|]. exists es1, ws.
    split; [exact Hw|]. split; [exact Hk|].
    split; [rewrite Hs, Hs1, <- app_assoc; reflexivity|].
    split; [|split].
    + intros es0 H0. destruct (Hold1 es0 H0) as [He Hev1].
      split; [exact He|]. rewrite Hev. exact Hev1.
    + intros Hn. rewrite Hev. apply Hnew1. exact Hn.
    + intros ws0 Hw0. rewrite (Hid ws1 Hw1). apply Hid1. exact Hw0.
Qed.

(** A state where trace and fields agree shares its channel sources. *)
Lemma channels_inv_shares s : channels_inv s -> shares_channel_sources s.
Proof.
  intros Hinv k H HH. cbn zeta.
  destruct (subscribe_all_step k H s Hinv HH)
    as (Hinv' & es & ws & Hw & Hk & Hs & Hold & Hnew & Hid).
  destruct Hinv as (I1 & I2 & I3 & I4).
  destruct Hinv' as (I1' & I2' & I3' & I4').
  exists es, ws.
  assert (Hc : websocket_clients (subscribe_all k H s) = [ws_id ws])
    by (rewrite I1', Hw; reflexivity).
  split; [rewrite I2', (channel_source_websocket _ ws k Hw), Hk; reflexivity|].
  split; [apply I2|]. split; [exact Hold|]. split; [exact Hnew|].
  split; [exact Hs|]. split; [exact Hw|]. split; [exact Hk|].
  split; [exact Hc|]. split; [exact I1|]. split; [exact Hid|].
  eapply Forall_impl; [exact I4'|]. cbn. intros w Hw'.
  rewrite Hc in Hw'. congruence.
Qed.

(** The public subscriptions: a failure before the channel is known
    leaves the facade as it was; otherwise the handler is subscribed
    to the channel. *)
Lemma subscribe_to_bar_events_unfold
  (klines_get_channel : Pair.t -> string -> result string)
  (pair : Pair.t) (d : pykey) (h : EventHandler) s :
  subscribe_to_bar_events klines_get_channel pair d h s =
  match intervals !! d with
  | Some i =>
      if String.eqb i EmptyString then (Raise (AssertionError "Invalid bar_duration"), s)
      else
        match klines_get_channel pair i with
        | Ok channel =>
            _subscribe_to_ws_channel_events channel
              (fun ws_cli => {| src_class := KlinesSource; src_pair := pair;
                                src_ws := ws_cli |}) h s
        | Raise e => (Raise e, s)
        end
  | None => (Raise (AssertionError "Invalid bar_duration"), s)
  end.
Proof.
  unfold subscribe_to_bar_events.
  destruct (intervals !! d) as [i|]; [|reflexivity].
  destruct (String.eqb i EmptyString); [reflexivity|].
  change (default EmptyString (Some i)) with i.
  cbv [mbind M_bind lift py_assert negb].
  destruct (klines_get_channel pair i); reflexivity.
Qed.

Lemma subscribe_to_order_book_events_unfold
  (order_book_get_channel : Pair.t -> Z -> result string)
  (pair : Pair.t) (h : EventHandler) (depth : Z) s :
  subscribe_to_order_book_events order_book_get_channel pair h depth s =
  match order_book_get_channel pair depth with
  | Ok channel =>
      _subscribe_to_ws_channel_events channel
        (fun ws_cli => {| src_class := OrderBookSource; src_pair := pair;
                          src_ws := ws_cli |}) h s
  | Raise e => (Raise e, s)
  end.
Proof.
  unfold subscribe_to_order_book_events. cbv [mbind M_bind lift].
  destruct (order_book_get_channel pair depth); reflexivity.
Qed.

Lemma subscribe_to_trade_events_unfold
  (trades_get_channel : Pair.t -> result string)
  (pair : Pair.t) (h : EventHandler) s :
  subscribe_to_trade_events trades_get_channel pair h s =
  match trades_get_channel pair with
  | Ok channel =>
      _subscribe_to_ws_channel_events channel
        (fun ws_cli => {| src_class := TradesSource; src_pair := pair;
                          src_ws := ws_cli |}) h s
  | Raise e => (Raise e, s)
  end.
Proof.
  unfold subscribe_to_trade_events. cbv [mbind M_bind lift].
  destruct (trades_get_channel pair); reflexivity.
Qed.

Lemma channels_inv_subscribe (k : string) (f : nat -> EventSourceInit)
  (h : EventHandler) s :
  channels_inv s -> channels_inv (_subscribe_to_ws_channel_events k f h s).2.
Proof. intros Hinv. apply (subscribe_step k f h s Hinv). Qed.

Lemma channels_inv_bar_events klines_get_channel pair d h s :
  channels_inv s ->
  channels_inv (subscribe_to_bar_events klines_get_channel pair d h s).2.
Proof.
  intros Hinv. rewrite subscribe_to_bar_events_unfold.
  destruct (intervals !! d) as [i|]; [|exact Hinv].
  destruct (String.eqb i EmptyString); [exact Hinv|].
  destruct (klines_get_channel pair i); [|exact Hinv].
  apply channels_inv_subscribe. exact Hinv.
Qed.

Lemma channels_inv_order_book_events order_book_get_channel pair h depth s :
  channels_inv s ->
  channels_inv
    (subscribe_to_order_book_events order_book_get_channel pair h depth s).2.
Proof.
  intros Hinv. rewrite subscribe_to_order_book_events_unfold.
  destruct (order_book_get_channel pair depth); [|exact Hinv].
  apply channels_inv_subscribe. exact Hinv.
Qed.

Lemma channels_inv_trade_events trades_get_channel pair h s :
  channels_inv s ->
  channels_inv (subscribe_to_trade_events trades_get_channel pair h s).2.
Proof.
  intros Hinv. rewrite subscribe_to_trade_events_unfold.
  destruct (trades_get_channel pair); [|exact Hinv].
  apply channels_inv_subscribe. exact Hinv.
Qed.

(** A subscription leaves the pair-info cache as it is. *)
Lemma subscribe_cache (k : string) f h s :
  _pair_info_cache (_subscribe_to_ws_channel_events k f h s).2
  = _pair_info_cache s.
Proof.
  rewrite subscribe_spec. destruct (_websocket s) as [ws|]; [|reflexivity].
  destruct (ws_channels ws !! k); reflexivity.
Qed.

(** A request is a metadata step. *)
Lemma get_exchange_info_step (venue : venue_t) (symbol : option string) s :
  get_exchange_info venue symbol s
  = (venue (length (requests s)) symbol,
     mk_facade (_websocket s) (_channel_to_event_source s)
       (_pair_info_cache s) (next_id s)
       (trace s ++ [GetExchangeInfo symbol])).
Proof. reflexivity. Qed.

End Generic.

End FacadeFacts.

Module SpotFacts.

Import FacadeFacts.

Section WithCollaborators.

Variable venue : venue_t.
Variable decimal_log10 : Decimal -> result Decimal.
Variable pair_to_order_book_symbol : Pair.t -> string.
Variable klines_get_channel : Pair.t -> string -> result string.
Variable order_book_get_channel : Pair.t -> Z -> result string.
Variable trades_get_channel : Pair.t -> result string.

Local Abbreviation state := SpotExchange.state.
Local Abbreviation call := SpotExchange.call.
Local Abbreviation get_pair_info :=
  (SpotExchange.get_pair_info venue decimal_log10 pair_to_order_book_symbol).
Local Abbreviation run_call :=
  (SpotExchange.run_call venue decimal_log10 pair_to_order_book_symbol
     klines_get_channel order_book_get_channel trades_get_channel).
Local Abbreviation run_calls :=
  (SpotExchange.run_calls venue decimal_log10 pair_to_order_book_symbol
     klines_get_channel order_book_get_channel trades_get_channel).

(** [get_pair_info], by the state it starts from and the venue's
    answer. *)
Lemma spot_get_pair_info_spec (pair : Pair.t) (s : state) :
  get_pair_info pair s =
  match _pair_info_cache s !! pair with
  | Some ret => (Ok ret, s)
  | None =>
      let sym := Some (pair_to_order_book_symbol pair) in
      match venue (length (requests s)) sym
            ≫= SpotExchange.pair_info_of decimal_log10 pair with
      | Ok ret =>
          (Ok ret, mk_facade (_websocket s) (_channel_to_event_source s)
                     (<[pair := ret]> (_pair_info_cache s)) (next_id s)
                     (trace s ++ [GetExchangeInfo sym]))
      | Raise e =>
          (Raise e, mk_facade (_websocket s) (_channel_to_event_source s)
                      (_pair_info_cache s) (next_id s)
                      (trace s ++ [GetExchangeInfo sym]))
      end
  end.
Proof.
  unfold SpotExchange.get_pair_info.
  destruct s as [w c p n t].
  cbv [mbind M_bind mret M_ret pair_info_cache_get _pair_info_cache].
  destruct (p !! pair) as [ret|]; [reflexivity|].
  rewrite get_exchange_info_step. cbn [_websocket _channel_to_event_source
    _pair_info_cache next_id trace].
  destruct (venue _ _) as [info|e]; [|reflexivity].
  cbv [lift result_bind]. cbn [mbind].
  destruct (SpotExchange.pair_info_of decimal_log10 pair info); reflexivity.
Qed.

Lemma spot_get_pair_info_meta (pair : Pair.t) (s : state) :
  meta_step s (get_pair_info pair s).2.
Proof.
  rewrite spot_get_pair_info_spec.
  destruct (_ !! pair); [apply meta_step_refl|].
  cbn zeta. destruct (_ ≫= _); (split; [reflexivity|]);
    eexists; (split; [reflexivity|]); repeat constructor.
Qed.

(** The cache only grows: an entry stays what it is. *)
Lemma spot_get_pair_info_cache_stays (pair p : Pair.t) (r : PairInfoEx) (s : state) :
  _pair_info_cache s !! p = Some r ->
  _pair_info_cache (get_pair_info pair s).2 !! p = Some r.
Proof.
  intros Hp. rewrite spot_get_pair_info_spec.
  destruct (_pair_info_cache s !! pair) eqn:Hc; [exact Hp|].
  cbn zeta. destruct (_ ≫= _); cbn [snd _pair_info_cache]; [|exact Hp].
  rewrite lookup_insert_ne; [exact Hp|]. congruence.
Qed.

Lemma spot_run_call_cache_stays (c : call) (p : Pair.t) (r : PairInfoEx) (s : state) :
  _pair_info_cache s !! p = Some r ->
  _pair_info_cache (run_call c s) !! p = Some r.
Proof.
  intros Hp. destruct c; cbn [SpotExchange.run_call].
  - rewrite subscribe_to_bar_events_unfold.
    destruct (intervals !! _) as [i|]; [|exact Hp].
    destruct (String.eqb i EmptyString); [exact Hp|].
    destruct (klines_get_channel _ _); [|exact Hp].
    rewrite subscribe_cache. exact Hp.
  - rewrite subscribe_to_order_book_events_unfold.
    destruct (order_book_get_channel _ _); [|exact Hp].
    rewrite subscribe_cache. exact Hp.
  - rewrite subscribe_to_trade_events_unfold.
    destruct (trades_get_channel _); [|exact Hp].
    rewrite subscribe_cache. exact Hp.
  - apply spot_get_pair_info_cache_stays. exact Hp.
Qed.

Lemma spot_run_calls_cache_stays (cs : list call) (p : Pair.t) (r : PairInfoEx)
  (s : state) :
  _pair_info_cache s !! p = Some r ->
  _pair_info_cache (run_calls cs s) !! p = Some r.
Proof.
  revert s. induction cs as [|c cs IH]; intros s Hp; [exact Hp|].
  cbn [SpotExchange.run_calls fold_left]. apply IH.
  apply spot_run_call_cache_stays. exact Hp.
Qed.

(** Every state of a facade's life has trace and fields in agreement. *)
Lemma spot_run_call_inv (c : call) (s : state) :
  channels_inv s -> channels_inv (run_call c s).
Proof.
  intros Hinv. destruct c; cbn [SpotExchange.run_call].
  - apply channels_inv_bar_events. exact Hinv.
  - apply channels_inv_order_book_events. exact Hinv.
  - apply channels_inv_trade_events. exact Hinv.
  - eapply channels_inv_meta; [exact Hinv|apply spot_get_pair_info_meta].
Qed.

Lemma spot_run_calls_inv (cs : list call) (s : state) :
  channels_inv s -> channels_inv (run_calls cs s).
Proof.
  revert s. induction cs as [|c cs IH]; intros s Hinv; [exact Hinv|].
  cbn [SpotExchange.run_calls fold_left]. apply IH, spot_run_call_inv, Hinv.
Qed.

Lemma spot_init_inv : channels_inv SpotExchange.__init__.
Proof. apply channels_inv_init. Qed.

(** The cache property of [get_pair_info]. *)
Lemma spot_pair_info_cached (p : Pair.t) (r : PairInfoEx) (s s1 : state) :
  _pair_info_cache s !! p = None ->
  get_pair_info p s = (Ok r, s1) ->
  requests s1 = requests s ++ [GetExchangeInfo (Some (pair_to_order_book_symbol p))]
  /\ _pair_info_cache s1 !! p = Some r
  /\ get_pair_info p s1 = (Ok r, s1)
  /\ forall cs,
       _pair_info_cache (run_calls cs s1) !! p = Some r
       /\ get_pair_info p (run_calls cs s1) = (Ok r, run_calls cs s1).
Proof.
  intros Hnone H. rewrite spot_get_pair_info_spec, Hnone in H. cbn zeta in H.
  destruct (_ ≫= _) as [ret|e]; [|discriminate].
  injection H as <- <-.
  assert (Hc : forall s' : state, _pair_info_cache s' !! p = Some ret ->
               get_pair_info p s' = (Ok ret, s')).
  { intros s' Hs'. rewrite spot_get_pair_info_spec, Hs'. reflexivity. }
  assert (H1 : _pair_info_cache
                 (mk_facade (_websocket s) (_channel_to_event_source s)
                    (<[p := ret]> (_pair_info_cache s)) (next_id s)
                    (trace s ++ [GetExchangeInfo (Some (pair_to_order_book_symbol p))]))
               !! p = Some ret)
    by apply lookup_insert_eq.
  split; [|split; [exact H1|split; [apply Hc; exact H1|]]].
  - unfold requests. cbn [trace]. rewrite List.filter_app. reflexivity.
  - intros cs. pose proof (spot_run_calls_cache_stays cs p ret _ H1) as H2.
    split; [exact H2|apply Hc; exact H2].
Qed.

End WithCollaborators.

End SpotFacts.

Module FuturesFacts.

Import FacadeFacts.

Section WithCollaborators.

Variable venue : venue_t.
Variable decimal_log10 : Decimal -> result Decimal.
Variable pair_to_order_book_symbol : FuturesPair.t -> result string.
Variable repr_container : jval -> string.
Variable klines_get_channel : Pair.t -> string -> result string.
Variable order_book_get_channel : Pair.t -> Z -> result string.
Variable trades_get_channel : Pair.t -> result string.

Local Abbreviation state := FuturesExchange.state.
Local Abbreviation call := FuturesExchange.call.
Local Abbreviation get_pair := (FuturesExchange.get_pair venue).
Local Abbreviation pair_info_of :=
  (FuturesExchange.pair_info_of decimal_log10 pair_to_order_book_symbol
     repr_container).
Local Abbreviation get_pair_info :=
  (FuturesExchange.get_pair_info venue decimal_log10
     pair_to_order_book_symbol repr_container).
Local Abbreviation run_call :=
  (FuturesExchange.run_call venue decimal_log10 pair_to_order_book_symbol
     repr_container klines_get_channel order_book_get_channel
     trades_get_channel).
Local Abbreviation run_calls :=
  (FuturesExchange.run_calls venue decimal_log10 pair_to_order_book_symbol
     repr_container klines_get_channel order_book_get_channel
     trades_get_channel).

(** [get_pair]: one request, and the entry selected from the answer. *)
Lemma futures_get_pair_spec (symbol pair : option string)
  (contract_type : option BinanceContractType.t) (s : state) :
  get_pair symbol pair contract_type s =
  (venue (length (requests s)) None
     ≫= FuturesExchange.select_pair symbol pair contract_type,
   mk_facade (_websocket s) (_channel_to_event_source s)
     (_pair_info_cache s) (next_id s) (trace s ++ [GetExchangeInfo None])).
Proof.
  unfold FuturesExchange.get_pair. cbv [mbind M_bind].
  rewrite get_exchange_info_step.
  destruct (venue _ _); reflexivity.
Qed.

Lemma futures_get_pair_meta (symbol pair : option string)
  (contract_type : option BinanceContractType.t) (s : state) :
  meta_step s (get_pair symbol pair contract_type s).2.
Proof.
  rewrite futures_get_pair_spec. split; [reflexivity|].
  eexists; (split; [reflexivity|]); repeat constructor.
Qed.

(** [get_pair_info], by the state it starts from and the venue's
    answer. *)
Lemma futures_get_pair_info_spec (fp : FuturesPair.t) (s : state) :
  get_pair_info fp s =
  match FuturesPair.__hash__ fp with
  | Raise e => (Raise e, s)
  | Ok k =>
      match _pair_info_cache s !! k with
      | Some ret => (Ok ret, s)
      | None =>
          match venue (length (requests s)) None ≫= pair_info_of fp with
          | Ok ret =>
              (Ok ret, mk_facade (_websocket s) (_channel_to_event_source s)
                         (<[k := ret]> (_pair_info_cache s)) (next_id s)
                         (trace s ++ [GetExchangeInfo None]))
          | Raise e =>
              (Raise e, mk_facade (_websocket s) (_channel_to_event_source s)
                          (_pair_info_cache s) (next_id s)
                          (trace s ++ [GetExchangeInfo None]))
          end
      end
  end.
Proof.
  unfold FuturesExchange.get_pair_info.
  destruct s as [w c p n t].
  cbv [mbind M_bind mret M_ret pair_info_cache_get _pair_info_cache lift].
  destruct (FuturesPair.__hash__ fp) as [k|e]; [|reflexivity].
  destruct (p !! k) as [ret|]; [reflexivity|].
  rewrite get_exchange_info_step. cbn [_websocket _channel_to_event_source
    _pair_info_cache next_id trace].
  destruct (venue _ _) as [info|e]; [|reflexivity].
  cbv [result_bind].
  destruct (FuturesExchange.pair_info_of _ _ _ fp info); reflexivity.
Qed.

Lemma futures_get_pair_info_meta (fp : FuturesPair.t) (s : state) :
  meta_step s (get_pair_info fp s).2.
Proof.
  rewrite futures_get_pair_info_spec.
  destruct (FuturesPair.__hash__ fp) as [k|e]; [|apply meta_step_refl].
  destruct (_ !! k); [apply meta_step_refl|].
  destruct (_ ≫= _); (split; [reflexivity|]);
    eexists; (split; [reflexivity|]); repeat constructor.
Qed.

(** The cache only grows: an entry stays what it is. *)
Lemma futures_get_pair_info_cache_stays (fp : FuturesPair.t) (k : FuturesPair.key)
  (r : FuturesPairInfoEx) (s : state) :
  _pair_info_cache s !! k = Some r ->
  _pair_info_cache (get_pair_info fp s).2 !! k = Some r.
Proof.
  intros Hp. rewrite futures_get_pair_info_spec.
  destruct (FuturesPair.__hash__ fp) as [k'|e]; [|exact Hp].
  destruct (_pair_info_cache s !! k') eqn:Hc; [exact Hp|].
  destruct (_ ≫= _); cbn [snd _pair_info_cache]; [|exact Hp].
  rewrite lookup_insert_ne; [exact Hp|]. congruence.
Qed.

Lemma futures_run_call_cache_stays (c : call) (k : FuturesPair.key)
  (r : FuturesPairInfoEx) (s : state) :
  _pair_info_cache s !! k = Some r ->
  _pair_info_cache (run_call c s) !! k = Some r.
Proof.
  intros Hp. destruct c; cbn [FuturesExchange.run_call].
  - rewrite subscribe_to_bar_events_unfold.
    destruct (intervals !! _) as [i|]; [|exact Hp].
    destruct (String.eqb i EmptyString); [exact Hp|].
    destruct (klines_get_channel _ _); [|exact Hp].
    rewrite subscribe_cache. exact Hp.
  - rewrite subscribe_to_order_book_events_unfold.
    destruct (order_book_get_channel _ _); [|exact Hp].
    rewrite subscribe_cache. exact Hp.
  - rewrite subscribe_to_trade_events_unfold.
    destruct (trades_get_channel _); [|exact Hp].
    rewrite subscribe_cache. exact Hp.
  - rewrite futures_get_pair_spec. exact Hp.
  - apply futures_get_pair_info_cache_stays. exact Hp.
Qed.

Lemma futures_run_calls_cache_stays (cs : list call) (k : FuturesPair.key)
  (r : FuturesPairInfoEx) (s : state) :
  _pair_info_cache s !! k = Some r ->
  _pair_info_cache (run_calls cs s) !! k = Some r.
Proof.
  revert s. induction cs as [|c cs IH]; intros s Hp; [exact Hp|].
  cbn [FuturesExchange.run_calls fold_left]. apply IH.
  apply futures_run_call_cache_stays. exact Hp.
Qed.

(** Every state of a facade's life has trace and fields in agreement. *)
Lemma futures_run_call_inv (c : call) (s : state) :
  channels_inv s -> channels_inv (run_call c s).
Proof.
  intros Hinv. destruct c; cbn [FuturesExchange.run_call].
  - apply channels_inv_bar_events. exact Hinv.
  - apply channels_inv_order_book_events. exact Hinv.
  - apply channels_inv_trade_events. exact Hinv.
  - eapply channels_inv_meta; [exact Hinv|apply futures_get_pair_meta].
  - eapply channels_inv_meta; [exact Hinv|apply futures_get_pair_info_meta].
Qed.

Lemma futures_run_calls_inv (cs : list call) (s : state) :
  channels_inv s -> channels_inv (run_calls cs s).
Proof.
  revert s. induction cs as [|c cs IH]; intros s Hinv; [exact Hinv|].
  cbn [FuturesExchange.run_calls fold_left]. apply IH, futures_run_call_inv, Hinv.
Qed.

Lemma futures_init_inv : channels_inv FuturesExchange.__init__.
Proof. apply channels_inv_init. Qed.

(** The cache property of [get_pair_info]. *)
Lemma futures_pair_info_cached (fp : FuturesPair.t) (k : FuturesPair.key)
  (r : FuturesPairInfoEx) (s s1 : state) :
  FuturesPair.__hash__ fp = Ok k ->
  _pair_info_cache s !! k = None ->
  get_pair_info fp s = (Ok r, s1) ->
  requests s1 = requests s ++ [GetExchangeInfo None]
  /\ _pair_info_cache s1 !! k = Some r
  /\ get_pair_info fp s1 = (Ok r, s1)
  /\ forall cs,
       _pair_info_cache (run_calls cs s1) !! k = Some r
       /\ get_pair_info fp (run_calls cs s1) = (Ok r, run_calls cs s1).
Proof.
  intros Hk Hnone H. rewrite futures_get_pair_info_spec, Hk, Hnone in H.
  destruct (_ ≫= _) as [ret|e]; [|discriminate].
  injection H as <- <-.
  assert (Hc : forall s' : state, _pair_info_cache s' !! k = Some ret ->
               get_pair_info fp s' = (Ok ret, s')).
  { intros s' Hs'. rewrite futures_get_pair_info_spec, Hk, Hs'. reflexivity. }
  assert (H1 : _pair_info_cache
                 (mk_facade (_websocket s) (_channel_to_event_source s)
                    (<[k := ret]> (_pair_info_cache s)) (next_id s)
                    (trace s ++ [GetExchangeInfo None]))
               !! k = Some ret)
    by apply lookup_insert_eq.
  split; [|split; [exact H1|split; [apply Hc; exact H1|]]].
  - unfold requests. cbn [trace]. rewrite List.filter_app. reflexivity.
  - intros cs. pose proof (futures_run_calls_cache_stays cs k ret _ H1) as H2.
    split; [exact H2|apply Hc; exact H2].
Qed.

End WithCollaborators.

End FuturesFacts.

(** * Bar durations *)

Module DurationFacts.

Lemma intervals_legacy :
  Forall (fun nt => intervals !! KInt nt.1 = Some nt.2
                    /\ intervals !! KStr nt.2 = Some nt.2) legacy_durations.
Proof. repeat constructor. Qed.

Lemma intervals_supported (d : pykey) (t : string) :
  intervals !! d = Some t -> exists n, (n, t) ∈ legacy_durations.
Proof.
  intros H. apply elem_of_list_to_map_2 in H.
  repeat (apply elem_of_cons in H as [H|H];
          [injection H as -> ->; eexists;
           repeat first [apply list_elem_of_here | apply list_elem_of_further]|]).
  inversion H.
Qed.

Lemma intervals_token (d : pykey) (t : string) :
  intervals !! d = Some t -> intervals !! KStr t = Some t /\ t <> EmptyString.
Proof.
  intros H. apply elem_of_list_to_map_2 in H.
  repeat (apply elem_of_cons in H as [H|H];
          [injection H as -> ->; split; [reflexivity|discriminate]|]).
  inversion H.
Qed.

End DurationFacts.

(** C1. For every pair [p] that has no entry in the cache yet, a first
    [get_pair_info] that returns an info [r] has issued exactly one
    exchange-info request and has stored [r] under [p]; a second call
    returns [r] and leaves the facade, trace included, as it is: no
    request; and after whatever other calls the facade's life brings, the
    entry is still [r] and a lookup still returns it without a request.
    The same holds of [FuturesExchange], where the key is the identity of
    the futures pair. *)
Theorem get_pair_info_cached :
  (forall (venue : venue_t) (decimal_log10 : Decimal -> result Decimal)
          (pair_to_order_book_symbol : Pair.t -> string)
          (klines_get_channel : Pair.t -> string -> result string)
          (order_book_get_channel : Pair.t -> Z -> result string)
          (trades_get_channel : Pair.t -> result string)
          (p : Pair.t) (r : PairInfoEx) (s s1 : SpotExchange.state),
      let get_pair_info :=
        SpotExchange.get_pair_info venue decimal_log10 pair_to_order_book_symbol in
      let run_calls :=
        SpotExchange.run_calls venue decimal_log10 pair_to_order_book_symbol
          klines_get_channel order_book_get_channel trades_get_channel in
      _pair_info_cache s !! p = None ->
      get_pair_info p s = (Ok r, s1) ->
      requests s1
      = requests s ++ [GetExchangeInfo (Some (pair_to_order_book_symbol p))]
      /\ _pair_info_cache s1 !! p = Some r
      /\ get_pair_info p s1 = (Ok r, s1)
      /\ forall cs,
           _pair_info_cache (run_calls cs s1) !! p = Some r
           /\ get_pair_info p (run_calls cs s1) = (Ok r, run_calls cs s1))
  /\ (forall (venue : venue_t) (decimal_log10 : Decimal -> result Decimal)
             (pair_to_order_book_symbol : FuturesPair.t -> result string)
             (repr_container : jval -> string)
             (klines_get_channel : Pair.t -> string -> result string)
             (order_book_get_channel : Pair.t -> Z -> result string)
             (trades_get_channel : Pair.t -> result string)
             (p : FuturesPair.t) (k : FuturesPair.key) (r : FuturesPairInfoEx)
             (s s1 : FuturesExchange.state),
      let get_pair_info :=
        FuturesExchange.get_pair_info venue decimal_log10
          pair_to_order_book_symbol repr_container in
      let run_calls :=
        FuturesExchange.run_calls venue decimal_log10 pair_to_order_book_symbol
          repr_container klines_get_channel order_book_get_channel
          trades_get_channel in
      FuturesPair.__hash__ p = Ok k ->
      _pair_info_cache s !! k = None ->
      get_pair_info p s = (Ok r, s1) ->
      requests s1 = requests s ++ [GetExchangeInfo None]
      /\ _pair_info_cache s1 !! k = Some r
      /\ get_pair_info p s1 = (Ok r, s1)
      /\ forall cs,
           _pair_info_cache (run_calls cs s1) !! k = Some r
           /\ get_pair_info p (run_calls cs s1) = (Ok r, run_calls cs s1)).
Proof.
  split.
  - intros. apply SpotFacts.spot_pair_info_cached; assumption.
  - intros. eapply FuturesFacts.futures_pair_info_cached; eassumption.
Qed.

Lemma get_pair_info_cached_witness :
  let get_pair_info :=
    SpotExchange.get_pair_info sample_venue sample_log10
      sample_pair_to_order_book_symbol in
  let s1 := (get_pair_info sample_pair SpotExchange.__init__).2 in
  requests s1 = [GetExchangeInfo (Some "BTCUSDT")]
  /\ get_pair_info sample_pair s1
     = (Ok {| base_precision := 5; quote_precision := 2;
              permissions := JList [JStr "SPOT"] |}, s1).
Proof.
  cbv zeta.
  destruct (proj1 get_pair_info_cached sample_venue sample_log10
              sample_pair_to_order_book_symbol sample_klines_get_channel
              sample_order_book_get_channel sample_trades_get_channel
              sample_pair
              {| base_precision := 5; quote_precision := 2;
                 permissions := JList [JStr "SPOT"] |}
              SpotExchange.__init__
              (SpotExchange.get_pair_info sample_venue sample_log10
                 sample_pair_to_order_book_symbol sample_pair
                 SpotExchange.__init__).2)
    as (H1 & _ & H2 & _).
  - reflexivity.
  - vm_compute. reflexivity.
  - split; [exact H1|exact H2].
Defined.

(** C2. In every state a facade's life reaches, for every channel [k] and
    every list of handlers then subscribed to [k], there is one event
    source for [k] (constructed by the first subscription to [k], found
    again by every later one), every handler is registered with the
    dispatcher against that source, and there is one websocket client,
    constructed by the first subscription of all, with which every
    channel is registered. This holds of [SpotExchange] and of
    [FuturesExchange]; and each of the three subscription calls, when it
    does not fail, is such a subscription of its handler to the channel
    its arguments name, and when it fails leaves the facade as it was. *)
Theorem channel_sources_shared :
  (forall (venue : venue_t) (decimal_log10 : Decimal -> result Decimal)
          (pair_to_order_book_symbol : Pair.t -> string)
          (klines_get_channel : Pair.t -> string -> result string)
          (order_book_get_channel : Pair.t -> Z -> result string)
          (trades_get_channel : Pair.t -> result string)
          (cs : list SpotExchange.call),
      shares_channel_sources
        (SpotExchange.run_calls venue decimal_log10 pair_to_order_book_symbol
           klines_get_channel order_book_get_channel trades_get_channel
           cs SpotExchange.__init__))
  /\ (forall (venue : venue_t) (decimal_log10 : Decimal -> result Decimal)
             (pair_to_order_book_symbol : FuturesPair.t -> result string)
             (repr_container : jval -> string)
             (klines_get_channel : Pair.t -> string -> result string)
             (order_book_get_channel : Pair.t -> Z -> result string)
             (trades_get_channel : Pair.t -> result string)
             (cs : list FuturesExchange.call),
      shares_channel_sources
        (FuturesExchange.run_calls venue decimal_log10 pair_to_order_book_symbol
           repr_container klines_get_channel order_book_get_channel
           trades_get_channel cs FuturesExchange.__init__))
  /\ (forall (Cache : Type) (s : facade Cache)
             (klines_get_channel : Pair.t -> string -> result string)
             (order_book_get_channel : Pair.t -> Z -> result string)
             (trades_get_channel : Pair.t -> result string)
             (pair : Pair.t) (d : pykey) (depth : Z) (h : EventHandler),
      is_subscription_to s
        (subscribe_to_bar_events klines_get_channel pair d h s)
        (i ← from_option Ok (Raise (AssertionError "Invalid bar_duration"))
               (intervals !! d);
         klines_get_channel pair i) h
      /\ is_subscription_to s
           (subscribe_to_order_book_events order_book_get_channel pair h depth s)
           (order_book_get_channel pair depth) h
      /\ is_subscription_to s
           (subscribe_to_trade_events trades_get_channel pair h s)
           (trades_get_channel pair) h).
Proof.
  split; [|split]; intros.
  - apply FacadeFacts.channels_inv_shares.
    apply SpotFacts.spot_run_calls_inv, SpotFacts.spot_init_inv.
  - apply FacadeFacts.channels_inv_shares.
    apply FuturesFacts.futures_run_calls_inv, FuturesFacts.futures_init_inv.
  - unfold is_subscription_to. split; [|split].
    + rewrite FacadeFacts.subscribe_to_bar_events_unfold.
      destruct (intervals !! d) as [i|] eqn:Hd; cbn [from_option mbind result_bind];
        [|reflexivity].
      destruct (DurationFacts.intervals_token d i Hd) as [_ Hne].
      apply String.eqb_neq in Hne. rewrite Hne.
      destruct (klines_get_channel pair i) as [ch|e]; [|reflexivity].
      eexists. apply FacadeFacts.subscribe_outcome.
    + rewrite FacadeFacts.subscribe_to_order_book_events_unfold.
      destruct (order_book_get_channel pair depth) as [ch|e]; [|reflexivity].
      eexists. apply FacadeFacts.subscribe_outcome.
    + rewrite FacadeFacts.subscribe_to_trade_events_unfold.
      destruct (trades_get_channel pair) as [ch|e]; [|reflexivity].
      eexists. apply FacadeFacts.subscribe_outcome.
Qed.

(** C5, as the code has it. The legacy duration 60 and the token "1m"
    resolve to the same interval, and so do the two forms of every other
    supported duration: a subscription with either has the same outcome.
    A duration outside the table, such as "2m" or 7, fails with an
    AssertionError ("Invalid bar_duration") at the call, and the facade is
    left as it was: no websocket client, no channel registration, no
    subscription. *)
Theorem subscribe_to_bar_events_duration {Cache : Type}
  (klines_get_channel : Pair.t -> string -> result string)
  (pair : Pair.t) (h : EventHandler) (s : facade Cache) :
  (intervals !! KInt 60 = Some "1m" /\ intervals !! KStr "1m" = Some "1m"
   /\ subscribe_to_bar_events klines_get_channel pair (KInt 60) h s
      = subscribe_to_bar_events klines_get_channel pair (KStr "1m") h s)
  /\ Forall (fun nt => intervals !! KInt nt.1 = Some nt.2
                       /\ intervals !! KStr nt.2 = Some nt.2) legacy_durations
  /\ (forall d t, intervals !! d = Some t ->
      (exists n, (n, t) ∈ legacy_durations)
      /\ subscribe_to_bar_events klines_get_channel pair d h s
         = subscribe_to_bar_events klines_get_channel pair (KStr t) h s)
  /\ (forall d, intervals !! d = None ->
      subscribe_to_bar_events klines_get_channel pair d h s
      = (Raise (AssertionError "Invalid bar_duration"), s))
  /\ intervals !! KStr "2m" = None /\ intervals !! KInt 7 = None.
Proof.
  assert (Hsame : forall d t, intervals !! d = Some t ->
            subscribe_to_bar_events klines_get_channel pair d h s
            = subscribe_to_bar_events klines_get_channel pair (KStr t) h s).
  { intros d t Hd. destruct (DurationFacts.intervals_token d t Hd) as [Ht _].
    rewrite !FacadeFacts.subscribe_to_bar_events_unfold, Hd, Ht. reflexivity. }
  split; [|split; [|split; [|split; [|split]]]].
  - split; [reflexivity|]. split; [reflexivity|]. apply Hsame. reflexivity.
  - exact DurationFacts.intervals_legacy.
  - intros d t Hd. split; [exact (DurationFacts.intervals_supported d t Hd)|exact (Hsame d t Hd)].
  - intros d Hd. rewrite FacadeFacts.subscribe_to_bar_events_unfold, Hd. reflexivity.
  - reflexivity.
  - reflexivity.
Qed.

Lemma subscribe_to_bar_events_duration_witness :
  subscribe_to_bar_events sample_klines_get_channel sample_pair (KStr "2m") 1%nat
    SpotExchange.__init__
  = (Raise (AssertionError "Invalid bar_duration"), SpotExchange.__init__)
  /\ subscribe_to_bar_events sample_klines_get_channel sample_pair (KInt 3600) 1%nat
       SpotExchange.__init__
     = subscribe_to_bar_events sample_klines_get_channel sample_pair (KStr "1h") 1%nat
         SpotExchange.__init__.
Proof.
  pose proof (subscribe_to_bar_events_duration sample_klines_get_channel
                sample_pair 1%nat SpotExchange.__init__)
    as (_ & _ & Hsame & Hfail & _).
  split.
  - apply Hfail. reflexivity.
  - apply (Hsame (KInt 3600) "1h"). reflexivity.
Defined.

(** C5 as stated does not hold: the failure for "2m" is not a
    ConfigurationError. *)
Lemma subscribe_to_bar_events_not_ConfigurationError :
  ~ exists e,
      (subscribe_to_bar_events sample_klines_get_channel sample_pair (KStr "2m")
         1%nat SpotExchange.__init__).1 = Raise e
      /\ exn_class e = "ConfigurationError".
Proof.
  intros (e & He & Hc). vm_compute in He. injection He as <-.
  vm_compute in Hc. discriminate.
Qed.

(** * Futures instruments *)





(** * The samples, run *)

Example sample_commissions :
  commissions_of (KStr "BNB") sample_trades
  = [Decimal.mk 10 (-2); Decimal.mk 25 (-3)].
Proof. vm_compute. reflexivity. Qed.

Example sample_commissions_within_precision :
  within_precision (-3) (commissions_of (KStr "BNB") sample_trades).
Proof.
  rewrite sample_commissions. split; [lia|]. split.
  - repeat constructor; cbn; lia.
  - vm_compute. reflexivity.
Qed.

Example sample_fees_read :
  OrderInfo.fees_getitem sample_order (KStr "USDT")
  = (Decimal.zero,
     OrderInfo.mk sample_order_json sample_trades
       {[ KStr "BNB" := Decimal.mk 125 (-3); KStr "USDT" := Decimal.zero ]}).
Proof. vm_compute. reflexivity. Qed.

Example sample_amount_remaining :
  OrderInfo.amount_remaining sample_order = Ok (Decimal.mk 0 0).
Proof. vm_compute. reflexivity. Qed.

(** Beyond the precision of the context a sum is rounded: one unit added
    to [10 ^ 28] is lost. *)
Example decimal_sum_rounds :
  decimal_sum [Decimal.mk (10 ^ 28) 0; Decimal.mk 1 0] = Decimal.mk (10 ^ 27) 1.
Proof. vm_compute. reflexivity. Qed.

Example sample_get_precision :
  get_precision_from_step_size sample_log10 (JStr "0.00001") = Ok 5.
Proof. vm_compute. reflexivity. Qed.

(** Two handlers on the one-minute bars, by the two forms of the
    duration, and one on the trades: two event sources, one websocket
    client, three subscriptions. *)
Example sample_subscriptions :
  let s :=
    SpotExchange.run_calls sample_venue sample_log10
      sample_pair_to_order_book_symbol sample_klines_get_channel
      sample_order_book_get_channel sample_trades_get_channel
      [SpotExchange.Call_subscribe_to_bar_events sample_pair (KInt 60) 1%nat;
       SpotExchange.Call_subscribe_to_bar_events sample_pair (KStr "1m") 2%nat;
       SpotExchange.Call_subscribe_to_trade_events sample_pair 3%nat]
      SpotExchange.__init__ in
  websocket_clients s = [0%nat]
  /\ (es_id <$> event_sources s) = [1%nat; 2%nat]
  /\ (es_id <$> sources_of_channel "BTCUSDT@kline_1m" s) = [1%nat]
  /\ ((fun eh => (es_id eh.1, eh.2)) <$> subscriptions s)
     = [(1%nat, 1%nat); (1%nat, 2%nat); (2%nat, 3%nat)].
Proof. vm_compute. auto. Qed.

Example sample_no_websocket_before_subscription :
  let s :=
    SpotExchange.run_calls sample_venue sample_log10
      sample_pair_to_order_book_symbol sample_klines_get_channel
      sample_order_book_get_channel sample_trades_get_channel
      [SpotExchange.Call_get_pair_info sample_pair;
       SpotExchange.Call_subscribe_to_bar_events sample_pair (KInt 7) 1%nat]
      SpotExchange.__init__ in
  _websocket s = None /\ websocket_clients s = []
  /\ requests s = [GetExchangeInfo (Some "BTCUSDT")].
Proof. vm_compute. auto. Qed.

Example sample_futures_pair_info :
  let get_pair_info :=
    FuturesExchange.get_pair_info sample_venue sample_log10
      sample_futures_pair_to_order_book_symbol sample_repr_container in
  let s1 := (get_pair_info sample_futures_pair FuturesExchange.__init__).2 in
  requests s1 = [GetExchangeInfo None]
  /\ requests (get_pair_info sample_futures_pair s1).2 = [GetExchangeInfo None]
  /\ (get_pair_info sample_futures_pair s1).1
     = Ok {| f_base_precision := 5; f_quote_precision := 2;
             f_contract_type := BinanceContractType.PERPETUAL;
             f_delivery_date := JInt 4133404800000;
             f_permissions := JNull |}.
Proof. vm_compute. auto. Qed.

(** * Account types and the construction of a facade *)

(** X1. The four predicates of [BinanceAccountType] split the account
    types in two: an account type is spot-or-margin exactly when it is spot
    or margin, never both, and it is a futures type exactly when it is not
    spot-or-margin. *)
Theorem BinanceAccountType_partition (a : BinanceAccountType.t) :
  BinanceAccountType.is_spot_or_margin a
    = BinanceAccountType.is_spot a || BinanceAccountType.is_margin a
  /\ BinanceAccountType.is_spot a && BinanceAccountType.is_margin a = false
  /\ BinanceAccountType.is_futures a
       = negb (BinanceAccountType.is_spot_or_margin a).
Proof. destruct a; repeat split; reflexivity. Qed.

(** X2. [Exchange.create] gives a spot facade over an [APIClient] for the
    spot and margin account types and a futures facade over a [FAPIClient]
    for [USDT_FUTURE], each as its [__init__] leaves it and with the testnet
    flag deciding the [api_type]; for [COIN_FUTURE], although it is a
    futures type, it fails with the [ValueError] of the futures
    constructor. It fails for no other account type. *)
Theorem Exchange_create_dispatch (a : BinanceAccountType.t) (testnet : bool) :
  (BinanceAccountType.is_spot_or_margin a = true ->
     Exchange_create a testnet
     = Ok (ASpotExchange
             {| cli_class := "APIClient";
                cli_api_type := if testnet then "api_testnet" else "api" |}
             SpotExchange.__init__))
  /\ (a = BinanceAccountType.USDT_FUTURE ->
     Exchange_create a testnet
     = Ok (AFuturesExchange
             {| cli_class := "FAPIClient";
                cli_api_type := if testnet then "fapi_testnet" else "fapi" |}
             FuturesExchange.__init__))
  /\ (a = BinanceAccountType.COIN_FUTURE ->
     BinanceAccountType.is_futures a = true
     /\ Exchange_create a testnet = Raise (ValueError "Invalid account_type"))
  /\ (fails (Exchange_create a testnet) <-> a = BinanceAccountType.COIN_FUTURE).
Proof.
  split; [|split; [|split]].
  - destruct a; cbn; intros H; try discriminate; reflexivity.
  - intros ->. reflexivity.
  - intros ->. split; reflexivity.
  - split.
    + intros [e He]. destruct a; cbn in He; try discriminate. reflexivity.
    + intros ->. eexists. reflexivity.
Qed.

Lemma Exchange_create_dispatch_witness :
  Exchange_create BinanceAccountType.ISOLATED_MARGIN true
  = Ok (ASpotExchange
          {| cli_class := "APIClient"; cli_api_type := "api_testnet" |}
          SpotExchange.__init__).
Proof.
  apply (proj1 (Exchange_create_dispatch BinanceAccountType.ISOLATED_MARGIN true)).
  reflexivity.
Defined.

(** * Contract types *)

(** X3. [BinanceContractType(value)] and [.value] are inverse to each
    other: a member is found again from its value, and a payload value
    names a member only if it is the text of that member's value. A member
    is a delivery contract exactly when it is not perpetual. *)
Theorem BinanceContractType_round_trip (c : BinanceContractType.t) (j : jval) :
  BinanceContractType.of_value (JStr (BinanceContractType.value c)) = Ok c
  /\ (BinanceContractType.of_value j = Ok c ->
      j = JStr (BinanceContractType.value c))
  /\ BinanceContractType_is_delivery c = negb (BinanceContractType_is_perpetual c).
Proof.
  split; [|split].
  - destruct c; reflexivity.
  - unfold BinanceContractType.of_value.
    destruct (List.find _ _) as [c'|] eqn:Hf; [|discriminate].
    intros [= ->]. apply find_some in Hf. destruct Hf as [_ Hf].
    destruct j; cbn in Hf; try discriminate.
    apply String.eqb_eq in Hf. congruence.
  - destruct c; reflexivity.
Qed.

Lemma BinanceContractType_round_trip_witness :
  JStr "NEXT_QUARTER" = JStr (BinanceContractType.value BinanceContractType.NEXT_QUARTER).
Proof.
  apply (proj1 (proj2 (BinanceContractType_round_trip
                         BinanceContractType.NEXT_QUARTER (JStr "NEXT_QUARTER")))).
  reflexivity.
Defined.

(** * The order list id *)

Lemma order_list_id_value (repr_container : jval -> string) (v : jval) :
  match v with
  | JNull => None
  | JInt (-1) => None
  | _ => Some (py_str repr_container v)
  end = None <-> v = JNull \/ v = JInt (-1).
Proof.
  split.
  - destruct v as [|b|z|s|l|m]; try discriminate; [left; reflexivity|].
    destruct z as [|p|p]; try discriminate.
    destruct p; try discriminate. right; reflexivity.
  - intros [-> | ->]; reflexivity.
Qed.

Lemma order_list_id_int (repr_container : jval -> string)
  (m : gmap string jval) (n : Z) :
  m !! "orderListId" = Some (JInt n) ->
  OrderWrapper_order_list_id repr_container (JDict m)
  = Ok (if decide (n = -1) then None else Some (pretty n)).
Proof.
  intros H. unfold OrderWrapper_order_list_id, Json.get.
  cbn [mbind result_bind]. rewrite H. cbn [default]. f_equal.
  destruct n as [|p|p]; try reflexivity. destruct p; reflexivity.
Qed.

(** X4. [OrderWrapper.order_list_id] (and the same body in
    [futures.Trade] and [futures.OpenOrder]) is [None] exactly when the
    payload has no "orderListId", or has it [null] or the integer -1; every
    other integer id is given as its decimal text, two different ids as two
    different texts. *)
Theorem order_list_id_sentinel (repr_container : jval -> string)
  (m : gmap string jval) :
  (OrderWrapper_order_list_id repr_container (JDict m) = Ok None <->
     m !! "orderListId" = None \/ m !! "orderListId" = Some JNull
     \/ m !! "orderListId" = Some (JInt (-1)))
  /\ (forall n, m !! "orderListId" = Some (JInt n) -> n <> -1 ->
        OrderWrapper_order_list_id repr_container (JDict m) = Ok (Some (pretty n)))
  /\ (forall m' n n',
        m !! "orderListId" = Some (JInt n) ->
        m' !! "orderListId" = Some (JInt n') ->
        OrderWrapper_order_list_id repr_container (JDict m)
        = OrderWrapper_order_list_id repr_container (JDict m') ->
        n = n').
Proof.
  unfold OrderWrapper_order_list_id, Json.get. cbn [mbind result_bind].
  split; [|split].
  - split.
    + intros [= H]. apply order_list_id_value in H.
      destruct (m !! "orderListId") as [v|]; [|left; reflexivity].
      cbn in H. destruct H as [-> | ->]; auto.
    + intros H. f_equal. apply order_list_id_value.
      destruct H as [-> | [-> | ->]]; cbn; auto.
  - intros n -> Hn. cbn [default]. f_equal.
    destruct n as [|p|p]; try reflexivity.
    destruct p; try reflexivity. contradiction Hn. reflexivity.
  - intros m' n n' Hn Hn'.
    pose proof (order_list_id_int repr_container m n Hn) as H1.
    pose proof (order_list_id_int repr_container m' n' Hn') as H2.
    unfold OrderWrapper_order_list_id, Json.get in H1, H2.
    cbn [mbind result_bind] in H1, H2. rewrite H1, H2. intros [= H].
    destruct (decide (n = -1)) as [->|Hd], (decide (n' = -1)) as [->|Hd'];
      try discriminate; [reflexivity|].
    injection H as H. apply (inj pretty) in H. exact H.
Qed.

Lemma order_list_id_sentinel_witness :
  OrderWrapper_order_list_id sample_repr_container
    (Json.dict [("orderId", JInt 7); ("orderListId", JInt 42)])
  = Ok (Some "42").
Proof.
  apply (proj1 (proj2 (order_list_id_sentinel sample_repr_container
           (list_to_map [("orderId", JInt 7); ("orderListId", JInt 42)]))) 42).
  - reflexivity.
  - lia.
Defined.

(** X5. [futures.CreatedOrder.order_list_id] reads the key with
    [json["orderListId"]] and tests only -1: on a payload without the key
    it raises [KeyError] where the other wrappers give [None], on a [null]
    id it gives the text "None" where they give [None], and on every other
    payload the two agree. *)
Theorem futures_CreatedOrder_order_list_id_differs
  (repr_container : jval -> string) (m : gmap string jval) :
  (m !! "orderListId" = None ->
     futures_CreatedOrder_order_list_id repr_container (JDict m)
       = Raise (KeyError "orderListId")
     /\ OrderWrapper_order_list_id repr_container (JDict m) = Ok None)
  /\ (m !! "orderListId" = Some JNull ->
     futures_CreatedOrder_order_list_id repr_container (JDict m) = Ok (Some "None")
     /\ OrderWrapper_order_list_id repr_container (JDict m) = Ok None)
  /\ (forall v, m !! "orderListId" = Some v -> v <> JNull ->
     futures_CreatedOrder_order_list_id repr_container (JDict m)
     = OrderWrapper_order_list_id repr_container (JDict m)).
Proof.
  unfold futures_CreatedOrder_order_list_id, OrderWrapper_order_list_id,
    Json.get, Json.getitem.
  split; [|split].
  - intros ->. split; reflexivity.
  - intros ->. split; reflexivity.
  - intros v -> Hv. cbn. f_equal. destruct v; try reflexivity. contradiction.
Qed.

Lemma futures_CreatedOrder_order_list_id_differs_witness :
  futures_CreatedOrder_order_list_id sample_repr_container
    (Json.dict [("orderId", JInt 7)]) = Raise (KeyError "orderListId")
  /\ OrderWrapper_order_list_id sample_repr_container
       (Json.dict [("orderId", JInt 7)]) = Ok None.
Proof.
  apply (proj1 (futures_CreatedOrder_order_list_id_differs sample_repr_container
                  (list_to_map [("orderId", JInt 7)]))).
  reflexivity.
Defined.

(** * [FuturesBalance]: assets and positions by name *)

Module FuturesBalanceFacts.

Import FuturesBalance.

Lemma last_filter_snoc {A} (f : A -> bool) (l : list A) (x : A) :
  last (List.filter f (l ++ [x]))
  = if f x then Some x else last (List.filter f l).
Proof.
  rewrite List.filter_app. cbn [List.filter].
  destruct (f x); [apply last_snoc|]. rewrite app_nil_r. reflexivity.
Qed.

Lemma foldM_snoc {A B} (f : B -> A -> result B) (acc : B) (l : list A) (x : A) :
  foldM f acc (l ++ [x]) = (foldM f acc l ≫= fun b => f b x).
Proof.
  revert acc. induction l as [|y l IH]; intros acc; cbn.
  - destruct (f acc x); reflexivity.
  - destruct (f acc y); cbn; [apply IH|reflexivity].
Qed.

Lemma dict_by_snoc (field : string) (items : list jval) (x : jval) :
  dict_by field (items ++ [x])
  = (m ← dict_by field items; k ← entry_key field x; Ok (<[k := x]> m)).
Proof.
  unfold dict_by. rewrite foldM_snoc.
  destruct (foldM _ _ _) as [m|e]; [|reflexivity]. cbn.
  unfold entry_key. destruct (Json.getitem x field); [|reflexivity]. cbn.
  destruct (py_hashable _); reflexivity.
Qed.

(** The dictionary of a comprehension: under each key, the last entry
    that has it. *)
Lemma dict_by_lookup (field : string) (items : list jval)
  (m : gmap pykey jval) (k : pykey) :
  dict_by field items = Ok m ->
  m !! k = last (List.filter (has_key field k) items).
Proof.
  revert m. induction items as [|x items IH] using rev_ind; intros m H.
  - injection H as <-. apply lookup_empty.
  - rewrite dict_by_snoc in H. inv_bind H. rename a into m0.
    inv_bind H. rename a into kx. injection H as <-.
    rewrite last_filter_snoc. unfold has_key at 1. rewrite Ha0.
    case_bool_decide as Hk.
    + subst. apply lookup_insert_eq.
    + rewrite lookup_insert_ne by exact Hk. apply IH. exact Ha.
Qed.

(** The comprehension ends well exactly when every entry has a hashable
    value under the field. *)
Lemma dict_by_is_ok (field : string) (items : list jval) :
  is_ok (dict_by field items)
  = forallb (fun d => is_ok (entry_key field d)) items.
Proof.
  induction items as [|x items IH] using rev_ind; [reflexivity|].
  rewrite dict_by_snoc, forallb_app. cbn [forallb]. rewrite <- IH.
  destruct (dict_by field items); cbn; [|reflexivity].
  destruct (entry_key field x); reflexivity.
Qed.

End FuturesBalanceFacts.

(** X6. [FuturesBalance.assets] and [FuturesBalance.positions] are built
    by a dict comprehension over the payload's list: under each name the
    dictionary holds the last entry of the list with that name (an earlier
    entry of the same name is dropped), and it holds nothing under a name
    no entry has. *)
Theorem FuturesBalance_last_entry_wins (self : FuturesBalance.t)
  (items : list jval) (m : gmap pykey jval) (k : pykey) :
  (Json.getitem (FuturesBalance.json self) "assets" = Ok (JList items) ->
   FuturesBalance.assets self = Ok m ->
   m !! k = last (List.filter (has_key "asset" k) items))
  /\ (Json.getitem (FuturesBalance.json self) "positions" = Ok (JList items) ->
   FuturesBalance.positions self = Ok m ->
   m !! k = last (List.filter (has_key "symbol" k) items)).
Proof.
  unfold FuturesBalance.assets, FuturesBalance.positions.
  split; intros -> H; cbn in H;
    apply FuturesBalanceFacts.dict_by_lookup; exact H.
Qed.

Lemma FuturesBalance_last_entry_wins_witness :
  list_to_map (M := gmap pykey jval)
    [(KStr "USDT", Json.dict [("asset", JStr "USDT"); ("walletBalance", JStr "2")]);
     (KStr "BNB", Json.dict [("asset", JStr "BNB"); ("walletBalance", JStr "5")])]
    !! KStr "USDT"
  = last (List.filter (has_key "asset" (KStr "USDT"))
      [Json.dict [("asset", JStr "USDT"); ("walletBalance", JStr "1")];
       Json.dict [("asset", JStr "BNB"); ("walletBalance", JStr "5")];
       Json.dict [("asset", JStr "USDT"); ("walletBalance", JStr "2")]]).
Proof.
  apply (proj1 (FuturesBalance_last_entry_wins
    (FuturesBalance.mk (Json.dict [("assets", JList
      [Json.dict [("asset", JStr "USDT"); ("walletBalance", JStr "1")];
       Json.dict [("asset", JStr "BNB"); ("walletBalance", JStr "5")];
       Json.dict [("asset", JStr "USDT"); ("walletBalance", JStr "2")]])]))
    _ _ (KStr "USDT"))).
  - reflexivity.
  - vm_compute. reflexivity.
Defined.

(** X7. Building the dictionary of assets or positions needs every entry
    to carry the name: the comprehension ends well exactly when every entry
    of the list has a hashable value under the field, and one entry without
    it makes the whole property fail. *)
Theorem FuturesBalance_needs_every_key (self : FuturesBalance.t)
  (items : list jval) :
  (Json.getitem (FuturesBalance.json self) "assets" = Ok (JList items) ->
   is_ok (FuturesBalance.assets self)
   = forallb (fun d => is_ok (entry_key "asset" d)) items)
  /\ (Json.getitem (FuturesBalance.json self) "positions" = Ok (JList items) ->
   is_ok (FuturesBalance.positions self)
   = forallb (fun d => is_ok (entry_key "symbol" d)) items).
Proof.
  unfold FuturesBalance.assets, FuturesBalance.positions.
  split; intros ->; cbn [mbind result_bind Json.iter];
    apply FuturesBalanceFacts.dict_by_is_ok.
Qed.

Lemma FuturesBalance_needs_every_key_witness :
  is_ok (FuturesBalance.positions
    (FuturesBalance.mk (Json.dict [("positions", JList
      [Json.dict [("symbol", JStr "BTCUSDT")];
       Json.dict [("positionAmt", JStr "1")]])])))
  = forallb (fun d => is_ok (entry_key "symbol" d))
      [Json.dict [("symbol", JStr "BTCUSDT")];
       Json.dict [("positionAmt", JStr "1")]].
Proof.
  apply (proj2 (FuturesBalance_needs_every_key
    (FuturesBalance.mk (Json.dict [("positions", JList
      [Json.dict [("symbol", JStr "BTCUSDT")];
       Json.dict [("positionAmt", JStr "1")]])])) _)).
  reflexivity.
Defined.

(** * More on the facades: requests and the cache *)

Module RequestFacts.

Import FacadeFacts.

Section Generic.

Context {Cache : Type}.
Implicit Types s : facade Cache.

Lemma requests_snoc s (w : option WebSocketClient) c (p : Cache) (n : nat)
  (e : effect) :
  requests (mk_facade w c p n (trace s ++ [e]))
  = requests s ++ (if is_request e then [e] else []).
Proof.
  unfold requests. cbn [trace]. rewrite List.filter_app. cbn [List.filter].
  destruct (is_request e); reflexivity.
Qed.

(** A subscription issues no metadata request and leaves the
    dictionary [_channel_to_event_source] as it is. *)
Lemma subscribe_requests (k : string) f h s :
  requests (_subscribe_to_ws_channel_events k f h s).2 = requests s.
Proof.
  rewrite subscribe_spec. unfold requests.
  destruct (_websocket s) as [ws|]; [destruct (ws_channels ws !! k)|];
    cbn [snd trace]; rewrite !List.filter_app; cbn [List.filter is_request];
    rewrite ?app_nil_r; reflexivity.
Qed.

Lemma subscribe_channel_field (k : string) f h s :
  _channel_to_event_source (_subscribe_to_ws_channel_events k f h s).2
  = _channel_to_event_source s.
Proof.
  rewrite subscribe_spec.
  destruct (_websocket s) as [ws|]; [destruct (ws_channels ws !! k)|];
    reflexivity.
Qed.

(** Each public subscription is a failure that leaves the facade as
    it was, or a subscription to a channel. *)
Lemma subscribe_to_bar_events_cases klines_get_channel pair d h s :
  (subscribe_to_bar_events klines_get_channel pair d h s).2 = s
  \/ exists k f,
       (subscribe_to_bar_events klines_get_channel pair d h s).2
       = (_subscribe_to_ws_channel_events k f h s).2.
Proof.
  rewrite subscribe_to_bar_events_unfold.
  destruct (intervals !! d) as [i|]; [|left; reflexivity].
  destruct (String.eqb i EmptyString); [left; reflexivity|].
  destruct (klines_get_channel pair i); [|left; reflexivity].
  right. eauto.
Qed.

Lemma subscribe_to_order_book_events_cases order_book_get_channel pair h
  depth s :
  (subscribe_to_order_book_events order_book_get_channel pair h depth s).2 = s
  \/ exists k f,
       (subscribe_to_order_book_events order_book_get_channel pair h depth s).2
       = (_subscribe_to_ws_channel_events k f h s).2.
Proof.
  rewrite subscribe_to_order_book_events_unfold.
  destruct (order_book_get_channel pair depth); [|left; reflexivity].
  right. eauto.
Qed.

Lemma subscribe_to_trade_events_cases trades_get_channel pair h s :
  (subscribe_to_trade_events trades_get_channel pair h s).2 = s
  \/ exists k f,
       (subscribe_to_trade_events trades_get_channel pair h s).2
       = (_subscribe_to_ws_channel_events k f h s).2.
Proof.
  rewrite subscribe_to_trade_events_unfold.
  destruct (trades_get_channel pair); [|left; reflexivity].
  right. eauto.
Qed.

End Generic.

Section Spot.

Variable venue : venue_t.
Variable decimal_log10 : Decimal -> result Decimal.
Variable pair_to_order_book_symbol : Pair.t -> string.
Variable klines_get_channel : Pair.t -> string -> result string.
Variable order_book_get_channel : Pair.t -> Z -> result string.
Variable trades_get_channel : Pair.t -> result string.

Local Abbreviation state := SpotExchange.state.
Local Abbreviation call := SpotExchange.call.
Local Abbreviation get_pair_info :=
  (SpotExchange.get_pair_info venue decimal_log10 pair_to_order_book_symbol).
Local Abbreviation run_call :=
  (SpotExchange.run_call venue decimal_log10 pair_to_order_book_symbol
     klines_get_channel order_book_get_channel trades_get_channel).
Local Abbreviation run_calls :=
  (SpotExchange.run_calls venue decimal_log10 pair_to_order_book_symbol
     klines_get_channel order_book_get_channel trades_get_channel).
Local Abbreviation backed :=
  (spot_entry_backed venue decimal_log10 pair_to_order_book_symbol).

(** What a call that is no metadata call keeps. *)
Lemma spot_subscription_keeps (c : call) (s : state) :
  spot_is_metadata_call c = false ->
  requests (run_call c s) = requests s
  /\ _pair_info_cache (run_call c s) = _pair_info_cache s
  /\ _channel_to_event_source (run_call c s) = _channel_to_event_source s.
Proof.
  intros Hc. destruct c; try discriminate; cbn [SpotExchange.run_call].
  - destruct (subscribe_to_bar_events_cases klines_get_channel pair
                bar_duration event_handler s) as [E | (k & f & E)];
      rewrite E; [auto|].
    split; [apply subscribe_requests|].
    split; [apply subscribe_cache|apply subscribe_channel_field].
  - destruct (subscribe_to_order_book_events_cases order_book_get_channel
                pair event_handler depth s) as [E | (k & f & E)];
      rewrite E; [auto|].
    split; [apply subscribe_requests|].
    split; [apply subscribe_cache|apply subscribe_channel_field].
  - destruct (subscribe_to_trade_events_cases trades_get_channel pair
                event_handler s) as [E | (k & f & E)];
      rewrite E; [auto|].
    split; [apply subscribe_requests|].
    split; [apply subscribe_cache|apply subscribe_channel_field].
Qed.

(** What [get_pair_info] does to the requests, by its outcome. *)
Lemma spot_get_pair_info_requests (p : Pair.t) (s : state) :
  requests (get_pair_info p s).2
  = requests s ++
    match _pair_info_cache s !! p with
    | Some _ => []
    | None => [GetExchangeInfo (Some (pair_to_order_book_symbol p))]
    end.
Proof.
  rewrite SpotFacts.spot_get_pair_info_spec.
  destruct (_pair_info_cache s !! p); [symmetry; apply app_nil_r|].
  cbn zeta. destruct (_ ≫= _); cbn [snd]; apply (requests_snoc s).
Qed.

Lemma spot_get_pair_info_channel_field (p : Pair.t) (s : state) :
  _channel_to_event_source (get_pair_info p s).2 = _channel_to_event_source s.
Proof.
  rewrite SpotFacts.spot_get_pair_info_spec.
  destruct (_pair_info_cache s !! p); [reflexivity|].
  cbn zeta. destruct (_ ≫= _); reflexivity.
Qed.

Lemma spot_backed_mono (s s' : state) (p : Pair.t) (r : PairInfoEx)
  (evs : list effect) :
  requests s' = requests s ++ evs -> backed s p r -> backed s' p r.
Proof.
  intros Hr (n & info & Hn & Hv & Hi). exists n, info.
  split; [|auto]. rewrite Hr. apply lookup_app_l_Some. exact Hn.
Qed.

Lemma spot_run_call_backed (c : call) (s : state) :
  (forall p r, _pair_info_cache s !! p = Some r -> backed s p r) ->
  forall p r, _pair_info_cache (run_call c s) !! p = Some r ->
              backed (run_call c s) p r.
Proof.
  intros Hinv p r Hp.
  destruct (spot_is_metadata_call c) eqn:Hc.
  - destruct c as [| | |q]; try discriminate. cbn [SpotExchange.run_call] in *.
    pose proof (spot_get_pair_info_requests q s) as Hreq.
    rewrite SpotFacts.spot_get_pair_info_spec in Hp |- *.
    rewrite SpotFacts.spot_get_pair_info_spec in Hreq.
    destruct (_pair_info_cache s !! q) as [r0|] eqn:Hq;
      [apply Hinv; exact Hp|].
    cbn zeta in *.
    destruct (venue _ _ ≫= _) as [ret|e] eqn:Hv; cbn [snd _pair_info_cache] in *.
    + destruct (decide (q = p)) as [->|Hne].
      * rewrite lookup_insert_eq in Hp. injection Hp as ->.
        apply bind_Ok in Hv. destruct Hv as (info & Hv & Hi).
        exists (length (requests s)), info. split; [|auto].
        rewrite Hreq. rewrite lookup_app_r by lia.
        rewrite Nat.sub_diag. reflexivity.
      * rewrite lookup_insert_ne in Hp by exact Hne.
        eapply spot_backed_mono; [exact Hreq|apply Hinv; exact Hp].
    + eapply spot_backed_mono; [exact Hreq|apply Hinv; exact Hp].
  - destruct (spot_subscription_keeps c s Hc) as (Hr & Hk & _).
    rewrite Hk in Hp. eapply (spot_backed_mono s _ p r []);
      [rewrite app_nil_r; exact Hr|apply Hinv; exact Hp].
Qed.

Lemma spot_run_calls_backed (cs : list call) (s : state) :
  (forall p r, _pair_info_cache s !! p = Some r -> backed s p r) ->
  forall p r, _pair_info_cache (run_calls cs s) !! p = Some r ->
              backed (run_calls cs s) p r.
Proof.
  revert s. induction cs as [|c cs IH]; intros s Hinv; [exact Hinv|].
  cbn [SpotExchange.run_calls fold_left]. apply IH.
  apply spot_run_call_backed. exact Hinv.
Qed.

Lemma spot_run_call_channel_field (c : call) (s : state) :
  _channel_to_event_source (run_call c s) = _channel_to_event_source s.
Proof.
  destruct (spot_is_metadata_call c) eqn:Hc.
  - destruct c; try discriminate. apply spot_get_pair_info_channel_field.
  - apply spot_subscription_keeps. exact Hc.
Qed.

Lemma spot_run_calls_channel_field (cs : list call) (s : state) :
  _channel_to_event_source (run_calls cs s) = _channel_to_event_source s.
Proof.
  revert s. induction cs as [|c cs IH]; intros s; [reflexivity|].
  cbn [SpotExchange.run_calls fold_left].
  etransitivity; [apply IH|apply spot_run_call_channel_field].
Qed.

Lemma spot_run_call_requests_le (c : call) (s : state) :
  (length (requests (run_call c s))
   <= length (requests s) + (if spot_is_metadata_call c then 1 else 0))%nat.
Proof.
  destruct (spot_is_metadata_call c) eqn:Hc.
  - destruct c; try discriminate. cbn [SpotExchange.run_call].
    rewrite spot_get_pair_info_requests, length_app.
    destruct (_ !! _); cbn; lia.
  - destruct (spot_subscription_keeps c s Hc) as (-> & _). lia.
Qed.

Lemma spot_run_calls_requests_le (cs : list call) (s : state) :
  (length (requests (run_calls cs s))
   <= length (requests s) + length (List.filter spot_is_metadata_call cs))%nat.
Proof.
  revert s. induction cs as [|c cs IH]; intros s; [cbn; lia|].
  cbn [SpotExchange.run_calls fold_left List.filter].
  etransitivity; [apply IH|].
  pose proof (spot_run_call_requests_le c s).
  destruct (spot_is_metadata_call c); cbn [length]; lia.
Qed.

End Spot.

Section Futures.

Variable venue : venue_t.
Variable decimal_log10 : Decimal -> result Decimal.
Variable pair_to_order_book_symbol : FuturesPair.t -> result string.
Variable repr_container : jval -> string.
Variable klines_get_channel : Pair.t -> string -> result string.
Variable order_book_get_channel : Pair.t -> Z -> result string.
Variable trades_get_channel : Pair.t -> result string.

Local Abbreviation state := FuturesExchange.state.
Local Abbreviation call := FuturesExchange.call.
Local Abbreviation get_pair := (FuturesExchange.get_pair venue).
Local Abbreviation get_pair_info :=
  (FuturesExchange.get_pair_info venue decimal_log10
     pair_to_order_book_symbol repr_container).
Local Abbreviation run_call :=
  (FuturesExchange.run_call venue decimal_log10 pair_to_order_book_symbol
     repr_container klines_get_channel order_book_get_channel
     trades_get_channel).
Local Abbreviation run_calls :=
  (FuturesExchange.run_calls venue decimal_log10 pair_to_order_book_symbol
     repr_container klines_get_channel order_book_get_channel
     trades_get_channel).
Local Abbreviation backed :=
  (futures_entry_backed venue decimal_log10 pair_to_order_book_symbol
     repr_container).

Lemma futures_subscription_keeps (c : call) (s : state) :
  futures_is_metadata_call c = false ->
  requests (run_call c s) = requests s
  /\ _pair_info_cache (run_call c s) = _pair_info_cache s
  /\ _channel_to_event_source (run_call c s) = _channel_to_event_source s.
Proof.
  intros Hc. destruct c; try discriminate; cbn [FuturesExchange.run_call].
  - destruct (subscribe_to_bar_events_cases klines_get_channel pair
                bar_duration event_handler s) as [E | (k & f & E)];
      rewrite E; [auto|].
    split; [apply subscribe_requests|].
    split; [apply subscribe_cache|apply subscribe_channel_field].
  - destruct (subscribe_to_order_book_events_cases order_book_get_channel
                pair event_handler depth s) as [E | (k & f & E)];
      rewrite E; [auto|].
    split; [apply subscribe_requests|].
    split; [apply subscribe_cache|apply subscribe_channel_field].
  - destruct (subscribe_to_trade_events_cases trades_get_channel pair
                event_handler s) as [E | (k & f & E)];
      rewrite E; [auto|].
    split; [apply subscribe_requests|].
    split; [apply subscribe_cache|apply subscribe_channel_field].
Qed.

(** [get_pair]: one request whatever the state, the cache untouched. *)
Lemma futures_get_pair_requests (symbol pair : option string)
  (contract_type : option BinanceContractType.t) (s : state) :
  requests (get_pair symbol pair contract_type s).2
    = requests s ++ [GetExchangeInfo None]
  /\ _pair_info_cache (get_pair symbol pair contract_type s).2
     = _pair_info_cache s
  /\ _channel_to_event_source (get_pair symbol pair contract_type s).2
     = _channel_to_event_source s.
Proof.
  rewrite FuturesFacts.futures_get_pair_spec. cbn [snd].
  split; [apply (requests_snoc s)|split; reflexivity].
Qed.

Lemma futures_get_pair_info_requests (fp : FuturesPair.t) (s : state) :
  requests (get_pair_info fp s).2
  = requests s ++
    match FuturesPair.__hash__ fp with
    | Ok k =>
        match _pair_info_cache s !! k with
        | Some _ => []
        | None => [GetExchangeInfo None]
        end
    | Raise _ => []
    end.
Proof.
  rewrite FuturesFacts.futures_get_pair_info_spec.
  destruct (FuturesPair.__hash__ fp) as [k|]; [|symmetry; apply app_nil_r].
  destruct (_pair_info_cache s !! k); [symmetry; apply app_nil_r|].
  destruct (_ ≫= _); cbn [snd]; apply (requests_snoc s).
Qed.

Lemma futures_get_pair_info_channel_field (fp : FuturesPair.t) (s : state) :
  _channel_to_event_source (get_pair_info fp s).2 = _channel_to_event_source s.
Proof.
  rewrite FuturesFacts.futures_get_pair_info_spec.
  destruct (FuturesPair.__hash__ fp) as [k|]; [|reflexivity].
  destruct (_pair_info_cache s !! k); [reflexivity|].
  destruct (_ ≫= _); reflexivity.
Qed.

Lemma futures_backed_mono (s s' : state) (k : FuturesPair.key)
  (r : FuturesPairInfoEx) (evs : list effect) :
  requests s' = requests s ++ evs -> backed s k r -> backed s' k r.
Proof.
  intros Hr (fp & n & info & Hh & Hn & Hv & Hi). exists fp, n, info.
  split; [exact Hh|]. split; [|auto].
  rewrite Hr. apply lookup_app_l_Some. exact Hn.
Qed.

Lemma futures_run_call_backed (c : call) (s : state) :
  (forall k r, _pair_info_cache s !! k = Some r -> backed s k r) ->
  forall k r, _pair_info_cache (run_call c s) !! k = Some r ->
              backed (run_call c s) k r.
Proof.
  intros Hinv k r Hp.
  destruct (futures_is_metadata_call c) eqn:Hc.
  - destruct c as [| | |sy pr ct|fp]; try discriminate;
      cbn [FuturesExchange.run_call] in *.
    + destruct (futures_get_pair_requests sy pr ct s) as (Hr & Hk & _).
      rewrite Hk in Hp.
      eapply futures_backed_mono; [exact Hr|apply Hinv; exact Hp].
    + pose proof (futures_get_pair_info_requests fp s) as Hreq.
      rewrite FuturesFacts.futures_get_pair_info_spec in Hp |- *.
      rewrite FuturesFacts.futures_get_pair_info_spec in Hreq.
      destruct (FuturesPair.__hash__ fp) as [kf|] eqn:Hh;
        [|apply Hinv; exact Hp].
      destruct (_pair_info_cache s !! kf) as [r0|] eqn:Hq;
        [apply Hinv; exact Hp|].
      destruct (venue _ _ ≫= _) as [ret|e] eqn:Hv;
        cbn [snd _pair_info_cache] in *.
      * destruct (decide (kf = k)) as [->|Hne].
        -- rewrite lookup_insert_eq in Hp. injection Hp as ->.
           apply bind_Ok in Hv. destruct Hv as (info & Hv & Hi).
           exists fp, (length (requests s)), info.
           split; [exact Hh|]. split; [|auto].
           rewrite Hreq. rewrite lookup_app_r by lia.
           rewrite Nat.sub_diag. reflexivity.
        -- rewrite lookup_insert_ne in Hp by exact Hne.
           eapply futures_backed_mono; [exact Hreq|apply Hinv; exact Hp].
      * eapply futures_backed_mono; [exact Hreq|apply Hinv; exact Hp].
  - destruct (futures_subscription_keeps c s Hc) as (Hr & Hk & _).
    rewrite Hk in Hp. eapply (futures_backed_mono s _ k r []);
      [rewrite app_nil_r; exact Hr|apply Hinv; exact Hp].
Qed.

Lemma futures_run_calls_backed (cs : list call) (s : state) :
  (forall k r, _pair_info_cache s !! k = Some r -> backed s k r) ->
  forall k r, _pair_info_cache (run_calls cs s) !! k = Some r ->
              backed (run_calls cs s) k r.
Proof.
  revert s. induction cs as [|c cs IH]; intros s Hinv; [exact Hinv|].
  cbn [FuturesExchange.run_calls fold_left]. apply IH.
  apply futures_run_call_backed. exact Hinv.
Qed.

Lemma futures_run_call_channel_field (c : call) (s : state) :
  _channel_to_event_source (run_call c s) = _channel_to_event_source s.
Proof.
  destruct (futures_is_metadata_call c) eqn:Hc.
  - destruct c; try discriminate; cbn [FuturesExchange.run_call].
    + apply futures_get_pair_requests.
    + apply futures_get_pair_info_channel_field.
  - apply futures_subscription_keeps. exact Hc.
Qed.

Lemma futures_run_calls_channel_field (cs : list call) (s : state) :
  _channel_to_event_source (run_calls cs s) = _channel_to_event_source s.
Proof.
  revert s. induction cs as [|c cs IH]; intros s; [reflexivity|].
  cbn [FuturesExchange.run_calls fold_left].
  etransitivity; [apply IH|apply futures_run_call_channel_field].
Qed.

Lemma futures_run_call_requests_le (c : call) (s : state) :
  (length (requests (run_call c s))
   <= length (requests s) + (if futures_is_metadata_call c then 1 else 0))%nat.
Proof.
  destruct (futures_is_metadata_call c) eqn:Hc.
  - destruct c; try discriminate; cbn [FuturesExchange.run_call].
    + destruct (futures_get_pair_requests symbol pair contract_type s)
        as (-> & _). rewrite length_app. cbn. lia.
    + rewrite futures_get_pair_info_requests, length_app.
      destruct (FuturesPair.__hash__ _); [destruct (_ !! _)|]; cbn; lia.
  - destruct (futures_subscription_keeps c s Hc) as (-> & _). lia.
Qed.

Lemma futures_run_calls_requests_le (cs : list call) (s : state) :
  (length (requests (run_calls cs s))
   <= length (requests s)
      + length (List.filter futures_is_metadata_call cs))%nat.
Proof.
  revert s. induction cs as [|c cs IH]; intros s; [cbn; lia|].
  cbn [FuturesExchange.run_calls fold_left List.filter].
  etransitivity; [apply IH|].
  pose proof (futures_run_call_requests_le c s).
  destruct (futures_is_metadata_call c); cbn [length]; lia.
Qed.

(** Calls of [get_pair] in a row: a request each. *)
Lemma futures_get_pair_calls
  (args : list (option string * option string * option BinanceContractType.t))
  (s : state) :
  let s' := run_calls
              ((fun a => FuturesExchange.Call_get_pair a.1.1 a.1.2 a.2)
                 <$> args) s in
  requests s' = requests s ++ replicate (length args) (GetExchangeInfo None)
  /\ _pair_info_cache s' = _pair_info_cache s.
Proof.
  cbn zeta. revert s. induction args as [|a args IH]; intros s.
  - cbn. rewrite app_nil_r. auto.
  - cbn [fmap list_fmap FuturesExchange.run_calls fold_left
         FuturesExchange.run_call length replicate].
    destruct (futures_get_pair_requests a.1.1 a.1.2 a.2 s) as (Hr & Hk & _).
    destruct (IH (get_pair a.1.1 a.1.2 a.2 s).2) as (IH1 & IH2).
    unfold FuturesExchange.run_calls in IH1, IH2.
    rewrite IH1, IH2, Hr, Hk, <- app_assoc. auto.
Qed.

End Futures.

End RequestFacts.

(** X8. A lookup that fails is not cached. When [get_pair_info] misses the
    cache and raises (the request fails, or the answer cannot be read), the
    request has been issued, the cache is as it was, and the next call for
    the same pair issues a request again. For [SpotExchange] and for
    [FuturesExchange]. *)
Theorem get_pair_info_failure_not_cached (venue : venue_t)
  (decimal_log10 : Decimal -> result Decimal)
  (spot_symbol : Pair.t -> string)
  (futures_symbol : FuturesPair.t -> result string)
  (repr_container : jval -> string) :
  (forall (p : Pair.t) (e : exn) (s s1 : SpotExchange.state),
     _pair_info_cache s !! p = None ->
     SpotExchange.get_pair_info venue decimal_log10 spot_symbol p s
       = (Raise e, s1) ->
     _pair_info_cache s1 = _pair_info_cache s
     /\ requests s1 = requests s ++ [GetExchangeInfo (Some (spot_symbol p))]
     /\ requests (SpotExchange.get_pair_info venue decimal_log10 spot_symbol
                    p s1).2
        = requests s1 ++ [GetExchangeInfo (Some (spot_symbol p))])
  /\ (forall (fp : FuturesPair.t) (k : FuturesPair.key) (e : exn)
        (s s1 : FuturesExchange.state),
     FuturesPair.__hash__ fp = Ok k ->
     _pair_info_cache s !! k = None ->
     FuturesExchange.get_pair_info venue decimal_log10 futures_symbol
       repr_container fp s = (Raise e, s1) ->
     _pair_info_cache s1 = _pair_info_cache s
     /\ requests s1 = requests s ++ [GetExchangeInfo None]
     /\ requests (FuturesExchange.get_pair_info venue decimal_log10
                    futures_symbol repr_container fp s1).2
        = requests s1 ++ [GetExchangeInfo None]).
Proof.
  split.
  - intros p e s s1 Hnone H.
    pose proof (RequestFacts.spot_get_pair_info_requests venue decimal_log10
                  spot_symbol p s) as Hr.
    rewrite H, Hnone in Hr. cbn [snd] in Hr.
    assert (Hc : _pair_info_cache s1 = _pair_info_cache s).
    { rewrite SpotFacts.spot_get_pair_info_spec, Hnone in H. cbn zeta in H.
      destruct (_ ≫= _); [discriminate|]. injection H as _ <-. reflexivity. }
    split; [exact Hc|]. split; [exact Hr|].
    rewrite RequestFacts.spot_get_pair_info_requests, Hc, Hnone. reflexivity.
  - intros fp k e s s1 Hh Hnone H.
    pose proof (RequestFacts.futures_get_pair_info_requests venue decimal_log10
                  futures_symbol repr_container fp s) as Hr.
    rewrite H, Hh, Hnone in Hr. cbn [snd] in Hr.
    assert (Hc : _pair_info_cache s1 = _pair_info_cache s).
    { rewrite FuturesFacts.futures_get_pair_info_spec, Hh, Hnone in H.
      destruct (_ ≫= _); [discriminate|]. injection H as _ <-. reflexivity. }
    split; [exact Hc|]. split; [exact Hr|].
    rewrite RequestFacts.futures_get_pair_info_requests, Hh, Hc, Hnone.
    reflexivity.
Qed.

Lemma get_pair_info_failure_not_cached_witness :
  let s1 := (SpotExchange.get_pair_info sample_empty_venue sample_log10
               sample_pair_to_order_book_symbol sample_pair
               SpotExchange.__init__).2 in
  _pair_info_cache s1 = _pair_info_cache SpotExchange.__init__
  /\ requests s1 = requests SpotExchange.__init__ ++ [GetExchangeInfo (Some "BTCUSDT")]
  /\ requests (SpotExchange.get_pair_info sample_empty_venue sample_log10
                 sample_pair_to_order_book_symbol sample_pair s1).2
     = requests s1 ++ [GetExchangeInfo (Some "BTCUSDT")].
Proof.
  apply (proj1 (get_pair_info_failure_not_cached sample_empty_venue sample_log10
                  sample_pair_to_order_book_symbol
                  sample_futures_pair_to_order_book_symbol sample_repr_container)
           sample_pair (AssertionError "More than 1 symbol found")
           SpotExchange.__init__).
  - reflexivity.
  - vm_compute. reflexivity.
Defined.

(** X9. [FuturesExchange.get_pair] is not cached: every call issues one
    request for the catalog, whatever was asked before, and leaves the
    pair-info cache untouched; so a run of calls issues as many requests as
    there are calls. *)
Theorem get_pair_never_cached (venue : venue_t)
  (decimal_log10 : Decimal -> result Decimal)
  (pair_to_order_book_symbol : FuturesPair.t -> result string)
  (repr_container : jval -> string)
  (klines_get_channel : Pair.t -> string -> result string)
  (order_book_get_channel : Pair.t -> Z -> result string)
  (trades_get_channel : Pair.t -> result string)
  (args : list (option string * option string * option BinanceContractType.t))
  (s : FuturesExchange.state) :
  let s' := FuturesExchange.run_calls venue decimal_log10
              pair_to_order_book_symbol repr_container klines_get_channel
              order_book_get_channel trades_get_channel
              ((fun a => FuturesExchange.Call_get_pair a.1.1 a.1.2 a.2) <$> args)
              s in
  requests s' = requests s ++ replicate (length args) (GetExchangeInfo None)
  /\ _pair_info_cache s' = _pair_info_cache s.
Proof. apply RequestFacts.futures_get_pair_calls. Qed.

(** X10. Every entry of the pair-info cache is backed by the venue: in
    every state of a facade's life, an entry of the cache is what
    [get_pair_info] reads, for that pair, from the answer the venue gave to
    one of the requests made so far (for the pair's symbol on the spot
    facade, for the catalog on the futures facade). Nothing else writes the
    cache. *)
Theorem pair_info_cache_backed (venue : venue_t)
  (decimal_log10 : Decimal -> result Decimal)
  (spot_symbol : Pair.t -> string)
  (futures_symbol : FuturesPair.t -> result string)
  (repr_container : jval -> string)
  (klines_get_channel : Pair.t -> string -> result string)
  (order_book_get_channel : Pair.t -> Z -> result string)
  (trades_get_channel : Pair.t -> result string) :
  (forall (cs : list SpotExchange.call) (p : Pair.t) (r : PairInfoEx),
     let s := SpotExchange.run_calls venue decimal_log10 spot_symbol
                klines_get_channel order_book_get_channel trades_get_channel
                cs SpotExchange.__init__ in
     _pair_info_cache s !! p = Some r ->
     spot_entry_backed venue decimal_log10 spot_symbol s p r)
  /\ (forall (cs : list FuturesExchange.call) (k : FuturesPair.key)
        (r : FuturesPairInfoEx),
     let s := FuturesExchange.run_calls venue decimal_log10 futures_symbol
                repr_container klines_get_channel order_book_get_channel
                trades_get_channel cs FuturesExchange.__init__ in
     _pair_info_cache s !! k = Some r ->
     futures_entry_backed venue decimal_log10 futures_symbol repr_container
       s k r).
Proof.
  split.
  - intros cs p r. cbn zeta. apply RequestFacts.spot_run_calls_backed.
    intros p' r' H. cbn in H. rewrite lookup_empty in H. discriminate.
  - intros cs k r. cbn zeta. apply RequestFacts.futures_run_calls_backed.
    intros k' r' H. cbn in H. rewrite lookup_empty in H. discriminate.
Qed.

Lemma pair_info_cache_backed_witness :
  spot_entry_backed sample_venue sample_log10 sample_pair_to_order_book_symbol
    (SpotExchange.run_calls sample_venue sample_log10
       sample_pair_to_order_book_symbol sample_klines_get_channel
       sample_order_book_get_channel sample_trades_get_channel
       [SpotExchange.Call_subscribe_to_trade_events sample_pair 1%nat;
        SpotExchange.Call_get_pair_info sample_pair;
        SpotExchange.Call_get_pair_info sample_pair]
       SpotExchange.__init__)
    sample_pair
    {| base_precision := 5; quote_precision := 2;
       permissions := JList [JStr "SPOT"] |}.
Proof.
  apply (proj1 (pair_info_cache_backed sample_venue sample_log10
                  sample_pair_to_order_book_symbol
                  sample_futures_pair_to_order_book_symbol sample_repr_container
                  sample_klines_get_channel sample_order_book_get_channel
                  sample_trades_get_channel)).
  vm_compute. reflexivity.
Defined.

(** X11. The dictionary [_channel_to_event_source] that [__init__] sets is
    never written: in every state of a facade's life it is empty. The
    channel's event source is kept by the websocket client alone. *)
Theorem channel_to_event_source_unused (venue : venue_t)
  (decimal_log10 : Decimal -> result Decimal)
  (spot_symbol : Pair.t -> string)
  (futures_symbol : FuturesPair.t -> result string)
  (repr_container : jval -> string)
  (klines_get_channel : Pair.t -> string -> result string)
  (order_book_get_channel : Pair.t -> Z -> result string)
  (trades_get_channel : Pair.t -> result string) :
  (forall cs : list SpotExchange.call,
     _channel_to_event_source
       (SpotExchange.run_calls venue decimal_log10 spot_symbol
          klines_get_channel order_book_get_channel trades_get_channel
          cs SpotExchange.__init__) = ∅)
  /\ (forall cs : list FuturesExchange.call,
     _channel_to_event_source
       (FuturesExchange.run_calls venue decimal_log10 futures_symbol
          repr_container klines_get_channel order_book_get_channel
          trades_get_channel cs FuturesExchange.__init__) = ∅).
Proof.
  split; intros cs.
  - rewrite RequestFacts.spot_run_calls_channel_field. reflexivity.
  - rewrite RequestFacts.futures_run_calls_channel_field. reflexivity.
Qed.

(** X12. Subscriptions never ask the venue for metadata, and a metadata
    call asks at most once: over a facade's life the number of
    [get_exchange_info] requests is at most the number of calls of
    [get_pair_info] and [get_pair]. *)
Theorem requests_bounded_by_metadata_calls (venue : venue_t)
  (decimal_log10 : Decimal -> result Decimal)
  (spot_symbol : Pair.t -> string)
  (futures_symbol : FuturesPair.t -> result string)
  (repr_container : jval -> string)
  (klines_get_channel : Pair.t -> string -> result string)
  (order_book_get_channel : Pair.t -> Z -> result string)
  (trades_get_channel : Pair.t -> result string) :
  (forall cs : list SpotExchange.call,
     (length (requests
        (SpotExchange.run_calls venue decimal_log10 spot_symbol
           klines_get_channel order_book_get_channel trades_get_channel
           cs SpotExchange.__init__))
      <= length (List.filter spot_is_metadata_call cs))%nat)
  /\ (forall cs : list FuturesExchange.call,
     (length (requests
        (FuturesExchange.run_calls venue decimal_log10 futures_symbol
           repr_container klines_get_channel order_book_get_channel
           trades_get_channel cs FuturesExchange.__init__))
      <= length (List.filter futures_is_metadata_call cs))%nat).
Proof.
  split; intros cs.
  - apply (RequestFacts.spot_run_calls_requests_le venue decimal_log10
             spot_symbol klines_get_channel order_book_get_channel
             trades_get_channel cs SpotExchange.__init__).
  - apply (RequestFacts.futures_run_calls_requests_le venue decimal_log10
             futures_symbol repr_container klines_get_channel
             order_book_get_channel trades_get_channel cs
             FuturesExchange.__init__).
Qed.

(** * Reading the catalog: filters and precisions *)

Module PrecisionFacts.

Import Decimal DecimalFacts DivFacts.

(** [int(d)] of a decimal that stands for an integer is that integer. *)
Lemma decimal_to_int_integer (d : Decimal) (z : Z) :
  (value d == inject_Z z)%Q -> decimal_to_int d = z.
Proof.
  destruct d as [c e]. unfold decimal_to_int. cbn [coef exp]. intros Hv.
  assert (Hz : (inject_Z z == value (mk z 0))%Q)
    by (unfold value; cbn; ring).
  rewrite Hz in Hv.
  destruct (Z.leb_spec 0 e) as [He|He].
  - symmetry in Hv. apply value_eq_scale in Hv; [|cbn; lia].
    cbn [coef exp] in Hv. injection Hv as ->. f_equal. f_equal. lia.
  - apply value_eq_scale in Hv; [|cbn; lia]. cbn [coef exp] in Hv.
    injection Hv as ->. replace (0 - e) with (- e) by lia.
    apply Z.quot_mul. pose proof (pow10_pos (- e) ltac:(lia)). lia.
Qed.

Lemma fits_of_Z (n : Z) : Z.abs n < 10 ^ prec -> fits (of_Z n).
Proof. intros H. exact H. Qed.

(** The quotient by the logarithm of ten, when the logarithm is an
    integer. *)
Lemma precision_of_integer_log (n : Z) :
  Z.abs n < 10 ^ prec ->
  (q ← div (fix_ (neg (of_Z n))) (of_Z 1); Ok (decimal_to_int q)) = Ok (- n).
Proof.
  intros Hn.
  assert (Hfit : fits (of_Z (- n))) by (unfold fits; cbn; lia).
  change (neg (of_Z n)) with (of_Z (- n)). rewrite (fix_fits _ Hfit).
  destruct (div_exact (of_Z (- n)) (of_Z 1) (of_Z (- n))) as (p & Hp & Hv).
  - cbn. lia.
  - exact Hfit.
  - unfold value. cbn. ring.
  - rewrite Hp. cbn [mbind result_bind]. f_equal.
    apply decimal_to_int_integer. rewrite Hv. unfold value. cbn. ring.
Qed.

End PrecisionFacts.

(** X13. [get_precision_from_step_size]: when the decimal library gives
    the logarithm of the step size as the integer [n] (as it does for a
    power of ten, exactly) and the logarithm of 10 as 1, the precision is
    [-n], whatever the number of digits the step size is written with. *)
Theorem get_precision_from_step_size_integer
  (decimal_log10 : Decimal -> result Decimal) (step_size : jval)
  (d : Decimal) (n : Z) :
  Decimal.of_json step_size = Ok d ->
  decimal_log10 d = Ok (Decimal.of_Z n) ->
  decimal_log10 (Decimal.of_Z 10) = Ok (Decimal.of_Z 1) ->
  Z.abs n < 10 ^ Decimal.prec ->
  get_precision_from_step_size decimal_log10 step_size = Ok (- n).
Proof.
  intros Hd Hl H10 Hn. unfold get_precision_from_step_size.
  rewrite Hd. cbn [mbind result_bind]. rewrite Hl. cbn [mbind result_bind].
  rewrite H10. cbn [mbind result_bind].
  apply PrecisionFacts.precision_of_integer_log. exact Hn.
Qed.

Lemma get_precision_from_step_size_integer_witness :
  get_precision_from_step_size sample_log10 (JStr "0.00100000") = Ok (- -3).
Proof.
  apply (get_precision_from_step_size_integer sample_log10 (JStr "0.00100000")
           (Decimal.mk 100000 (-8)) (-3)).
  - reflexivity.
  - reflexivity.
  - reflexivity.
  - reflexivity.
Defined.

Module FilterFacts.

Lemma filters_of_type_nil (filter_type : string) (items : list jval) :
  filters_of_type filter_type items = Ok [] ->
  Forall (filter_typed filter_type false) items.
Proof.
  unfold filters_of_type.
  induction items as [|x items IH]; intros H; [constructor|].
  cbn [filterM] in H.
  apply bind_Ok in H. destruct H as (b & Hb & H).
  apply bind_Ok in H. destruct H as (rest & Hrest & H).
  apply bind_Ok in Hb. destruct Hb as (t & Ht & Hb). injection Hb as <-.
  destruct (Json.eq_str t filter_type) eqn:Hty; [discriminate|].
  injection H as ->. constructor; [exists t; auto|apply IH; exact Hrest].
Qed.

Lemma filters_of_type_cons (filter_type : string) (items : list jval)
  (f : jval) (rest : list jval) :
  filters_of_type filter_type items = Ok (f :: rest) ->
  exists pre post,
    items = pre ++ f :: post
    /\ Forall (filter_typed filter_type false) pre
    /\ filter_typed filter_type true f
    /\ filters_of_type filter_type post = Ok rest.
Proof.
  unfold filters_of_type.
  induction items as [|x items IH]; intros H; [discriminate|].
  cbn [filterM] in H.
  apply bind_Ok in H. destruct H as (b & Hb & H).
  apply bind_Ok in H. destruct H as (l & Hl & H).
  apply bind_Ok in Hb. destruct Hb as (t & Ht & Hb). injection Hb as <-.
  destruct (Json.eq_str t filter_type) eqn:Hty.
  - injection H as -> ->. exists [], items.
    split; [reflexivity|]. split; [constructor|]. split; [exists t; auto|].
    exact Hl.
  - injection H as ->. destruct (IH Hl) as (pre & post & -> & Hpre & Hf & Hp).
    exists (x :: pre), post. split; [reflexivity|].
    split; [constructor; [exists t; auto|exact Hpre]|]. auto.
Qed.

(** The comprehension reads the type of every filter: one without a
    type ends it with the exception of the read. *)
Lemma filters_of_type_malformed (filter_type : string) (pre post : list jval)
  (x : jval) (e : exn) :
  Forall (fun y => is_ok (Json.getitem y "filterType") = true) pre ->
  Json.getitem x "filterType" = Raise e ->
  filters_of_type filter_type (pre ++ x :: post) = Raise e.
Proof.
  unfold filters_of_type. intros Hpre Hx.
  induction Hpre as [|y pre Hy _ IH]; cbn [app filterM].
  - rewrite Hx. reflexivity.
  - destruct (Json.getitem y "filterType"); [|discriminate].
    cbn [mbind result_bind]. rewrite IH. reflexivity.
Qed.

End FilterFacts.

(** X14. [get_filter_from_symbol_info] returns the first filter of the
    list whose "filterType" is the one asked for, and [None] when every
    filter is of another type. It reads the type of every filter of the
    list: one filter without "filterType", even after the one looked for,
    makes it raise. *)
Theorem get_filter_from_symbol_info_first (symbol_info : jval)
  (filter_type : string) (items : list jval) :
  Json.getitem symbol_info "filters" = Ok (JList items) ->
  (forall f, get_filter_from_symbol_info symbol_info filter_type = Ok f ->
     (f = JNull /\ Forall (filter_typed filter_type false) items)
     \/ exists pre post,
          items = pre ++ f :: post
          /\ Forall (filter_typed filter_type false) pre
          /\ filter_typed filter_type true f)
  /\ (forall pre x post e,
        items = pre ++ x :: post ->
        Forall (fun y => is_ok (Json.getitem y "filterType") = true) pre ->
        Json.getitem x "filterType" = Raise e ->
        get_filter_from_symbol_info symbol_info filter_type = Raise e).
Proof.
  intros Hf. unfold get_filter_from_symbol_info. rewrite Hf.
  cbn [mbind result_bind Json.iter]. split.
  - intros f H. inv_bind H. rename a into l. injection H as <-.
    destruct l as [|f rest].
    + left. split; [reflexivity|].
      apply FilterFacts.filters_of_type_nil. exact Ha.
    + right. apply FilterFacts.filters_of_type_cons in Ha.
      destruct Ha as (pre & post & -> & Hpre & Hty & _). eauto.
  - intros pre x post e -> Hpre Hx.
    rewrite (FilterFacts.filters_of_type_malformed filter_type pre post x e Hpre Hx).
    reflexivity.
Qed.

Lemma get_filter_from_symbol_info_first_witness :
  get_filter_from_symbol_info
    (Json.dict [("filters", JList
       [Json.dict [("filterType", JStr "LOT_SIZE"); ("stepSize", JStr "0.1")];
        Json.dict [("stepSize", JStr "0.01")]])])
    "LOT_SIZE"
  = Raise (KeyError "filterType").
Proof.
  apply (proj2 (get_filter_from_symbol_info_first
    (Json.dict [("filters", JList
       [Json.dict [("filterType", JStr "LOT_SIZE"); ("stepSize", JStr "0.1")];
        Json.dict [("stepSize", JStr "0.01")]])])
    "LOT_SIZE" _ eq_refl)
    [Json.dict [("filterType", JStr "LOT_SIZE"); ("stepSize", JStr "0.1")]]
    (Json.dict [("stepSize", JStr "0.01")]) []).
  - reflexivity.
  - repeat constructor.
  - reflexivity.
Defined.

(** X15. What [get_pair_info] says when the catalog does not hold exactly
    one entry for the pair. [SpotExchange] reports any number of symbols
    other than one, none included, as "More than 1 symbol found";
    [FuturesExchange] reports no matching entry as "Symbol not found" and
    several as "More than 1 symbol found". Both are assertion errors. *)
Theorem get_pair_info_symbol_count (decimal_log10 : Decimal -> result Decimal)
  (futures_symbol : FuturesPair.t -> result string)
  (repr_container : jval -> string) (exchange_info symbols : jval) :
  Json.getitem exchange_info "symbols" = Ok symbols ->
  (forall (p : Pair.t) (n : Z),
     Json.len symbols = Ok n -> n <> 1 ->
     SpotExchange.pair_info_of decimal_log10 p exchange_info
     = Raise (AssertionError "More than 1 symbol found"))
  /\ (forall (fp : FuturesPair.t) (items matches : list jval),
     Json.iter symbols = Ok items ->
     filterM (FuturesExchange.get_pair_info_matches futures_symbol fp) items
       = Ok matches ->
     length matches <> 1%nat ->
     FuturesExchange.pair_info_of decimal_log10 futures_symbol repr_container
       fp exchange_info
     = Raise (AssertionError
                (if Nat.eqb (length matches) 0 then "Symbol not found"
                 else "More than 1 symbol found"))).
Proof.
  intros Hs. split.
  - intros p n Hn Hne. unfold SpotExchange.pair_info_of.
    rewrite Hs. cbn [mbind result_bind]. rewrite Hn. cbn [mbind result_bind].
    destruct (Z.eqb_spec n 1); [contradiction|]. reflexivity.
  - intros fp items matches Hi Hm Hne. unfold FuturesExchange.pair_info_of.
    rewrite Hs. cbn [mbind result_bind]. rewrite Hi. cbn [mbind result_bind].
    rewrite Hm. cbn [mbind result_bind].
    destruct matches as [|x [|y rest]]; [reflexivity|contradiction|].
    cbn [length Nat.eqb] in *.
    destruct (Z.ltb_spec 0 (Z.of_nat (S (S (length rest))))); [|lia].
    destruct (Z.eqb_spec (Z.of_nat (S (S (length rest)))) 1); [lia|].
    reflexivity.
Qed.

Lemma get_pair_info_symbol_count_witness :
  SpotExchange.pair_info_of sample_log10 sample_pair
    (Json.dict [("symbols", JList [])])
  = Raise (AssertionError "More than 1 symbol found").
Proof.
  apply (proj1 (get_pair_info_symbol_count sample_log10
                  sample_futures_pair_to_order_book_symbol sample_repr_container
                  (Json.dict [("symbols", JList [])]) (JList []) eq_refl)
           sample_pair 0).
  - reflexivity.
  - lia.
Defined.

(** * More on the legs of an OCO group *)

Module OCOLegFacts.

Import OCOOrderWrapper.

Section WithRepr.

Variable repr_container : jval -> string.

(** The first id of the list is the id of the first report of the
    types. *)
Lemma order_ids_head (types : list string) (reports : list jval)
  (a : string) (ids : list string) :
  order_ids repr_container types reports = Ok (a :: ids) ->
  exists (i : nat) (x id : jval),
    reports !! i = Some x
    /\ has_type types x = true
    /\ Json.getitem x "orderId" = Ok id
    /\ a = py_str repr_container id
    /\ forall (j : nat) (y : jval),
         (j < i)%nat -> reports !! j = Some y -> has_type types y = false.
Proof.
  induction reports as [|order rest IH]; intros H; [discriminate|].
  cbn [order_ids] in H.
  apply bind_Ok in H. destruct H as (ty & Hty & H).
  destruct (type_in ty types) eqn:Hin.
  - apply bind_Ok in H. destruct H as (oid & Hoid & H).
    apply bind_Ok in H. destruct H as (ids' & _ & H).
    injection H as <- _.
    exists 0%nat, order, oid. split; [reflexivity|].
    split; [unfold has_type; rewrite Hty; exact Hin|].
    split; [exact Hoid|]. split; [reflexivity|]. intros j y Hj. lia.
  - destruct (IH H) as (i & x & id & Hi & Hx & Hid & Ha & Hbefore).
    exists (S i), x, id. split; [exact Hi|]. split; [exact Hx|].
    split; [exact Hid|]. split; [exact Ha|].
    intros [|j] y Hj Hy.
    + injection Hy as <-. unfold has_type. rewrite Hty. exact Hin.
    + apply (Hbefore j y); [lia|exact Hy].
Qed.

(** A report without a type ends the comprehension with an
    exception. *)
Lemma order_ids_untyped (types : list string) (reports : list jval) :
  Exists (fun r => is_ok (Json.getitem r "type") = false) reports ->
  fails (order_ids repr_container types reports).
Proof.
  induction reports as [|order rest IH]; intros H; [inversion H|].
  cbn [order_ids].
  destruct (Json.getitem order "type") as [ty|e] eqn:Hty;
    [|eexists; reflexivity].
  cbn [mbind result_bind].
  assert (Hrest : fails (order_ids repr_container types rest)).
  { apply IH. inversion H as [? ? Hh|? ? Ht]; subst; [|exact Ht].
    rewrite Hty in Hh. discriminate. }
  destruct Hrest as [e He].
  destruct (type_in ty types); [|eexists; exact He].
  destruct (Json.getitem order "orderId"); cbn [mbind result_bind];
    [rewrite He|]; eexists; reflexivity.
Qed.

Lemma leg_order_id_head (types : list string) (o : t) (reports : list jval)
  (a : string) :
  leg_reports o = Ok reports ->
  leg_order_id repr_container types o = Ok a ->
  exists (i : nat) (x id : jval),
    reports !! i = Some x
    /\ has_type types x = true
    /\ Json.getitem x "orderId" = Ok id
    /\ a = py_str repr_container id
    /\ forall (j : nat) (y : jval),
         (j < i)%nat -> reports !! j = Some y -> has_type types y = false.
Proof.
  intros Hr H. rewrite (OCOFacts.leg_order_id_unfold _ _ _ _ Hr) in H.
  apply bind_Ok in H. destruct H as (ids & Hids & H).
  destruct ids as [|a' ids]; [discriminate|]. injection H as ->.
  exact (order_ids_head types reports a ids Hids).
Qed.

Lemma leg_order_id_untyped (types : list string) (o : t)
  (reports : list jval) :
  leg_reports o = Ok reports ->
  Exists (fun r => is_ok (Json.getitem r "type") = false) reports ->
  fails (leg_order_id repr_container types o).
Proof.
  intros Hr H. rewrite (OCOFacts.leg_order_id_unfold _ _ _ _ Hr).
  destruct (order_ids_untyped types reports H) as [e ->].
  eexists. reflexivity.
Qed.

End WithRepr.

(** No report is of a limit type and of a stop type. *)
Lemma limit_stop_disjoint (x : jval) :
  has_type limit_types x = true -> has_type stop_types x = true -> False.
Proof.
  unfold has_type. destruct (Json.getitem x "type") as [ty|]; [|discriminate].
  unfold type_in, limit_types, stop_types. cbn [existsb].
  destruct ty as [| | |s| |]; cbn [Json.eq_str]; try discriminate.
  rewrite !orb_false_r. intros H1 H2.
  apply orb_true_iff in H1. apply orb_true_iff in H2.
  destruct H1 as [H1|H1], H2 as [H2|H2];
    apply String.eqb_eq in H1; apply String.eqb_eq in H2; congruence.
Qed.

End OCOLegFacts.

(** X16. With several legs of a type among the reports, the lookup takes
    the first: when [limit_order_id] (or [stop_loss_order_id]) returns, its
    value is the text of the "orderId" of a report of a limit type (of a
    stop type) before which no report is of that type. *)
Theorem OCO_first_leg_wins (repr_container : jval -> string)
  (o : OCOOrderWrapper.t) (reports : list jval) (a : string) :
  leg_reports o = Ok reports ->
  (OCOOrderWrapper.limit_order_id repr_container o = Ok a ->
   exists (i : nat) (x id : jval),
     reports !! i = Some x
     /\ has_type limit_types x = true
     /\ Json.getitem x "orderId" = Ok id
     /\ a = py_str repr_container id
     /\ forall (j : nat) (y : jval),
          (j < i)%nat -> reports !! j = Some y -> has_type limit_types y = false)
  /\ (OCOOrderWrapper.stop_loss_order_id repr_container o = Ok a ->
   exists (i : nat) (x id : jval),
     reports !! i = Some x
     /\ has_type stop_types x = true
     /\ Json.getitem x "orderId" = Ok id
     /\ a = py_str repr_container id
     /\ forall (j : nat) (y : jval),
          (j < i)%nat -> reports !! j = Some y -> has_type stop_types y = false).
Proof.
  intros Hr. split; intros H.
  - exact (OCOLegFacts.leg_order_id_head repr_container limit_types o reports a Hr H).
  - exact (OCOLegFacts.leg_order_id_head repr_container stop_types o reports a Hr H).
Qed.

Lemma OCO_first_leg_wins_witness :
  exists (i : nat) (x id : jval),
    [sample_limit_leg; sample_stop_leg;
     Json.dict [("orderId", JInt 9); ("type", JStr "LIMIT")]] !! i = Some x
    /\ has_type limit_types x = true
    /\ Json.getitem x "orderId" = Ok id
    /\ "5" = py_str sample_repr_container id
    /\ forall (j : nat) (y : jval),
         (j < i)%nat ->
         [sample_limit_leg; sample_stop_leg;
          Json.dict [("orderId", JInt 9); ("type", JStr "LIMIT")]] !! j = Some y ->
         has_type limit_types y = false.
Proof.
  apply (proj1 (OCO_first_leg_wins sample_repr_container
    (OCOOrderWrapper.mk (Json.dict [("orderReports", JList
       [sample_limit_leg; sample_stop_leg;
        Json.dict [("orderId", JInt 9); ("type", JStr "LIMIT")]])]))
    _ "5" eq_refl)).
  vm_compute. reflexivity.
Defined.

(** X17. The comprehension reads the type of every report, so one report
    without a "type" makes both lookups raise, whatever legs the other
    reports hold. *)
Theorem OCO_untyped_report_fails (repr_container : jval -> string)
  (o : OCOOrderWrapper.t) (reports : list jval) :
  leg_reports o = Ok reports ->
  Exists (fun r => is_ok (Json.getitem r "type") = false) reports ->
  fails (OCOOrderWrapper.limit_order_id repr_container o)
  /\ fails (OCOOrderWrapper.stop_loss_order_id repr_container o).
Proof.
  intros Hr H. split.
  - exact (OCOLegFacts.leg_order_id_untyped repr_container limit_types o reports Hr H).
  - exact (OCOLegFacts.leg_order_id_untyped repr_container stop_types o reports Hr H).
Qed.

Lemma OCO_untyped_report_fails_witness :
  fails (OCOOrderWrapper.limit_order_id sample_repr_container
           (OCOOrderWrapper.mk (Json.dict [("orderReports", JList
              [sample_limit_leg; sample_stop_leg;
               Json.dict [("orderId", JInt 9)]])])))
  /\ fails (OCOOrderWrapper.stop_loss_order_id sample_repr_container
           (OCOOrderWrapper.mk (Json.dict [("orderReports", JList
              [sample_limit_leg; sample_stop_leg;
               Json.dict [("orderId", JInt 9)]])]))).
Proof.
  apply (OCO_untyped_report_fails sample_repr_container _
           [sample_limit_leg; sample_stop_leg; Json.dict [("orderId", JInt 9)]]).
  - reflexivity.
  - apply Exists_cons_tl, Exists_cons_tl, Exists_cons_hd. reflexivity.
Defined.

(** X18. The two lookups never read the same report: when both
    [limit_order_id] and [stop_loss_order_id] return, their values are the
    ids of two reports at different places of the list. *)
Theorem OCO_legs_distinct (repr_container : jval -> string)
  (o : OCOOrderWrapper.t) (reports : list jval) (a b : string) :
  leg_reports o = Ok reports ->
  OCOOrderWrapper.limit_order_id repr_container o = Ok a ->
  OCOOrderWrapper.stop_loss_order_id repr_container o = Ok b ->
  exists (i j : nat) (x y idx idy : jval),
    i <> j
    /\ reports !! i = Some x /\ reports !! j = Some y
    /\ Json.getitem x "orderId" = Ok idx /\ Json.getitem y "orderId" = Ok idy
    /\ a = py_str repr_container idx /\ b = py_str repr_container idy.
Proof.
  intros Hr Ha Hb.
  destruct (OCOLegFacts.leg_order_id_head repr_container limit_types o reports
              a Hr Ha) as (i & x & idx & Hi & Hx & Hidx & -> & _).
  destruct (OCOLegFacts.leg_order_id_head repr_container stop_types o reports
              b Hr Hb) as (j & y & idy & Hj & Hy & Hidy & -> & _).
  exists i, j, x, y, idx, idy. split; [|auto 10].
  intros ->. rewrite Hi in Hj. injection Hj as <-.
  exact (OCOLegFacts.limit_stop_disjoint x Hx Hy).
Qed.

Lemma OCO_legs_distinct_witness :
  exists (i j : nat) (x y idx idy : jval),
    i <> j
    /\ [sample_stop_leg; sample_limit_leg] !! i = Some x
    /\ [sample_stop_leg; sample_limit_leg] !! j = Some y
    /\ Json.getitem x "orderId" = Ok idx /\ Json.getitem y "orderId" = Ok idy
    /\ "5" = py_str sample_repr_container idx
    /\ "4" = py_str sample_repr_container idy.
Proof.
  apply (OCO_legs_distinct sample_repr_container sample_oco_order
           [sample_stop_leg; sample_limit_leg] "5" "4").
  - reflexivity.
  - vm_compute. reflexivity.
  - vm_compute. reflexivity.
Defined.

(** * More on the fees and the amounts of an order *)

Module FeeFacts.

Import OrderInfo.









End FeeFacts.



(** X20. Reading the fee of an asset writes it: [fees] is a
    [defaultdict], so after [fees[a]] the asset [a] is a key of the
    dictionary, with the fee zero when it was not one before; the other
    entries are as before, and a second read gives the same value and
    changes nothing. *)
Theorem OrderInfo_fees_read_stores_key (o : OrderInfo.t) (a : pykey) :
  let v := (OrderInfo.fees_getitem o a).1 in
  let o' := (OrderInfo.fees_getitem o a).2 in
  dom (OrderInfo.fees o') = {[a]} ∪ dom (OrderInfo.fees o)
  /\ OrderInfo.fees o' !! a = Some v
  /\ (OrderInfo.fees o !! a = None -> v = Decimal.zero)
  /\ (forall b, b <> a -> OrderInfo.fees o' !! b = OrderInfo.fees o !! b)
  /\ OrderInfo.fees_getitem o' a = (v, o').
Proof.
  cbn zeta. unfold OrderInfo.fees_getitem, OrderInfo.defaultdict_getitem.
  destruct o as [j T fees]. cbn [OrderInfo.fees OrderInfo._fees
    OrderInfo.json OrderInfo.trades].
  destruct (fees !! a) as [v|] eqn:Ha;
    cbn [fst snd OrderInfo.fees OrderInfo._fees OrderInfo.json OrderInfo.trades].
  - rewrite Ha. split; [|split; [reflexivity|split; [discriminate|auto]]].
    apply set_eq. intros b. rewrite elem_of_union, elem_of_singleton.
    split; [auto|]. intros [->|H]; [|exact H]. apply elem_of_dom. eauto.
  - rewrite lookup_insert_eq. split; [apply dom_insert_L|].
    split; [reflexivity|]. split; [reflexivity|]. split; [|reflexivity].
    intros b Hb. apply lookup_insert_ne. congruence.
Qed.





(** * Order requests and the futures account *)

Module AccountFacts.

Section WithCollaborators.

Variable cli : account_cli.
Variable pair_to_order_book_symbol : FuturesPair.t -> result string.
Variable order_operation_to_side : OrderOperation.t -> result string.
Variable int_of_str : string -> result Z.

Local Abbreviation log_t := (list account_request).

(** [create_order] of an order request, by what its steps give. *)
Lemma request_create_order_spec (o : ExchangeOrder.t) (log : log_t) :
  ExchangeOrder.create_order pair_to_order_book_symbol
    order_operation_to_side o cli log
  = match pair_to_order_book_symbol (ExchangeOrder._pair o) with
    | Raise e => (Raise e, log)
    | Ok symbol =>
        match order_operation_to_side (ExchangeOrder._operation o) with
        | Raise e => (Raise e, log)
        | Ok side =>
            match call_keywords (ExchangeOrder.own_keywords o)
                    (ExchangeOrder._kwargs o) with
            | Raise e => (Raise e, log)
            | Ok keywords =>
                let r := ReqCreateOrder symbol side
                           (ExchangeOrder.order_type o) keywords in
                (cli log r, log ++ [r])
            end
        end
    end.
Proof.
  unfold ExchangeOrder.create_order. cbv [mbind M_bind lift account_call].
  destruct (pair_to_order_book_symbol _); [|reflexivity].
  destruct (order_operation_to_side _); [|reflexivity].
  destruct (call_keywords _ _); reflexivity.
Qed.

Lemma account_create_order_spec (o : ExchangeOrder.t) (log : log_t) :
  Account.create_order cli pair_to_order_book_symbol
    order_operation_to_side o log
  = match pair_to_order_book_symbol (ExchangeOrder._pair o) with
    | Raise e => (Raise e, log)
    | Ok symbol =>
        match order_operation_to_side (ExchangeOrder._operation o) with
        | Raise e => (Raise e, log)
        | Ok side =>
            match call_keywords (ExchangeOrder.own_keywords o)
                    (ExchangeOrder._kwargs o) with
            | Raise e => (Raise e, log)
            | Ok keywords =>
                let r := ReqCreateOrder symbol side
                           (ExchangeOrder.order_type o) keywords in
                (j ← cli log r; Ok (CreatedOrder.mk j), log ++ [r])
            end
        end
    end.
Proof.
  unfold Account.create_order. cbv [mbind M_bind mret M_ret].
  rewrite request_create_order_spec.
  destruct (pair_to_order_book_symbol _); [|reflexivity].
  destruct (order_operation_to_side _); [|reflexivity].
  destruct (call_keywords _ _); [|reflexivity].
  cbn zeta. destruct (cli _ _); reflexivity.
Qed.

(** The keywords of a call: a keyword given twice, or all of them. *)
Lemma call_keywords_duplicate (explicit : list (string * arg))
  (kwargs : gmap string arg) (k : string) :
  k ∈ explicit.*1 -> is_Some (kwargs !! k) ->
  call_keywords explicit kwargs
  = Raise (TypeError "got multiple values for keyword argument").
Proof.
  intros Hk [v Hv]. unfold call_keywords.
  destruct (forallb _ explicit) eqn:Hall; [|reflexivity].
  rewrite forallb_forall in Hall.
  apply list_elem_of_fmap in Hk as ([k' a] & -> & Hin).
  apply list_elem_of_In, Hall in Hin. cbn [fst] in Hin, Hv.
  apply bool_decide_eq_true in Hin. congruence.
Qed.

Lemma call_keywords_Ok (explicit : list (string * arg))
  (kwargs : gmap string arg) :
  (forall k, k ∈ explicit.*1 -> kwargs !! k = None) ->
  call_keywords explicit kwargs = Ok (list_to_map explicit ∪ kwargs).
Proof.
  intros H. unfold call_keywords.
  destruct (forallb _ explicit) eqn:Hall; [reflexivity|].
  apply not_true_iff_false in Hall. contradiction Hall.
  apply forallb_forall. intros [k a] Hin. apply bool_decide_eq_true.
  apply H. apply list_elem_of_fmap. exists (k, a).
  split; [reflexivity|apply list_elem_of_In; exact Hin].
Qed.

Lemma own_keywords_NoDup (o : ExchangeOrder.t) :
  NoDup (ExchangeOrder.own_keywords o).*1.
Proof.
  destruct o; cbn [ExchangeOrder.own_keywords fmap list_fmap fst];
    apply (bool_decide_unpack _); vm_compute; exact I.
Qed.

Lemma order_id_arg_spec (order_id : option string) :
  Account.order_id_arg int_of_str order_id
  = match order_id with
    | None => Ok None
    | Some s =>
        match int_of_str s with
        | Ok n => Ok (Some n)
        | Raise e => Raise e
        end
    end.
Proof.
  destruct order_id as [s|]; [|reflexivity]. cbn.
  destruct (int_of_str s); reflexivity.
Qed.

(** [get_order_info], by what its steps give. *)
Lemma get_order_info_spec (pair : FuturesPair.t)
  (order_id client_order_id : option string) (include_trades : bool)
  (log : log_t) :
  Account.get_order_info cli pair_to_order_book_symbol int_of_str pair
    order_id client_order_id include_trades log
  = match pair_to_order_book_symbol pair with
    | Raise e => (Raise e, log)
    | Ok symbol =>
        match Account.order_id_arg int_of_str order_id with
        | Raise e => (Raise e, log)
        | Ok oid =>
            let q := ReqQueryOrder symbol oid client_order_id in
            match cli log q with
            | Raise e => (Raise e, log ++ [q])
            | Ok order_info =>
                if include_trades then
                  match Json.getitem order_info "orderId" with
                  | Raise e => (Raise e, log ++ [q])
                  | Ok id =>
                      let t := ReqGetTrades symbol id in
                      (answer ← cli (log ++ [q]) t;
                       items ← Json.iter answer;
                       OrderInfo.__init__ order_info (Trade.mk <$> items),
                       (log ++ [q]) ++ [t])
                  end
                else (OrderInfo.__init__ order_info [], log ++ [q])
            end
        end
    end.
Proof.
  unfold Account.get_order_info.
  cbv [mbind M_bind mret M_ret lift account_call].
  destruct (pair_to_order_book_symbol pair); [|reflexivity].
  destruct (Account.order_id_arg int_of_str order_id); [|reflexivity].
  cbn zeta. destruct (cli log _) as [info|]; [|reflexivity].
  destruct include_trades; [|reflexivity].
  destruct (Json.getitem info "orderId"); [|reflexivity].
  destruct (cli (log ++ _) _) as [answer|]; [|reflexivity].
  cbn [result_bind]. destruct (Json.iter answer); reflexivity.
Qed.

Lemma cancel_order_spec (pair : FuturesPair.t)
  (order_id client_order_id : option string) (log : log_t) :
  Account.cancel_order cli pair_to_order_book_symbol int_of_str pair
    order_id client_order_id log
  = match pair_to_order_book_symbol pair with
    | Raise e => (Raise e, log)
    | Ok symbol =>
        match Account.order_id_arg int_of_str order_id with
        | Raise e => (Raise e, log)
        | Ok oid =>
            let r := ReqCancelOrder symbol oid client_order_id in
            (cli log r, log ++ [r])
        end
    end.
Proof.
  unfold Account.cancel_order. cbv [mbind M_bind lift account_call].
  destruct (pair_to_order_book_symbol pair); [|reflexivity].
  destruct (Account.order_id_arg int_of_str order_id); reflexivity.
Qed.

Lemma get_open_orders_spec (pair : option FuturesPair.t) (log : log_t) :
  Account.get_open_orders cli pair_to_order_book_symbol pair log
  = match pair with
    | None =>
        (cli log (ReqGetOpenOrders None) ≫= Json.iter,
         log ++ [ReqGetOpenOrders None])
    | Some p =>
        match pair_to_order_book_symbol p with
        | Raise e => (Raise e, log)
        | Ok symbol =>
            (cli log (ReqGetOpenOrders (Some symbol)) ≫= Json.iter,
             log ++ [ReqGetOpenOrders (Some symbol)])
        end
    end.
Proof.
  unfold Account.get_open_orders.
  cbv [mbind M_bind mret M_ret lift account_call].
  destruct pair as [p|].
  - destruct (pair_to_order_book_symbol p); [|reflexivity].
    destruct (cli log _); reflexivity.
  - destruct (cli log _); reflexivity.
Qed.

End WithCollaborators.

End AccountFacts.

(** X23. A keyword given twice stops an order before it is sent. When the
    extra keyword arguments of an order request hold one of the keywords the
    request passes itself (such as "quantity"), creating the order raises
    and no call reaches the account client; with the pair and the operation
    translated, the exception is the [TypeError] of the call. *)
Theorem create_order_duplicate_keyword (cli : account_cli)
  (pair_to_order_book_symbol : FuturesPair.t -> result string)
  (order_operation_to_side : OrderOperation.t -> result string)
  (o : ExchangeOrder.t) (k : string) (log : list account_request) :
  k ∈ own_keys o ->
  is_Some (ExchangeOrder._kwargs o !! k) ->
  (exists e, Account.create_order cli pair_to_order_book_symbol
               order_operation_to_side o log = (Raise e, log))
  /\ (is_ok (pair_to_order_book_symbol (ExchangeOrder._pair o)) = true ->
      is_ok (order_operation_to_side (ExchangeOrder._operation o)) = true ->
      exists msg,
        Account.create_order cli pair_to_order_book_symbol
          order_operation_to_side o log
        = (Raise (TypeError msg), log)).
Proof.
  intros Hk Hv. rewrite AccountFacts.account_create_order_spec.
  rewrite (AccountFacts.call_keywords_duplicate _ _ k Hk Hv).
  destruct (pair_to_order_book_symbol _); [|split; [eauto|discriminate]].
  destruct (order_operation_to_side _); [|split; [eauto|discriminate]].
  split; eauto.
Qed.

Lemma create_order_duplicate_keyword_witness :
  exists msg,
    Account.create_order sample_account_cli
      sample_futures_pair_to_order_book_symbol sample_order_operation_to_side
      (ExchangeOrder.MarketOrder OrderOperation.BUY sample_futures_pair
         (Decimal.mk 15 (-1)) None {[ "quantity" := ArgDecimal (Decimal.mk 2 0) ]})
      []
    = (Raise (TypeError msg), []).
Proof.
  apply (proj2 (create_order_duplicate_keyword sample_account_cli
    sample_futures_pair_to_order_book_symbol sample_order_operation_to_side
    (ExchangeOrder.MarketOrder OrderOperation.BUY sample_futures_pair
       (Decimal.mk 15 (-1)) None {[ "quantity" := ArgDecimal (Decimal.mk 2 0) ]})
    "quantity" [] ltac:(vm_compute; left) ltac:(eexists; reflexivity))).
  - reflexivity.
  - reflexivity.
Defined.

(** X24. An order request that is sent is sent once, with the order type
    of its class and with all its keywords: the account client gets one
    [create_order] call for the symbol and the side the helpers give, the
    keywords the request passes itself each with its value, and every extra
    keyword argument forwarded as it was given; nothing else is passed. The
    created order wraps the client's answer. *)
Theorem create_order_request (cli : account_cli)
  (pair_to_order_book_symbol : FuturesPair.t -> result string)
  (order_operation_to_side : OrderOperation.t -> result string)
  (o : ExchangeOrder.t) (symbol side : string) (log : list account_request) :
  pair_to_order_book_symbol (ExchangeOrder._pair o) = Ok symbol ->
  order_operation_to_side (ExchangeOrder._operation o) = Ok side ->
  (forall k, k ∈ own_keys o -> ExchangeOrder._kwargs o !! k = None) ->
  exists keywords,
    let r := ReqCreateOrder symbol side (ExchangeOrder.order_type o) keywords in
    Account.create_order cli pair_to_order_book_symbol order_operation_to_side
      o log
    = (j ← cli log r; Ok (CreatedOrder.mk j), log ++ [r])
    /\ (forall k v, (k, v) ∈ ExchangeOrder.own_keywords o ->
          keywords !! k = Some v)
    /\ (forall k v, ExchangeOrder._kwargs o !! k = Some v ->
          keywords !! k = Some v)
    /\ (forall k, is_Some (keywords !! k) ->
          k ∈ own_keys o \/ is_Some (ExchangeOrder._kwargs o !! k)).
Proof.
  intros Hs Hd Hnone.
  exists (list_to_map (ExchangeOrder.own_keywords o) ∪ ExchangeOrder._kwargs o).
  cbn zeta. split; [|split; [|split]].
  - rewrite AccountFacts.account_create_order_spec, Hs, Hd.
    rewrite (AccountFacts.call_keywords_Ok _ _ Hnone). reflexivity.
  - intros k v Hin. apply lookup_union_Some_l.
    apply elem_of_list_to_map_1; [apply AccountFacts.own_keywords_NoDup|exact Hin].
  - intros k v Hk. rewrite lookup_union_r; [exact Hk|].
    apply not_elem_of_list_to_map_1. intros Hin.
    specialize (Hnone k Hin). congruence.
  - intros k [v Hv]. apply lookup_union_Some_raw in Hv as [Hv|[_ Hv]]; [|eauto].
    left. apply elem_of_list_to_map_2 in Hv.
    unfold own_keys. apply list_elem_of_fmap. exists (k, v). auto.
Qed.

Lemma create_order_request_witness :
  exists keywords,
    let r := ReqCreateOrder "ABCUSDT" "SELL" "STOP" keywords in
    Account.create_order sample_account_cli
      sample_futures_pair_to_order_book_symbol sample_order_operation_to_side
      (ExchangeOrder.StopLimitOrder OrderOperation.SELL sample_futures_pair
         (Decimal.mk 15 (-1)) (Decimal.mk 99 0) (Decimal.mk 98 0) "GTC"
         (Some "x1") {[ "reduce_only" := ArgStr "true" ]}) []
    = (j ← sample_account_cli [] r; Ok (CreatedOrder.mk j), [] ++ [r])
    /\ (forall k v,
          (k, v) ∈ ExchangeOrder.own_keywords
            (ExchangeOrder.StopLimitOrder OrderOperation.SELL sample_futures_pair
               (Decimal.mk 15 (-1)) (Decimal.mk 99 0) (Decimal.mk 98 0) "GTC"
               (Some "x1") {[ "reduce_only" := ArgStr "true" ]}) ->
          keywords !! k = Some v)
    /\ (forall k v,
          ExchangeOrder._kwargs
            (ExchangeOrder.StopLimitOrder OrderOperation.SELL sample_futures_pair
               (Decimal.mk 15 (-1)) (Decimal.mk 99 0) (Decimal.mk 98 0) "GTC"
               (Some "x1") {[ "reduce_only" := ArgStr "true" ]}) !! k = Some v ->
          keywords !! k = Some v)
    /\ (forall k, is_Some (keywords !! k) ->
          k ∈ own_keys
            (ExchangeOrder.StopLimitOrder OrderOperation.SELL sample_futures_pair
               (Decimal.mk 15 (-1)) (Decimal.mk 99 0) (Decimal.mk 98 0) "GTC"
               (Some "x1") {[ "reduce_only" := ArgStr "true" ]})
          \/ is_Some (ExchangeOrder._kwargs
            (ExchangeOrder.StopLimitOrder OrderOperation.SELL sample_futures_pair
               (Decimal.mk 15 (-1)) (Decimal.mk 99 0) (Decimal.mk 98 0) "GTC"
               (Some "x1") {[ "reduce_only" := ArgStr "true" ]}) !! k)).
Proof.
  apply (create_order_request sample_account_cli
    sample_futures_pair_to_order_book_symbol sample_order_operation_to_side
    (ExchangeOrder.StopLimitOrder OrderOperation.SELL sample_futures_pair
       (Decimal.mk 15 (-1)) (Decimal.mk 99 0) (Decimal.mk 98 0) "GTC"
       (Some "x1") {[ "reduce_only" := ArgStr "true" ]})
    "ABCUSDT" "SELL" []).
  - reflexivity.
  - reflexivity.
  - intros k Hk. vm_compute in Hk.
    repeat (apply elem_of_cons in Hk as [->|Hk]; [reflexivity|]).
    inversion Hk.
Defined.

(** X25. The three ways to create an order on the futures account differ
    by the order type and the keywords sent, when the extra keyword
    arguments repeat none of them: a market order is sent as "MARKET" with
    the quantity and no price or time in force of its own; a limit order as
    "LIMIT" with quantity, price and time in force; a stop limit order as
    "STOP" with quantity, stop price, price and time in force. A time in
    force left out is sent as "GTC". *)
Theorem Account_create_order_kinds (cli : account_cli)
  (pair_to_order_book_symbol : FuturesPair.t -> result string)
  (order_operation_to_side : OrderOperation.t -> result string)
  (operation : OrderOperation.t) (pair : FuturesPair.t)
  (amount stop_price limit_price : Decimal)
  (time_in_force client_order_id : option string)
  (symbol side : string) (log : list account_request) :
  pair_to_order_book_symbol pair = Ok symbol ->
  order_operation_to_side operation = Ok side ->
  log_after (Account.create_market_order cli pair_to_order_book_symbol
               order_operation_to_side operation pair amount client_order_id ∅)
    log
  = log ++ [ReqCreateOrder symbol side "MARKET"
              (list_to_map
                 [("quantity", ArgDecimal amount);
                  ("new_client_order_id", arg_of_option_str client_order_id)])]
  /\ log_after (Account.create_limit_order cli pair_to_order_book_symbol
                  order_operation_to_side operation pair amount limit_price
                  time_in_force client_order_id ∅) log
     = log ++ [ReqCreateOrder symbol side "LIMIT"
                 (list_to_map
                    [("quantity", ArgDecimal amount);
                     ("price", ArgDecimal limit_price);
                     ("time_in_force", ArgStr (default "GTC" time_in_force));
                     ("new_client_order_id", arg_of_option_str client_order_id)])]
  /\ log_after (Account.create_stop_limit_order cli pair_to_order_book_symbol
                  order_operation_to_side operation pair amount stop_price
                  limit_price time_in_force client_order_id ∅) log
     = log ++ [ReqCreateOrder symbol side "STOP"
                 (list_to_map
                    [("quantity", ArgDecimal amount);
                     ("stop_price", ArgDecimal stop_price);
                     ("price", ArgDecimal limit_price);
                     ("time_in_force", ArgStr (default "GTC" time_in_force));
                     ("new_client_order_id", arg_of_option_str client_order_id)])].
Proof.
  intros Hs Hd.
  unfold log_after, Account.create_market_order, Account.create_limit_order,
    Account.create_stop_limit_order.
  rewrite !AccountFacts.account_create_order_spec.
  cbn [ExchangeOrder._pair ExchangeOrder._operation ExchangeOrder._kwargs
       ExchangeOrder.own_keywords ExchangeOrder.order_type].
  rewrite Hs, Hd.
  rewrite !AccountFacts.call_keywords_Ok by (intros; apply lookup_empty).
  cbn zeta. cbn [snd]. rewrite !(right_id_L ∅ (∪)). auto.
Qed.

Lemma Account_create_order_kinds_witness :
  log_after (Account.create_limit_order sample_account_cli
               sample_futures_pair_to_order_book_symbol
               sample_order_operation_to_side OrderOperation.BUY
               sample_futures_pair (Decimal.mk 15 (-1)) (Decimal.mk 98 0)
               None (Some "x1") ∅) []
  = [] ++ [ReqCreateOrder "ABCUSDT" "BUY" "LIMIT"
             (list_to_map
                [("quantity", ArgDecimal (Decimal.mk 15 (-1)));
                 ("price", ArgDecimal (Decimal.mk 98 0));
                 ("time_in_force", ArgStr (default "GTC" None));
                 ("new_client_order_id", arg_of_option_str (Some "x1"))])].
Proof.
  apply (proj1 (proj2 (Account_create_order_kinds sample_account_cli
    sample_futures_pair_to_order_book_symbol sample_order_operation_to_side
    OrderOperation.BUY sample_futures_pair (Decimal.mk 15 (-1))
    (Decimal.mk 99 0) (Decimal.mk 98 0) None (Some "x1") "ABCUSDT" "BUY" []
    eq_refl eq_refl))).
Defined.

(** X26. [Account.get_order_info] asks the account client once for the
    order, with both ids as they were given, and, only when trades are to
    be included, a second time for the trades of the order id the first
    answer carries. Without trades the order info has no trades and no
    fees. With trades, it holds the entries of the second answer in their
    order. *)
Theorem Account_get_order_info_requests (cli : account_cli)
  (pair_to_order_book_symbol : FuturesPair.t -> result string)
  (int_of_str : string -> result Z)
  (pair : FuturesPair.t) (order_id client_order_id : option string)
  (symbol : string) (oid : option Z) (order_info : jval)
  (log : list account_request) :
  pair_to_order_book_symbol pair = Ok symbol ->
  Account.order_id_arg int_of_str order_id = Ok oid ->
  cli log (ReqQueryOrder symbol oid client_order_id) = Ok order_info ->
  Account.get_order_info cli pair_to_order_book_symbol int_of_str pair
    order_id client_order_id false log
  = (Ok (OrderInfo.mk order_info [] ∅),
     log ++ [ReqQueryOrder symbol oid client_order_id])
  /\ forall o log',
       Account.get_order_info cli pair_to_order_book_symbol int_of_str pair
         order_id client_order_id true log = (Ok o, log') ->
       exists id answer items,
         Json.getitem order_info "orderId" = Ok id
         /\ log' = log ++ [ReqQueryOrder symbol oid client_order_id;
                           ReqGetTrades symbol id]
         /\ cli (log ++ [ReqQueryOrder symbol oid client_order_id])
              (ReqGetTrades symbol id) = Ok answer
         /\ Json.iter answer = Ok items
         /\ OrderInfo.json o = order_info
         /\ OrderInfo.trades o = Trade.mk <$> items.
Proof.
  intros Hs Ho Hq. rewrite !AccountFacts.get_order_info_spec, Hs, Ho.
  cbn zeta. rewrite Hq. split; [reflexivity|].
  intros o log' H.
  destruct (Json.getitem order_info "orderId") as [id|]; [|discriminate].
  injection H as H <-.
  apply bind_Ok in H. destruct H as (answer & Ha & H).
  apply bind_Ok in H. destruct H as (items & Hi & H).
  apply OrderInfo_init_Ok in H as (Hj & Ht & _).
  exists id, answer, items. rewrite <- app_assoc. auto 10.
Qed.

Lemma Account_get_order_info_requests_witness :
  Account.get_order_info sample_account_cli
    sample_futures_pair_to_order_book_symbol sample_int_of_str
    sample_futures_pair (Some "7") (Some "x1") false []
  = (Ok (OrderInfo.mk sample_order_json [] ∅),
     [] ++ [ReqQueryOrder "ABCUSDT" (Some 7) (Some "x1")])
  /\ forall o log',
       Account.get_order_info sample_account_cli
         sample_futures_pair_to_order_book_symbol sample_int_of_str
         sample_futures_pair (Some "7") (Some "x1") true [] = (Ok o, log') ->
       exists id answer items,
         Json.getitem sample_order_json "orderId" = Ok id
         /\ log' = [] ++ [ReqQueryOrder "ABCUSDT" (Some 7) (Some "x1");
                          ReqGetTrades "ABCUSDT" id]
         /\ sample_account_cli
              ([] ++ [ReqQueryOrder "ABCUSDT" (Some 7) (Some "x1")])
              (ReqGetTrades "ABCUSDT" id) = Ok answer
         /\ Json.iter answer = Ok items
         /\ OrderInfo.json o = sample_order_json
         /\ OrderInfo.trades o = Trade.mk <$> items.
Proof.
  apply (Account_get_order_info_requests sample_account_cli
    sample_futures_pair_to_order_book_symbol sample_int_of_str
    sample_futures_pair (Some "7") (Some "x1") "ABCUSDT" (Some 7)
    sample_order_json []).
  - reflexivity.
  - reflexivity.
  - reflexivity.
Defined.

(** X27. An order id that [int] does not take stops the call before any
    request: [get_order_info] and [cancel_order] raise the exception of the
    conversion and the account client is not called. No order id at all is
    passed on as [None], without conversion. *)
Theorem Account_order_id_conversion (cli : account_cli)
  (pair_to_order_book_symbol : FuturesPair.t -> result string)
  (int_of_str : string -> result Z)
  (pair : FuturesPair.t) (client_order_id : option string)
  (include_trades : bool) (symbol : string) (log : list account_request) :
  pair_to_order_book_symbol pair = Ok symbol ->
  (forall s e, int_of_str s = Raise e ->
     Account.get_order_info cli pair_to_order_book_symbol int_of_str pair
       (Some s) client_order_id include_trades log = (Raise e, log)
     /\ Account.cancel_order cli pair_to_order_book_symbol int_of_str pair
          (Some s) client_order_id log = (Raise e, log))
  /\ Account.cancel_order cli pair_to_order_book_symbol int_of_str pair
       None client_order_id log
     = (cli log (ReqCancelOrder symbol None client_order_id),
        log ++ [ReqCancelOrder symbol None client_order_id]).
Proof.
  intros Hs. split.
  - intros s e He.
    rewrite AccountFacts.get_order_info_spec, AccountFacts.cancel_order_spec,
      Hs, AccountFacts.order_id_arg_spec, He. auto.
  - rewrite AccountFacts.cancel_order_spec, Hs. reflexivity.
Qed.

Lemma Account_order_id_conversion_witness :
  Account.get_order_info sample_account_cli
    sample_futures_pair_to_order_book_symbol sample_int_of_str
    sample_futures_pair (Some "7a") None true []
  = (Raise (ValueError "invalid literal for int() with base 10: '7a'"), [])
  /\ Account.cancel_order sample_account_cli
       sample_futures_pair_to_order_book_symbol sample_int_of_str
       sample_futures_pair (Some "7a") None []
     = (Raise (ValueError "invalid literal for int() with base 10: '7a'"), []).
Proof.
  apply (proj1 (Account_order_id_conversion sample_account_cli
    sample_futures_pair_to_order_book_symbol sample_int_of_str
    sample_futures_pair None true "ABCUSDT" [] eq_refl) "7a").
  reflexivity.
Defined.

(** X28. The calls a method of the futures account makes on its client
    are added to those made before, which stay as they were: one call at
    most for [get_balances], [create_order], [get_open_orders] and
    [cancel_order], two at most for [get_order_info]. *)
Theorem Account_calls_bounded (cli : account_cli)
  (pair_to_order_book_symbol : FuturesPair.t -> result string)
  (order_operation_to_side : OrderOperation.t -> result string)
  (int_of_str : string -> result Z)
  (o : ExchangeOrder.t) (pair : FuturesPair.t) (pair_opt : option FuturesPair.t)
  (order_id client_order_id : option string) (include_trades : bool)
  (log : list account_request) :
  let grows (n : nat) (log' : list account_request) :=
    exists rs, log' = log ++ rs /\ (length rs <= n)%nat in
  grows 1%nat (log_after (Account.get_balances cli) log)
  /\ grows 1%nat
       (log_after (Account.create_order cli pair_to_order_book_symbol
                     order_operation_to_side o) log)
  /\ grows 1%nat
       (log_after (Account.get_open_orders cli pair_to_order_book_symbol
                     pair_opt) log)
  /\ grows 1%nat
       (log_after (Account.cancel_order cli pair_to_order_book_symbol
                     int_of_str pair order_id client_order_id) log)
  /\ grows (if include_trades then 2%nat else 1%nat)
       (log_after (Account.get_order_info cli pair_to_order_book_symbol
                     int_of_str pair order_id client_order_id include_trades)
          log).
Proof.
  cbn zeta. unfold log_after.
  assert (H0 : forall n, exists rs : list account_request,
                 log = log ++ rs /\ (length rs <= n)%nat)
    by (intros n; exists []; rewrite app_nil_r; split; [reflexivity|cbn; lia]).
  assert (H1 : forall r n, (1 <= n)%nat ->
                 exists rs : list account_request,
                   log ++ [r] = log ++ rs /\ (length rs <= n)%nat)
    by (intros r n Hn; exists [r]; split; [reflexivity|exact Hn]).
  split; [|split; [|split; [|split]]].
  - unfold Account.get_balances. cbv [mbind M_bind mret M_ret account_call].
    destruct (cli log _); apply H1; lia.
  - rewrite AccountFacts.account_create_order_spec.
    destruct (pair_to_order_book_symbol _); [|apply H0].
    destruct (order_operation_to_side _); [|apply H0].
    destruct (call_keywords _ _); [|apply H0]. apply H1. lia.
  - rewrite AccountFacts.get_open_orders_spec.
    destruct pair_opt as [p|]; [|apply H1; lia].
    destruct (pair_to_order_book_symbol p); [|apply H0]. apply H1. lia.
  - rewrite AccountFacts.cancel_order_spec.
    destruct (pair_to_order_book_symbol pair); [|apply H0].
    destruct (Account.order_id_arg _ _); [|apply H0]. apply H1. lia.
  - rewrite AccountFacts.get_order_info_spec.
    destruct (pair_to_order_book_symbol pair); [|apply H0].
    destruct (Account.order_id_arg _ _); [|apply H0]. cbn zeta.
    destruct (cli log _) as [info|]; [|apply H1; destruct include_trades; lia].
    destruct include_trades; [|apply H1; lia].
    destruct (Json.getitem info "orderId"); [|apply H1; lia].
    cbn [snd]. rewrite <- app_assoc. eexists. split; [reflexivity|cbn; lia].
Qed.

(** X29. [OrderWrapper.is_open], which order infos, open orders and
    canceled orders inherit, has no guard of its own: on a payload without
    "status" it raises [KeyError] before the status helper is called, and a
    [null] status is handed to the helper as it is. On every payload on
    which [CreatedOrder.is_open] returns, it returns the same. *)
Theorem OrderWrapper_is_open_unguarded
  (order_status_is_open : jval -> result bool) (m : gmap string jval) :
  (m !! "status" = None ->
   OrderWrapper_is_open order_status_is_open (JDict m) = Raise (KeyError "status"))
  /\ (m !! "status" = Some JNull ->
   OrderWrapper_is_open order_status_is_open (JDict m)
   = order_status_is_open JNull)
  /\ (forall b,
   CreatedOrder.is_open order_status_is_open (CreatedOrder.mk (JDict m)) = Ok b ->
   OrderWrapper_is_open order_status_is_open (JDict m) = Ok b).
Proof.
  unfold OrderWrapper_is_open, OrderWrapper_status, CreatedOrder.is_open,
    CreatedOrder.status, Json.getitem, Json.get. cbn [CreatedOrder.json].
  split; [|split].
  - intros ->. reflexivity.
  - intros ->. reflexivity.
  - intros b. destruct (m !! "status") as [s|]; cbn; [|discriminate].
    destruct s; cbn; try discriminate; auto.
Qed.

Lemma OrderWrapper_is_open_unguarded_witness :
  OrderWrapper_is_open sample_order_status_is_open
    (Json.dict [("orderId", JInt 7); ("clientOrderId", JStr "x1");
                ("transactTime", JInt 1700000000000)])
  = Raise (KeyError "status").
Proof.
  apply (proj1 (OrderWrapper_is_open_unguarded sample_order_status_is_open
    (list_to_map [("orderId", JInt 7); ("clientOrderId", JStr "x1");
                  ("transactTime", JInt 1700000000000)]))).
  reflexivity.
Defined.

(** X30. [get_bid_ask] reads the first level of each side of the order
    book and nothing else: the bid and the ask are the prices of the first
    bid level and of the first ask level, whatever levels follow. The bids
    are read first: a book without a bid level raises [IndexError] whatever
    its asks are, and a book with a bid level and no ask level raises
    [IndexError] too. *)
Theorem get_bid_ask_first_level (get_order_book : string -> Z -> result jval)
  (symbol : string) (m : gmap string jval) :
  get_order_book symbol 1 = Ok (JDict m) ->
  (forall bid_price bid_rest bids ask_price ask_rest asks,
     m !! "bids" = Some (JList (JList (bid_price :: bid_rest) :: bids)) ->
     m !! "asks" = Some (JList (JList (ask_price :: ask_rest) :: asks)) ->
     get_bid_ask get_order_book (Ok symbol)
     = (bid ← Decimal.of_json bid_price;
        ask ← Decimal.of_json ask_price;
        Ok (bid, ask)))
  /\ (m !! "bids" = Some (JList []) ->
      get_bid_ask get_order_book (Ok symbol)
      = Raise (IndexError "list index out of range"))
  /\ (forall bid_price bid_rest bids bid,
      m !! "bids" = Some (JList (JList (bid_price :: bid_rest) :: bids)) ->
      Decimal.of_json bid_price = Ok bid ->
      m !! "asks" = Some (JList []) ->
      get_bid_ask get_order_book (Ok symbol)
      = Raise (IndexError "list index out of range")).
Proof.
  intros Hb. unfold get_bid_ask, bid_ask_of, Json.getitem.
  cbn [mbind result_bind]. rewrite Hb. cbn [mbind result_bind].
  split; [|split].
  - intros bp br bids ap ar asks -> ->. cbn [mbind result_bind Json.index0].
    destruct (Decimal.of_json bp); reflexivity.
  - intros ->. reflexivity.
  - intros bp br bids bid -> Hbid ->. cbn [mbind result_bind Json.index0].
    rewrite Hbid. reflexivity.
Qed.

Lemma get_bid_ask_first_level_witness :
  get_bid_ask
    (fun _ _ => Ok (Json.dict
       [("bids", JList [JList [JStr "99.5"; JStr "2"]; JList [JStr "99.4"; JStr "7"]]);
        ("asks", JList [JList [JStr "99.7"; JStr "1"]])]))
    (Ok "BTCUSDT")
  = (bid ← Decimal.of_json (JStr "99.5");
     ask ← Decimal.of_json (JStr "99.7");
     Ok (bid, ask)).
Proof.
  apply (proj1 (get_bid_ask_first_level
    (fun _ _ => Ok (Json.dict
       [("bids", JList [JList [JStr "99.5"; JStr "2"]; JList [JStr "99.4"; JStr "7"]]);
        ("asks", JList [JList [JStr "99.7"; JStr "1"]])]))
    "BTCUSDT"
    (list_to_map
       [("bids", JList [JList [JStr "99.5"; JStr "2"]; JList [JStr "99.4"; JStr "7"]]);
        ("asks", JList [JList [JStr "99.7"; JStr "1"]])])
    eq_refl) (JStr "99.5") [JStr "2"] [JList [JStr "99.4"; JStr "7"]]
    (JStr "99.7") [JStr "1"] []).
  - reflexivity.
  - reflexivity.
Defined.
